(** * OCR4all AJAX client: a model of [ocr4all_ajax_utils.py]

    The client is a flat set of functions that talk to the OCR4all web
    application through a [requests.Session], sleep between polls, read the
    wall clock and write log lines.  Each function is embedded as an
    interaction tree over the events of that conversation; a handler gives
    the events their meaning against a scripted environment and records
    them in a trace, so that statements such as "no POST is issued" or
    "one invalidation call precedes the failure" are statements about the
    trace of a run. *)

From Stdlib Require Import PrimFloat SpecFloat FloatOps.
From Stdlib Require Import ZArith NArith QArith List String Ascii Bool Lia.
From Stdlib Require Import DecimalString.
From Stdlib Require DecimalPos.
From ITree Require Import ITree ITreeFacts Events.State Events.StateFacts.
Import ListNotations.
Import ITreeNotations.
Import Monads.
Local Open Scope itree_scope.
Local Open Scope Z_scope.

(* ===================================================================== *)
(** ** Python strings *)
(* ===================================================================== *)

Module PyStr.

(** A [str] is a sequence of Unicode code points. *)
Definition char := N.
Definition pystr := list char.

(** A source-code literal; every literal of the module is ASCII. *)
Definition lit (s : string) : pystr :=
  List.map N_of_ascii (list_ascii_of_string s).

Definition eq_dec (a b : pystr) : {a = b} + {a <> b} :=
  list_eq_dec N.eq_dec a b.

Definition eqb (a b : pystr) : bool := if eq_dec a b then true else false.

(** [str.isspace] on one code point: the characters whose bidirectional
    class is WS, B or S, or whose category is Zs. *)
Definition isspace (c : char) : bool :=
  ((9 <=? c) && (c <=? 13) || (28 <=? c) && (c <=? 32)
   || (c =? 133) || (c =? 160) || (c =? 5760)
   || (8192 <=? c) && (c <=? 8202)
   || (c =? 8232) || (c =? 8233) || (c =? 8239) || (c =? 8287)
   || (c =? 12288))%N%bool.

Fixpoint lstrip (s : pystr) : pystr :=
  match s with
  | c :: s' => if isspace c then lstrip s' else s
  | [] => []
  end.

Definition rstrip (s : pystr) : pystr := rev (lstrip (rev s)).

(** [s.strip()] with no argument. *)
Definition strip (s : pystr) : pystr := rstrip (lstrip s).

(** [s[:n]] for [n >= 0]. *)
Definition head (n : nat) (s : pystr) : pystr := firstn n s.

(** [str(b).lower()] for a [bool]. *)
Definition lower_of_bool (b : bool) : pystr :=
  if b then lit "true" else lit "false".

(** [str(z)] for an [int]. *)
Definition of_int (z : Z) : pystr :=
  lit (NilZero.string_of_int (Z.to_int z)).

End PyStr.

Import PyStr.

(* ===================================================================== *)
(** ** Python floats *)
(* ===================================================================== *)

(** A [float] is an IEEE 754 binary64 number, and so is the primitive
    [float] used here: [x - y] below is the subtraction of the machine,
    rounded to the nearest float. *)

(** The number a finite float stands for; [None] for an infinity and for
    a NaN. *)
Definition float_value (x : float) : option Q :=
  match Prim2SF x with
  | S754_zero _ => Some 0%Q
  | S754_finite s m e =>
      let v := if s then Z.neg m else Z.pos m in
      Some (if (0 <=? e)%Z then inject_Z (v * 2 ^ e)
            else (v # Z.to_pos (2 ^ (- e)))%Q)
  | S754_infinity _ => None
  | S754_nan => None
  end.

(** [x > n] for a [float] [x] and an [int] [n].  Python compares the two
    numbers as they are, without rounding [n] to a float; an infinity
    compares by its sign, and a NaN is not greater than anything. *)
Definition float_gt_int (x : float) (n : Z) : bool :=
  match Prim2SF x with
  | S754_zero _ => (n <? 0)%Z
  | S754_finite s m e =>
      let v := if s then Z.neg m else Z.pos m in
      if (0 <=? e)%Z then (n <? v * 2 ^ e)%Z else (n * 2 ^ (- e) <? v)%Z
  | S754_infinity negative => negb negative
  | S754_nan => false
  end.

(* ===================================================================== *)
(** ** Values on the wire *)
(* ===================================================================== *)

(** A decoded JSON document, as [json.loads] builds it.  A [float] is
    identified by its [repr]; a [dict] keeps its keys in insertion
    order. *)
#[warning="-register-all"]
Inductive json : Type :=
| JNone
| JBool (b : bool)
| JInt (z : Z)
| JFloat (repr : pystr)
| JStr (s : pystr)
| JList (l : list json)
| JDict (l : list (pystr * json)).

(** The attributes of a [requests.Response] the client looks at:
    [r.status_code], [r.text], and the outcome of [r.json()], which is
    [None] when decoding raises. *)
Record response : Type := mkResponse {
  status_code : Z;
  text : pystr;
  json_body : option json
}.

(** Transport failures raised by [session.get] and [session.post]
    (classes of [requests.exceptions]). *)
Inductive transport_error : Type :=
| ReadTimeout
| ConnectTimeout
| ConnectionError
| SSLError
| ProxyError
| TooManyRedirects
| ChunkedEncodingError
| ContentDecodingError.

(** What one call on the session comes back with. *)
Inductive http_result : Type :=
| Answer (r : response)
| Broken (x : transport_error).

(** The pieces of an f-string, kept apart: literal text, [{x}] for a
    [str], [{x!r}] for a [str], and [{n}] for an [int].  A message can so
    be inspected for what it carries without fixing the interpreter's
    [repr] of a string. *)
Inductive fpart : Type :=
| FLit (s : string)
| FStr (s : pystr)
| FRepr (s : pystr)
| FInt (z : Z).

Definition fstring := list fpart.

(** The exceptions that can leave a function of the module. *)
Inductive exn : Type :=
| HTTPError (r : response)
| RequestException (x : transport_error)
| RuntimeError (msg : fstring)
| TimeoutError (msg : fstring)
| ValueError (msg : fstring)
| OverflowError (msg : fstring).

(** The result of a call: a value or a raised exception. *)
Inductive outcome (A : Type) : Type :=
| Returned (a : A)
| Raised (x : exn).
Arguments Returned {A} a.
Arguments Raised {A} x.

Inductive http_method : Type := GET | POST.

(** The body of a POST: [data=] with a string, [data=] with a form
    mapping, or [json=]. *)
Inductive body : Type :=
| NoBody
| DataJsonDumps (j : json)
| DataForm (fields : list (string * pystr))
| JsonBody (j : json).

Record request : Type := mkRequest {
  meth : http_method;
  url : pystr;
  params : list (string * pystr);
  headers : list (string * pystr);
  payload : body;
  timeout : Q
}.

(** [Response.raise_for_status]: [HTTPError] for a client error (4xx) or a
    server error (5xx), nothing otherwise. *)
Definition raise_for_status (r : response) : outcome unit :=
  if (400 <=? status_code r) && (status_code r <? 600)
  then Raised (HTTPError r)
  else Returned tt.

(* ===================================================================== *)
(** ** Builtins: [int(s)] and [str(x)] *)
(* ===================================================================== *)

Section Builtins.

(** Two tables of the interpreter are left open: the decimal value of a
    non-ASCII code point ([None] when it is not a decimal digit), and the
    [repr] of a [str].  [max_str_digits] is the interpreter's limit on
    the length of an integer literal it converts; 0 switches it off. *)
Variable to_decimal : char -> option N.
Variable max_str_digits : N.
Variable repr_str : pystr -> pystr.

Inductive token : Type :=
| TSpace
| TSign (negative : bool)
| TDigit (d : N)
| TUnderscore
| TOther.

(** How [int] reads one code point: ASCII is taken as it is, any other
    white space counts as a blank, any other decimal digit as its
    value. *)
Definition classify (c : char) : token :=
  if (c <? 127)%N then
    if ((9 <=? c) && (c <=? 13) || (c =? 32))%N then TSpace
    else if ((48 <=? c) && (c <=? 57))%N then TDigit (c - 48)
    else if (c =? 43)%N then TSign false
    else if (c =? 45)%N then TSign true
    else if (c =? 95)%N then TUnderscore
    else TOther
  else if isspace c then TSpace
  else match to_decimal c with
       | Some d => TDigit d
       | None => TOther
       end.

Fixpoint skip_spaces (ts : list token) : list token :=
  match ts with
  | TSpace :: ts' => skip_spaces ts'
  | _ => ts
  end.

(** The digits of the literal, most significant first: an underscore may
    stand between two digits, never twice in a row and never last.  The
    scan stops at the first token that is neither; it yields the value,
    the number of digits and what is left. *)
Fixpoint scan_digits (ts : list token) (acc : Z) (count : N) (after_underscore : bool)
  : option (Z * N * list token) :=
  match ts with
  | TDigit d :: ts' => scan_digits ts' (10 * acc + Z.of_N d) (count + 1)%N false
  | TUnderscore :: ts' =>
      if after_underscore then None else scan_digits ts' acc count true
  | _ => if after_underscore then None else Some (acc, count, ts)
  end.

Definition too_many_digits (count : N) : bool :=
  ((0 <? max_str_digits) && (640 <? count) && (max_str_digits <? count))%N.

(** [int(s)] for a [str], base 10; [None] stands for [ValueError]. *)
Definition py_int (s : pystr) : option Z :=
  let ts := skip_spaces (List.map classify s) in
  let '(negative, ts) :=
    match ts with
    | TSign b :: ts' => (b, ts')
    | _ => (false, ts)
    end in
  match ts with
  | TDigit _ :: _ =>
      match scan_digits ts 0 0%N false with
      | Some (v, count, rest) =>
          match skip_spaces rest with
          | [] => if too_many_digits count then None
                  else Some (if negative then - v else v)
          | _ => None
          end
      | None => None
      end
  | _ => None
  end.

Definition join (sep : pystr) (l : list pystr) : pystr :=
  match l with
  | [] => []
  | x :: xs => x ++ flat_map (fun y => sep ++ y) xs
  end.

(** [repr(x)] for a decoded JSON value. *)
Fixpoint py_repr (x : json) : pystr :=
  match x with
  | JNone => lit "None"
  | JBool b => if b then lit "True" else lit "False"
  | JInt z => of_int z
  | JFloat r => r
  | JStr s => repr_str s
  | JList l => lit "[" ++ join (lit ", ") (List.map py_repr l) ++ lit "]"
  | JDict l =>
      lit "{" ++
      join (lit ", ")
        (List.map (fun kv => repr_str (fst kv) ++ lit ": " ++ py_repr (snd kv)) l)
      ++ lit "}"
  end.

(** [str(x)]: a string is itself, anything else is its [repr]. *)
Definition py_str (x : json) : pystr :=
  match x with
  | JStr s => s
  | _ => py_repr x
  end.

(** [str(type(x))]. *)
Definition type_str (x : json) : pystr :=
  match x with
  | JNone => lit "<class 'NoneType'>"
  | JBool _ => lit "<class 'bool'>"
  | JInt _ => lit "<class 'int'>"
  | JFloat _ => lit "<class 'float'>"
  | JStr _ => lit "<class 'str'>"
  | JList _ => lit "<class 'list'>"
  | JDict _ => lit "<class 'dict'>"
  end.

(** [isinstance(x, list)]. *)
Definition is_list (x : json) : bool :=
  match x with
  | JList _ => true
  | _ => false
  end.

End Builtins.

(** The ASCII-only digit table, for worked examples. *)
Definition ascii_only : char -> option N := fun _ => None.

(* ===================================================================== *)
(** ** The conversation with the outside world *)
(* ===================================================================== *)

Inductive log_level : Type := LInfo | LWarning | LError.

(** What a function of the module can ask of its surroundings.  [Sleep]
    is a sleep that takes place: the check [time.sleep] makes on its
    argument before it sleeps, and the exception it raises when the
    check fails, are part of the function body ([time_sleep] below). *)
Variant ocrE : Type -> Type :=
| Http (rq : request) : ocrE http_result     (* session.get, session.post *)
| Now : ocrE float                           (* time.time() *)
| Sleep (secs : Q) : ocrE unit               (* a sleep carried out *)
| Log (lvl : log_level) (msg : fstring) : ocrE unit   (* logger.<lvl>(msg) *)
| Getenv (key : string) : ocrE (option pystr).        (* os.getenv(key) *)

(** A function body: an interaction tree that ends with a value or with a
    raised exception. *)
Definition prog (A : Type) : Type := itree ocrE (outcome A).

Definition ret {A} (a : A) : prog A := Ret (Returned a).
Definition raise {A} (x : exn) : prog A := Ret (Raised x).

(** Sequencing: a raised exception skips the rest. *)
Definition bind {A B} (p : prog A) (k : A -> prog B) : prog B :=
  ITree.bind p (fun o =>
    match o with
    | Returned a => k a
    | Raised x => Ret (Raised x)
    end).

(** An effect that cannot raise. *)
Definition perform {A} (e : ocrE A) : prog A :=
  ITree.bind (ITree.trigger e) (fun a => Ret (Returned a)).

(** A pure step that may raise. *)
Definition lift {A} (o : outcome A) : prog A := Ret o.

Declare Scope prog_scope.
Delimit Scope prog_scope with prog.
Notation "x <-- p ;;; k" := (bind p (fun x => k))
  (at level 62, p at next level, right associativity) : prog_scope.
Notation "p ;;; k" := (bind p (fun _ => k))
  (at level 62, right associativity) : prog_scope.
Local Open Scope prog_scope.

(** [session.get(...)] and [session.post(...)]: the response, or the
    transport failure raised as an exception. *)
Definition session_send (rq : request) : prog response :=
  ITree.bind (ITree.trigger (Http rq)) (fun res =>
    match res with
    | Answer r => Ret (Returned r)
    | Broken x => Ret (Raised (RequestException x))
    end).

(* ===================================================================== *)
(** ** Environments, traces and runs *)
(* ===================================================================== *)

(** The surroundings of one run: the result of the [n]-th call on the
    session (counted from 0) for the request that was sent, the value of
    the [n]-th reading of the clock, and the process environment.  A
    reading of the clock is a [float], as [time.time()] returns it. *)
Record env : Type := mkEnv {
  http : nat -> request -> http_result;
  clock : nat -> float;
  environ : string -> option pystr
}.

(** What an observer of a run sees, in order. *)
Inductive event : Type :=
| EvHttp (rq : request) (res : http_result)
| EvSleep (secs : Q)
| EvLog (lvl : log_level) (msg : fstring).

Record world : Type := mkWorld {
  sent : nat;             (* calls made on the session so far *)
  ticks : nat;            (* readings of the clock so far *)
  trace : list event      (* oldest first *)
}.

Definition start : world := mkWorld 0 0 [].

Definition called (rq : request) (res : http_result) (w : world) : world :=
  mkWorld (S (sent w)) (ticks w) (trace w ++ [EvHttp rq res]).

Definition ticked (w : world) : world :=
  mkWorld (sent w) (S (ticks w)) (trace w).

Definition seen (ev : event) (w : world) : world :=
  mkWorld (sent w) (ticks w) (trace w ++ [ev]).

Definition handle (e : env) : ocrE ~> stateT world (itree void1) :=
  fun _ ev w =>
    match ev with
    | Http rq => let res := http e (sent w) rq in Ret (called rq res w, res)
    | Now => Ret (ticked w, clock e (ticks w))
    | Sleep secs => Ret (seen (EvSleep secs) w, tt)
    | Log lvl msg => Ret (seen (EvLog lvl msg) w, tt)
    | Getenv key => Ret (w, environ e key)
    end.

Definition run (e : env) {A} (p : itree ocrE A) (w : world)
  : itree void1 (world * A) :=
  interp_state (handle e) p w.

(** The run of [p] from [w] ends in world [w'] with result [a]. *)
Definition ends (e : env) {A} (p : itree ocrE A) (w w' : world) (a : A) : Prop :=
  run e p w ≈ Ret (w', a).

(** A bounded evaluator for closed runs. *)
Fixpoint steps {R} (fuel : nat) (t : itree void1 R) : option R :=
  match fuel with
  | O => None
  | S fuel' =>
      match observe t with
      | RetF r => Some r
      | TauF t' => steps fuel' t'
      | VisF e _ => match e with end
      end
  end.

(* ===================================================================== *)
(** ** The module *)
(* ===================================================================== *)

(** The three module constants, read from the process environment when
    the module is imported. *)
Record settings : Type := mkSettings {
  OCR4ALL_EXEC_TIMEOUT_S : Z;
  OCR4ALL_WAIT_TIMEOUT_S : Z;
  OCR4ALL_HTTP_TIMEOUT_S : Z
}.

(** [if b: p]. *)
Definition when (b : bool) (p : prog unit) : prog unit :=
  if b then p else ret tt.

(** The request of [session.get(u, params=ps, timeout=t)]. *)
Definition get_request (u : pystr) (ps : list (string * pystr)) (t : Z) : request :=
  mkRequest GET u ps [] NoBody (inject_Z t).

Section Client.

Variable cfg : settings.

(** The interpreter's tables that [int] and [str] consult. *)
Variable to_decimal : char -> option N.
Variable max_str_digits : N.
Variable repr_str : pystr -> pystr.

(** The durations the platform's clock cannot hold: [time.sleep] converts
    its argument to the unit of that clock first, and raises
    [OverflowError] when the result does not fit.  Where the limit lies
    depends on the platform and on the type of the argument, so it is
    left open. *)
Variable too_long : Q -> bool.

(** The requests of [ocr4all_open_project]. *)
Definition root_request (base_url : pystr) : request :=
  get_request (base_url ++ lit "/") [] (OCR4ALL_HTTP_TIMEOUT_S cfg).

Definition checkDir_request (base_url project_dir image_type : pystr)
    (reset_session : bool) : request :=
  get_request (base_url ++ lit "/ajax/overview/checkDir")
    [("projectDir", project_dir); ("imageType", image_type);
     ("resetSession", lower_of_bool reset_session)]%string
    (OCR4ALL_HTTP_TIMEOUT_S cfg).

Definition validate_request (base_url : pystr) : request :=
  get_request (base_url ++ lit "/ajax/overview/validate") []
    (OCR4ALL_HTTP_TIMEOUT_S cfg).

Definition invalidateSession_request (base_url : pystr) : request :=
  get_request (base_url ++ lit "/ajax/overview/invalidateSession") []
    (OCR4ALL_HTTP_TIMEOUT_S cfg).

Definition validateProject_request (base_url project_dir image_type : pystr)
    : request :=
  get_request (base_url ++ lit "/ajax/overview/validateProject")
    [("projectDir", project_dir); ("imageType", image_type)]%string
    (OCR4ALL_HTTP_TIMEOUT_S cfg).

(** [ocr4all_open_project(session, base_url, project_dir,
    image_type="Original", reset_session=True)]. *)
Definition ocr4all_open_project (base_url project_dir image_type : pystr)
    (reset_session : bool) : prog unit :=
  (* Ensure session cookie exists *)
  r0 <-- session_send (root_request base_url) ;;;
  lift (raise_for_status r0) ;;;
  (* 1) checkDir *)
  r <-- session_send
          (checkDir_request base_url project_dir image_type reset_session) ;;;
  lift (raise_for_status r) ;;;
  when (negb (eqb (strip (text r)) (lit "true")))
    (raise (RuntimeError
       [FLit "ocr4all checkDir returned "; FRepr (text r);
        FLit " for projectDir="; FStr project_dir])) ;;;
  (* 2) validate *)
  r <-- session_send (validate_request base_url) ;;;
  lift (raise_for_status r) ;;;
  when (negb (eqb (strip (text r)) (lit "true")))
    (session_send (invalidateSession_request base_url) ;;;
     raise (RuntimeError [FLit "ocr4all validate returned "; FRepr (text r)])) ;;;
  (* 3) validateProject *)
  r <-- session_send
          (validateProject_request base_url project_dir image_type) ;;;
  lift (raise_for_status r) ;;;
  when (negb (eqb (strip (text r)) (lit "true")))
    (raise (RuntimeError
       [FLit "ocr4all validateProject returned:
 "; FRepr (text r)])).

Definition pagelist_request (base_url image_type : pystr) : request :=
  get_request (base_url ++ lit "/ajax/generic/pagelist")
    [("imageType", image_type)]%string (OCR4ALL_HTTP_TIMEOUT_S cfg).

(** [ocr4all_get_page_ids(session, base_url, image_type="Binary")]:
    [r.json()] is [json_body r], and the final [match] has one live
    branch, the payload being a list once the check above is passed. *)
Definition ocr4all_get_page_ids (base_url image_type : pystr)
    : prog (list pystr) :=
  r <-- session_send (pagelist_request base_url image_type) ;;;
  lift (raise_for_status r) ;;;
  (* OCR4all returns JSON array, e.g. ["0001", "0002", ...] or [] *)
  data <-- match json_body r with
           | Some data => ret data
           | None =>
               raise (RuntimeError
                 [FLit "pagelist did not return JSON. head=";
                  FRepr (head 200 (text r))])
           end ;;;
  when (negb (is_list data))
    (raise (RuntimeError
       [FLit "Unexpected pagelist payload: "; FStr (type_str data); FLit " ";
        FStr (head 200 (py_str repr_str data))])) ;;;
  ret (match data with
       | JList l => List.map (py_str repr_str) l
       | _ => []
       end).

Definition threads_request (base_url : pystr) : request :=
  get_request (base_url ++ lit "/ajax/generic/threads") []
    (OCR4ALL_HTTP_TIMEOUT_S cfg).

(** [ocr4all_threads(session, base_url)]: the [except Exception] branch
    is the [None] of [py_int]. *)
Definition ocr4all_threads (base_url : pystr) : prog Z :=
  r <-- session_send (threads_request base_url) ;;;
  lift (raise_for_status r) ;;;
  match py_int to_decimal max_str_digits (strip (text r)) with
  | Some n => ret (Z.max 1 n)
  | None => ret 1
  end.

(** The JSON document both execute functions send.  The arguments are
    what their annotations say: lists of strings and a dictionary that
    [json.dumps] can write. *)
Definition execute_payload (page_ids processes : list pystr)
    (process_settings : json) : json :=
  JDict [(lit "pageIds", JList (List.map JStr page_ids));
         (lit "processesToExecute", JList (List.map JStr processes));
         (lit "processSettings", process_settings)].

Definition execute_request (base_url : pystr) (page_ids processes : list pystr)
    (process_settings : json) : request :=
  mkRequest POST (base_url ++ lit "/ajax/processFlow/execute") []
    [("Accept", lit "application/json");
     ("Content-Type", lit "application/json")]%string
    (DataJsonDumps (execute_payload page_ids processes process_settings))
    (inject_Z (OCR4ALL_EXEC_TIMEOUT_S cfg)).

(** [ocr4all_processflow_execute(session, base_url, page_ids, processes,
    process_settings)]. *)
Definition ocr4all_processflow_execute (base_url : pystr)
    (page_ids processes : list pystr) (process_settings : json) : prog unit :=
  r <-- session_send
          (execute_request base_url page_ids processes process_settings) ;;;
  when (negb (status_code r =? 200))
    (raise (RuntimeError
       [FLit "processFlow/execute failed: HTTP "; FInt (status_code r);
        FLit ": "; FStr (head 500 (text r))])).

Definition current_request (base_url : pystr) : request :=
  get_request (base_url ++ lit "/ajax/processFlow/current") []
    (OCR4ALL_HTTP_TIMEOUT_S cfg).

(** [ocr4all_processflow_current(session, base_url)]. *)
Definition ocr4all_processflow_current (base_url : pystr) : prog pystr :=
  r <-- session_send (current_request base_url) ;;;
  lift (raise_for_status r) ;;;
  ret (strip (text r)).

(** [cur != last], where [last] starts as [None]. *)
Definition differs (cur : pystr) (last : option pystr) : bool :=
  match last with
  | Some l => negb (eqb cur l)
  | None => true
  end.

(** One turn of the [while True] of [ocr4all_processflow_wait]: [inl] goes
    round again with the new [last], [inr] leaves the function. *)
Definition wait_turn (base_url : pystr) (timeout_s : Z) (t0 : float)
    (last : option pystr) : prog (option pystr + unit) :=
  cur <-- ocr4all_processflow_current base_url ;;;
  last <-- (if differs cur last
            then perform (Log LInfo [FLit "OCR4all current: "; FRepr cur]) ;;;
                 ret (Some cur)
            else ret last) ;;;
  if eqb cur (lit "") then ret (inr tt)
  else
    t <-- perform Now ;;;
    if float_gt_int (t - t0) timeout_s
    then raise (TimeoutError
                  [FLit "Timed out waiting for OCR4all process flow to finish"])
    else
      (* time.sleep(1): one second is a duration every clock holds *)
      perform (Sleep 1) ;;; ret (inl last).

(** [while True: body], with the loop state handed from turn to turn. *)
Definition while_true {S A} (body : S -> prog (S + A)) (s : S) : prog A :=
  ITree.iter (fun s =>
    ITree.bind (body s) (fun o =>
      match o with
      | Returned (inl s') => Ret (inl s')
      | Returned (inr a) => Ret (inr (Returned a))
      | Raised x => Ret (inr (Raised x))
      end)) s.

(** [ocr4all_processflow_wait(session, base_url,
    timeout_s=OCR4ALL_WAIT_TIMEOUT_S)]. *)
Definition ocr4all_processflow_wait (base_url : pystr) (timeout_s : Z)
    : prog unit :=
  t0 <-- perform Now ;;;
  while_true (wait_turn base_url timeout_s t0) None.

(** [try: body except <class>: handler]. *)
Definition try_except {A} (p : prog A) (catches : exn -> bool) (handler : prog A)
    : prog A :=
  ITree.bind p (fun o =>
    match o with
    | Returned a => Ret (Returned a)
    | Raised x => if catches x then handler else Ret (Raised x)
    end).

(** [isinstance(x, requests.exceptions.ReadTimeout)]. *)
Definition is_ReadTimeout (x : exn) : bool :=
  match x with
  | RequestException ReadTimeout => true
  | _ => false
  end.

Definition convert_request (base_url : pystr) (delete_blank : bool)
    (dpi timeout_s : Z) : request :=
  mkRequest POST (base_url ++ lit "/ajax/overview/convertProjectFiles") [] []
    (DataForm [("deleteBlank", lower_of_bool delete_blank);
               ("dpi", of_int dpi)]%string)
    (inject_Z timeout_s).

(** [ocr4all_convert_project_files(session, base_url, delete_blank, dpi,
    timeout_s=600)]. *)
Definition ocr4all_convert_project_files (base_url : pystr)
    (delete_blank : bool) (dpi timeout_s : Z) : prog pystr :=
  try_except
    (r <-- session_send (convert_request base_url delete_blank dpi timeout_s) ;;;
     lift (raise_for_status r) ;;;
     ret (text r))
    is_ReadTimeout
    ((* OCR4all often keeps converting even if the HTTP response doesn't
        arrive in time. *)
     perform (Log LWarning
       [FLit "convertProjectFiles timed out after "; FInt timeout_s;
        FLit "s; assuming conversion continues in background."]) ;;;
     ret (lit "")).

(** [os.getenv(key, default)]. *)
Definition getenv (key : string) (default : pystr) : prog pystr :=
  v <-- perform (Getenv key) ;;;
  ret (match v with Some s => s | None => default end).

Definition execute_json_request (base_url origin referer : pystr)
    (page_ids processes : list pystr) (process_settings : json) (timeout_s : Q)
    : request :=
  mkRequest POST (base_url ++ lit "/ajax/processFlow/execute") []
    [("Accept", lit "application/json");
     ("Content-Type", lit "application/json");
     ("X-Requested-With", lit "XMLHttpRequest");
     ("Origin", origin);
     ("Referer", referer)]%string
    (JsonBody (execute_payload page_ids processes process_settings))
    timeout_s.

(** The exception [time.sleep(secs)] raises in place of sleeping, for
    [secs] the value of a finite number: [OverflowError] for a duration
    the clock cannot hold, [ValueError] for a negative one. *)
Definition sleep_error (secs : Q) : option exn :=
  if too_long secs
  then Some (OverflowError
               [FLit "timestamp too large to convert to C _PyTime_t"])
  else if Qle_bool 0 secs then None
  else Some (ValueError [FLit "sleep length must be non-negative"]).

(** [time.sleep(secs)]. *)
Definition time_sleep (secs : Q) : prog unit :=
  match sleep_error secs with
  | Some x => raise x
  | None => perform (Sleep secs)
  end.

(** [range(1, retries + 1)]. *)
Definition attempts (retries : Z) : list Z :=
  List.map Z.of_nat (seq 1 (Z.to_nat retries)).

(** The [for attempt in ...] loop over what is left of the range, and the
    [raise] that follows it. *)
Fixpoint execute_json_loop (base_url : pystr) (rq : request) (retries : Z)
    (retry_sleep_s : Q) (todo : list Z) : prog unit :=
  match todo with
  | [] => raise (RuntimeError [FLit "processFlow/execute failed after retries"])
  | attempt :: todo' =>
      (* If OCR4All is busy, don't even try *)
      cur <-- ocr4all_processflow_current base_url ;;;
      if negb (eqb cur (lit "")) then
        time_sleep retry_sleep_s ;;;
        execute_json_loop base_url rq retries retry_sleep_s todo'
      else
        r <-- session_send rq ;;;
        perform (Log LInfo
          [FLit "processFlow/execute attempt "; FInt attempt; FLit "/";
           FInt retries; FLit " -> HTTP "; FInt (status_code r);
           FLit ", len="; FInt (Z.of_nat (List.length (text r)))]) ;;;
        if status_code r =? 200 then ret tt
        else
          perform (Log LError
            [FLit "processFlow/execute failed: HTTP "; FInt (status_code r);
             FLit ": "; FStr (head 1000 (text r))]) ;;;
          when (negb (eqb (text r) (lit "")))
            (perform (Log LError
               [FLit "processFlow/execute response head: ";
                FRepr (head 500 (text r))])) ;;;
          time_sleep retry_sleep_s ;;;
          execute_json_loop base_url rq retries retry_sleep_s todo'
  end.

(** [ocr4all_processflow_execute_json(session, base_url, page_ids,
    processes, process_settings, timeout_s=3600, retries=12,
    retry_sleep_s=2.0)]. *)
Definition ocr4all_processflow_execute_json (base_url : pystr)
    (page_ids processes : list pystr) (process_settings : json)
    (timeout_s : Q) (retries : Z) (retry_sleep_s : Q) : prog unit :=
  origin <-- getenv "OCR4ALL_ORIGIN" (lit "http://ocr4all:8080") ;;;
  referer <-- getenv "OCR4ALL_REFERER" (base_url ++ lit "/ProcessFlow") ;;;
  execute_json_loop base_url
    (execute_json_request base_url origin referer page_ids processes
       process_settings timeout_s)
    retries retry_sleep_s (attempts retries).

End Client.

(* ===================================================================== *)
(** ** What is observed of an answer and of a trace *)
(* ===================================================================== *)

(** The call was answered and [raise_for_status] lets the answer pass. *)
Definition accepted (res : http_result) : bool :=
  match res with
  | Answer r => negb ((400 <=? status_code r) && (status_code r <? 600))
  | Broken _ => false
  end.

(** The call was answered and the trimmed text is ["true"]. *)
Definition says_true (res : http_result) : bool :=
  match res with
  | Answer r => eqb (strip (text r)) (lit "true")
  | Broken _ => false
  end.

(** [r.text] of the answer. *)
Definition text_of (res : http_result) : pystr :=
  match res with
  | Answer r => text r
  | Broken _ => []
  end.

(** The exception that ends a call that was not [accepted]. *)
Definition refusal (res : http_result) : exn :=
  match res with
  | Answer r => HTTPError r
  | Broken x => RequestException x
  end.

(** The call was answered with a 2xx status. *)
Definition is_2xx (res : http_result) : bool :=
  match res with
  | Answer r => (200 <=? status_code r) && (status_code r <? 300)
  | Broken _ => false
  end.

(** Every call of a successful run was accepted, and the three steps said
    ["true"]. *)
Definition all_passed (b0 b1 b2 b3 : http_result) : bool :=
  accepted b0 && (accepted b1 && says_true b1) &&
  (accepted b2 && says_true b2) && (accepted b3 && says_true b3).

(** Counting the calls of a trace. *)
Definition is_call (m : http_method) (ev : event) : bool :=
  match ev with
  | EvHttp rq _ =>
      match meth rq, m with
      | GET, GET | POST, POST => true
      | _, _ => false
      end
  | _ => false
  end.

Definition count_calls (m : http_method) (t : list event) : nat :=
  List.length (filter (is_call m) t).

Definition calls_to (u : pystr) (t : list event) : nat :=
  List.length
    (filter (fun ev => match ev with
                       | EvHttp rq _ => eqb (url rq) u
                       | _ => false
                       end) t).

(** The status poll was accepted and shows a running process (a
    non-empty trimmed text), or shows none. *)
Definition busy (res : http_result) : bool :=
  accepted res && negb (eqb (strip (text_of res)) (lit "")).

Definition idle (res : http_result) : bool :=
  accepted res && eqb (strip (text_of res)) (lit "").

Definition is_busy_poll (ev : event) : bool :=
  match ev with
  | EvHttp rq res => is_call GET ev && busy res
  | _ => false
  end.

Definition busy_polls (t : list event) : nat :=
  List.length (filter is_busy_poll t).

(** The method of the first call in a trace, if there is one. *)
Fixpoint first_call (t : list event) : option http_method :=
  match t with
  | [] => None
  | EvHttp rq _ :: _ => Some (meth rq)
  | _ :: t' => first_call t'
  end.

(** Every busy poll of the trace is directly followed by a sleep of
    [secs]. *)
Fixpoint sleeps_after_busy (secs : Q) (t : list event) : Prop :=
  match t with
  | [] => True
  | ev :: t' =>
      (is_busy_poll ev = true -> exists t'', t' = EvSleep secs :: t'') /\
      sleeps_after_busy secs t'
  end.

(** [n] more calls and the events [t]. *)
Definition extend (n : nat) (t : list event) (w : world) : world :=
  mkWorld (sent w + n) (ticks w) (trace w ++ t).

(** The lines logged around one POST of the retrying execute. *)
Definition attempt_line (attempt retries : Z) (r : response) : event :=
  EvLog LInfo
    [FLit "processFlow/execute attempt "; FInt attempt; FLit "/";
     FInt retries; FLit " -> HTTP "; FInt (status_code r);
     FLit ", len="; FInt (Z.of_nat (List.length (text r)))].

Definition failure_lines (r : response) : list event :=
  EvLog LError
    [FLit "processFlow/execute failed: HTTP "; FInt (status_code r);
     FLit ": "; FStr (head 1000 (text r))]
  :: (if eqb (text r) (lit "") then []
      else [EvLog LError
              [FLit "processFlow/execute response head: ";
               FRepr (head 500 (text r))]]).

Section LoopObservations.

Variable e : env.
Variable cfg : settings.
Variable base_url : pystr.
Variable retry_sleep_s : Q.

(** What holds of the events [t] that the loop adds when [n] attempts
    are left: POSTs and busy polls together do not exceed [n], a busy
    poll is followed by the sleep, and the first call is not a POST. *)
Definition loop_events_ok (n : nat) (t : list event) : Prop :=
  (count_calls POST t + busy_polls t <= n)%nat /\
  sleeps_after_busy retry_sleep_s t /\
  first_call t <> Some POST.

(** [n] turns of the loop in which the poll is busy, the first poll being
    call number [from]. *)
Definition busy_turns (from n : nat) : list event :=
  flat_map (fun k =>
              [EvHttp (current_request cfg base_url)
                 (http e k (current_request cfg base_url));
               EvSleep retry_sleep_s])
    (seq from n).

End LoopObservations.

(** The two headers read from the process environment. *)
Definition origin_of (e : env) : pystr :=
  match environ e "OCR4ALL_ORIGIN" with
  | Some s => s
  | None => lit "http://ocr4all:8080"
  end.

Definition referer_of (e : env) (base_url : pystr) : pystr :=
  match environ e "OCR4ALL_REFERER" with
  | Some s => s
  | None => base_url ++ lit "/ProcessFlow"
  end.

(** The line logged when the polled status changes. *)
Definition status_line (cur : pystr) : event :=
  EvLog LInfo [FLit "OCR4all current: "; FRepr cur].

Definition timed_out : exn :=
  TimeoutError [FLit "Timed out waiting for OCR4all process flow to finish"].

Section WaitObservations.

Variable e : env.
Variable cfg : settings.
Variable base_url : pystr.
Variable timeout_s : Z.

Local Abbreviation rqc := (current_request cfg base_url).

(** The world after the poll of a turn and its log line, if any. *)
Definition polled (w : world) (last : option pystr) (r : response) : world :=
  extend 0 (if differs (strip (text r)) last
            then [status_line (strip (text r))] else [])
    (called rqc (Answer r) w).

Definition next_last (cur : pystr) (last : option pystr) : option pystr :=
  if differs cur last then Some cur else last.

(** The status shown by poll number [k] of a fresh run (counted from 0). *)
Definition status (k : nat) : pystr := strip (text_of (http e k rqc)).

(** Poll [k] is logged when it is the first or when its status is not
    that of the poll before. *)
Definition logged (k : nat) : bool :=
  match k with
  | O => true
  | S j => negb (eqb (status k) (status j))
  end.

Definition poll_events (k : nat) : list event :=
  EvHttp rqc (http e k rqc)
  :: (if logged k then [status_line (status k)] else []).

(** The first [n] turns when each goes round: poll, log line if the
    status changed, one second of sleep. *)
Definition waiting_turns (n : nat) : list event :=
  flat_map (fun k => poll_events k ++ [EvSleep 1]) (seq 0 n).

(** The clock reading taken after poll [k] is within the budget: the
    float difference to the reading taken at the start is not greater
    than [timeout_s]. *)
Definition in_budget (k : nat) : bool :=
  negb (float_gt_int (clock e (S k) - clock e 0) timeout_s).

(** The variable [last] and the world at the start of turn [k]. *)
Definition last_at (k : nat) : option pystr :=
  match k with
  | O => None
  | S j => Some (status j)
  end.

Definition at_turn (k : nat) : world := mkWorld k (S k) (waiting_turns k).

End WaitObservations.

(* ===================================================================== *)
(** ** Worked environments *)
(* ===================================================================== *)

Module Sample.

Definition cfg : settings := mkSettings 60 3600 30.
Definition base : pystr := lit "http://ocr4all:8080".

Definition reply (code : Z) (s : string) : http_result :=
  Answer (mkResponse code (lit s) None).

(** The session answers its calls from a list, in order, and with
    [otherwise] once the list is used up; the clock shows the readings of
    a list and then stands still at [later]. *)
Definition scripted (answers : list http_result) (otherwise : http_result)
    (readings : list float) (later : float) : env :=
  mkEnv (fun n _ => nth n answers otherwise)
        (fun n => nth n readings later)
        (fun _ => None).

(** [repr] of a string of plain letters and digits. *)
Definition quoted (s : pystr) : pystr := lit "'" ++ s ++ lit "'".

(** A clock that counts nanoseconds in 64 bits. *)
Definition too_long (secs : Q) : bool :=
  negb (Qle_bool (-9223372036) secs && Qle_bool secs 9223372036).

End Sample.

(** A server that answers the execute request with "201 Created". *)
Definition created_env : env :=
  Sample.scripted [Sample.reply 201 "created"] (Sample.reply 200 "") [] 0.

(** A server whose thread setting reads " 8", and one whose answer is
    empty. *)
Definition eight_threads_env : env :=
  Sample.scripted [Sample.reply 200 " 8
"] (Sample.reply 200 "") [] 0.

Definition no_threads_env : env :=
  Sample.scripted [Sample.reply 200 ""] (Sample.reply 200 "") [] 0.

(** A server whose thread setting reads "0". *)
Definition zero_threads_env : env :=
  Sample.scripted [Sample.reply 200 "0"] (Sample.reply 200 "") [] 0.

(** A server with three pages, the last id an integer. *)
Definition three_pages : json :=
  JList [JStr (lit "0001"); JStr (lit "0002"); JInt 3].

Definition three_pages_text : pystr :=
  lit "[" ++ [34%N] ++ lit "0001" ++ [34%N] ++ lit ", " ++
  [34%N] ++ lit "0002" ++ [34%N] ++ lit ", 3]".

Definition three_pages_env : env :=
  Sample.scripted
    [Answer (mkResponse 200 three_pages_text (Some three_pages))]
    (Sample.reply 200 "") [] 0.

(** A server that does not answer the conversion in time. *)
Definition slow_convert_env : env :=
  mkEnv (fun _ _ => Broken ReadTimeout) (fun _ => 0%float) (fun _ => None).

Module OpenProjectSamples.

Definition p : prog unit :=
  ocr4all_open_project Sample.cfg Sample.base (lit "books/atlas")
    (lit "Original") true.
Definition rq0 : request := root_request Sample.cfg Sample.base.
Definition rq1 : request :=
  checkDir_request Sample.cfg Sample.base (lit "books/atlas") (lit "Original")
    true.
Definition rq2 : request := validate_request Sample.cfg Sample.base.
Definition rqI : request := invalidateSession_request Sample.cfg Sample.base.
Definition rq3 : request :=
  validateProject_request Sample.cfg Sample.base (lit "books/atlas")
    (lit "Original").

(** [validate] answers 200 with the text "false". *)
Definition invalid_session_env : env :=
  Sample.scripted
    [Sample.reply 200 "<html>"; Sample.reply 200 "true";
     Sample.reply 200 "false"; Sample.reply 200 ""]
    (Sample.reply 200 "true") [] 0.

(** [validate] answers 500 with an error page. *)
Definition validate_500_env : env :=
  Sample.scripted
    [Sample.reply 200 "<html>"; Sample.reply 200 "true";
     Sample.reply 500 "Internal Server Error"]
    (Sample.reply 200 "true") [] 0.

(** [checkDir] answers 500 with the text "true". *)
Definition checkDir_500_env : env :=
  Sample.scripted
    [Sample.reply 200 "<html>"; Sample.reply 500 "true"]
    (Sample.reply 200 "true") [] 0.

(** The root answers 304, every step answers "true". *)
Definition root_304_env : env :=
  Sample.scripted [Sample.reply 304 ""] (Sample.reply 200 "true") [] 0.

(** The root answers 503. *)
Definition root_503_env : env :=
  Sample.scripted [Sample.reply 503 "Service Unavailable"]
    (Sample.reply 200 "true") [] 0.

End OpenProjectSamples.

Module ExecuteJsonSamples.

Definition rqc : request := current_request Sample.cfg Sample.base.

Definition rqp : request :=
  execute_json_request Sample.base (lit "http://ocr4all:8080")
    (Sample.base ++ lit "/ProcessFlow") [lit "0001"] [lit "recognition"]
    (JDict []) 3600.

(** [ocr4all_processflow_execute_json] with the given number of retries
    and the default sleep of 2 seconds. *)
Definition p (retries : Z) : prog unit :=
  ocr4all_processflow_execute_json Sample.cfg Sample.too_long Sample.base
    [lit "0001"] [lit "recognition"] (JDict []) 3600 retries 2.

(** The same with a sleep of the given length. *)
Definition p_sleeping (retries : Z) (retry_sleep_s : Q) : prog unit :=
  ocr4all_processflow_execute_json Sample.cfg Sample.too_long Sample.base
    [lit "0001"] [lit "recognition"] (JDict []) 3600 retries retry_sleep_s.

(** The server is busy at the first poll and idle from then on. *)
Definition busy_once_env : env :=
  Sample.scripted [Sample.reply 200 "segmentation"] (Sample.reply 200 "") [] 0.

(** The server is busy at the first two polls, then idle, and accepts
    the POST. *)
Definition busy_twice_env : env :=
  Sample.scripted
    [Sample.reply 200 "segmentation"; Sample.reply 200 "segmentation"]
    (Sample.reply 200 "") [] 0.

(** The server is idle; it answers the first POST with 500 and the
    second with 200. *)
Definition post_fails_once_env : env :=
  Sample.scripted
    [Sample.reply 200 ""; Sample.reply 500 "busy"; Sample.reply 200 "";
     Sample.reply 200 ""]
    (Sample.reply 200 "") [] 0.

End ExecuteJsonSamples.

Module WaitSamples.

Definition rqc : request := current_request Sample.cfg Sample.base.

(** Two polls show the segmentation, one the recognition, the fourth
    nothing; the clock advances by one second per reading. *)
Definition three_steps_env : env :=
  Sample.scripted
    [Sample.reply 200 "segmentation"; Sample.reply 200 " segmentation
";
     Sample.reply 200 "recognition"]
    (Sample.reply 200 "") [0; 1; 2; 3]%float 4.

(** The server stays busy; the second reading of the clock after the
    start is beyond a budget of 10 seconds. *)
Definition stuck_env : env :=
  Sample.scripted [] (Sample.reply 200 "recognition") [0; 2; 15]%float 16.

(** The server is busy once; the clock is within a budget of 10 seconds
    when read after that poll and far beyond it afterwards. *)
Definition late_idle_env : env :=
  Sample.scripted [Sample.reply 200 "recognition"] (Sample.reply 200 "")
    [0; 5]%float 1000.

(** The server is busy once; the clock shows 0.3 at the start and 10.3
    after the first poll.  The difference of the two floats is the float
    10, which is not greater than a budget of 10 seconds, although the
    difference of the two numbers the floats stand for is. *)
#[warning="-inexact-float"]
Definition rounding_env : env :=
  Sample.scripted [Sample.reply 200 "recognition"] (Sample.reply 200 "")
    [0.3; 10.3]%float 1000.

End WaitSamples.

(* ===================================================================== *)
(** ** The rest of the module: [ocr4all_checkpdf] *)
(* ===================================================================== *)

Section CheckPdf.

Variable cfg : settings.

(** The lower-case mapping of a non-ASCII code point [c] found at
    position [i] of the string [s]; the position matters for the capital
    sigma.  The table belongs to the interpreter. *)
Variable unicode_lower : pystr -> nat -> char -> pystr.

Definition ascii_lower (c : char) : char :=
  if ((65 <=? c) && (c <=? 90))%N then (c + 32)%N else c.

Fixpoint lower_from (s : pystr) (i : nat) (rest : pystr) : pystr :=
  match rest with
  | [] => []
  | c :: rest' =>
      (if (c <? 128)%N then [ascii_lower c] else unicode_lower s i c)
      ++ lower_from s (S i) rest'
  end.

(** [s.lower()]. *)
Definition lower (s : pystr) : pystr := lower_from s 0 s.

Definition checkpdf_request (base_url : pystr) : request :=
  get_request (base_url ++ lit "/ajax/overview/checkpdf") []
    (OCR4ALL_HTTP_TIMEOUT_S cfg).

(** [ocr4all_checkpdf(session, base_url)]. *)
Definition ocr4all_checkpdf (base_url : pystr) : prog bool :=
  r <-- session_send (checkpdf_request base_url) ;;;
  lift (raise_for_status r) ;;;
  ret (eqb (lower (strip (text r))) (lit "true")).

End CheckPdf.

(* ===================================================================== *)
(** ** Further observations *)
(* ===================================================================== *)

(** Every code point of the string is white space. *)
Definition blank (s : pystr) : bool := forallb isspace s.

(** Every code point of the string is ASCII. *)
Definition is_ascii (s : pystr) : bool := forallb (fun c => (c <? 128)%N) s.

(** The string is [core] with white space before and after it. *)
Definition padded (core s : pystr) : Prop :=
  exists before after,
    s = before ++ core ++ after /\ blank before = true /\ blank after = true.

(** The sleeps of a trace, in order. *)
Fixpoint sleeps (t : list event) : list Q :=
  match t with
  | [] => []
  | EvSleep secs :: t' => secs :: sleeps t'
  | _ :: t' => sleeps t'
  end.

(** The trace holds calls only: nothing was logged, nobody slept. *)
Definition only_calls (t : list event) : bool :=
  forallb (fun ev => match ev with EvHttp _ _ => true | _ => false end) t.

Section OpenProjectObservations.

Variable e : env.
Variable cfg : settings.
Variables base_url project_dir image_type : pystr.
Variable reset_session : bool.

(** The answers to the root, to [checkDir] and to [validate] are such
    that [ocr4all_open_project] reaches its call of [invalidateSession]:
    the first two pass, the third is accepted with a text other than
    ["true"]. *)
Definition invalidating : bool :=
  accepted (http e 0 (root_request cfg base_url))
  && (accepted (http e 1 (checkDir_request cfg base_url project_dir image_type
                            reset_session))
      && says_true (http e 1 (checkDir_request cfg base_url project_dir
                                image_type reset_session)))
  && (accepted (http e 2 (validate_request cfg base_url))
      && negb (says_true (http e 2 (validate_request cfg base_url)))).

(** What holds of the world a run of [ocr4all_open_project] ends in: at
    most four calls, the clock untouched, nothing but calls in the trace,
    none of them a POST, and one call of [invalidateSession] on the path
    above, none otherwise. *)
Definition open_world_ok (w : world) : Prop :=
  (sent w <= 4)%nat /\
  ticks w = 0%nat /\
  only_calls (trace w) = true /\
  count_calls POST (trace w) = 0%nat /\
  calls_to (url (invalidateSession_request cfg base_url)) (trace w)
  = (if invalidating then 1 else 0)%nat.

End OpenProjectObservations.

(** The string is one of the sixteen spellings of "true" in upper and
    lower case. *)
Definition spells_true (s : pystr) : Prop :=
  exists c1 c2 c3 c4,
    s = [c1; c2; c3; c4] /\
    (c1 = 116 \/ c1 = 84)%N /\ (c2 = 114 \/ c2 = 82)%N /\
    (c3 = 117 \/ c3 = 85)%N /\ (c4 = 101 \/ c4 = 69)%N.

Module MoreSamples.

(** Every step answers "true" with white space around it. *)
Definition padded_true_env : env :=
  Sample.scripted
    [Sample.reply 200 "<html>"; Sample.reply 200 "true
"; Sample.reply 200 "  true"; Sample.reply 200 "	true "]
    (Sample.reply 200 "") [] 0.

(** The server answers the PDF check with "TRUE" and a line end. *)
Definition shouting_env : env :=
  Sample.scripted [Sample.reply 200 "TRUE
"] (Sample.reply 200 "") [] 0.

(** The server answers with a line of blanks. *)
Definition blank_env : env :=
  Sample.scripted [Sample.reply 200 " 	
"] (Sample.reply 200 "") [] 0.

(** The server is busy at the first status poll and answers the second
    with status 502. *)
Definition poll_fails_env : env :=
  Sample.scripted
    [Sample.reply 200 "segmentation"; Sample.reply 502 "Bad Gateway"]
    (Sample.reply 200 "") [] 0.

(** The server is busy at every poll. *)
Definition always_busy_env : env :=
  Sample.scripted [] (Sample.reply 200 "recognition") [] 0.

(** The server shows the recognition once and then answers the status
    poll with status 502. *)
Definition status_fails_env : env :=
  Sample.scripted
    [Sample.reply 200 "recognition"; Sample.reply 502 "Bad Gateway"]
    (Sample.reply 200 "") [0; 1]%float 2.

End MoreSamples.

(* ===================================================================== *)
(** ** Reasoning about runs *)
(* ===================================================================== *)

Section Runs.

Variable e : env.

Lemma ends_Ret {A} (a : A) w : ends e (Ret a) w w a.
Proof. unfold ends, run. rewrite interp_state_ret. reflexivity. Qed.

Lemma ends_seq {A B} (p : itree ocrE A) (k : A -> itree ocrE B) w w1 w2 a b :
  ends e p w w1 a -> ends e (k a) w1 w2 b -> ends e (ITree.bind p k) w w2 b.
Proof.
  unfold ends, run. intros Hp Hk.
  rewrite interp_state_bind, Hp, bind_ret_l. exact Hk.
Qed.

Lemma ends_trigger {A} (ev : ocrE A) w w1 a :
  handle e A ev w = Ret (w1, a) -> ends e (ITree.trigger ev) w w1 a.
Proof.
  unfold ends, run. intros H.
  rewrite interp_state_trigger, H. reflexivity.
Qed.

(** A run has one end. *)
Lemma ends_unique {A} (p : itree ocrE A) w w1 w2 a1 a2 :
  ends e p w w1 a1 -> ends e p w w2 a2 -> w1 = w2 /\ a1 = a2.
Proof.
  unfold ends. intros H1 H2.
  rewrite H1 in H2. apply eutt_inv_Ret in H2.
  inversion H2. auto.
Qed.

Lemma ends_bind_returned {A B} (p : prog A) (k : A -> prog B) w w1 w2 a o :
  ends e p w w1 (Returned a) -> ends e (k a) w1 w2 o ->
  ends e (bind p k) w w2 o.
Proof. intros Hp Hk. unfold bind. eapply ends_seq; [exact Hp | exact Hk]. Qed.

Lemma ends_bind_raised {A B} (p : prog A) (k : A -> prog B) w w1 x :
  ends e p w w1 (Raised x) -> ends e (bind p k) w w1 (Raised x).
Proof. intros Hp. unfold bind. eapply ends_seq; [exact Hp | apply ends_Ret]. Qed.

(** The end of a run, stated up to computation. *)
Lemma ends_as {A} (p : itree ocrE A) w w1 w2 a1 a2 :
  ends e p w w1 a1 -> w1 = w2 -> a1 = a2 -> ends e p w w2 a2.
Proof. intros H <- <-. exact H. Qed.

Lemma ends_ret {A} (a : A) w : ends e (ret a) w w (Returned a).
Proof. apply ends_Ret. Qed.

Lemma ends_raise {A} x w : ends e (@raise A x) w w (Raised x).
Proof. apply ends_Ret. Qed.

Lemma ends_lift {A} (o : outcome A) w : ends e (lift o) w w o.
Proof. apply ends_Ret. Qed.

Lemma ends_perform {A} (ev : ocrE A) w w1 a :
  handle e A ev w = Ret (w1, a) -> ends e (perform ev) w w1 (Returned a).
Proof.
  intros H. unfold perform. eapply ends_seq.
  - apply ends_trigger, H.
  - apply ends_Ret.
Qed.

Lemma ends_answer rq w r :
  http e (sent w) rq = Answer r ->
  ends e (session_send rq) w (called rq (Answer r) w) (Returned r).
Proof.
  intros H. unfold session_send. eapply ends_seq.
  - apply ends_trigger. reflexivity.
  - cbn. rewrite H. apply ends_Ret.
Qed.

Lemma ends_broken rq w x :
  http e (sent w) rq = Broken x ->
  ends e (session_send rq) w (called rq (Broken x) w)
    (Raised (RequestException x)).
Proof.
  intros H. unfold session_send. eapply ends_seq.
  - apply ends_trigger. reflexivity.
  - cbn. rewrite H. apply ends_Ret.
Qed.

Lemma ends_caught {A} (p : prog A) catches handler w w1 w2 x o :
  ends e p w w1 (Raised x) -> catches x = true -> ends e handler w1 w2 o ->
  ends e (try_except p catches handler) w w2 o.
Proof.
  intros Hp Hc Hh. unfold try_except. eapply ends_seq; [exact Hp|].
  cbn. rewrite Hc. exact Hh.
Qed.

Lemma ends_uncaught {A} (p : prog A) catches handler w w1 x :
  ends e p w w1 (Raised x) -> catches x = false ->
  ends e (try_except p catches handler) w w1 (Raised x).
Proof.
  intros Hp Hc. unfold try_except. eapply ends_seq; [exact Hp|].
  cbn. rewrite Hc. apply ends_Ret.
Qed.

Lemma ends_tried {A} (p : prog A) catches handler w w1 a :
  ends e p w w1 (Returned a) ->
  ends e (try_except p catches handler) w w1 (Returned a).
Proof.
  intros Hp. unfold try_except. eapply ends_seq; [exact Hp|]. apply ends_Ret.
Qed.

Lemma ends_again {S A} (body : S -> prog (S + A)) s s' w w1 w2 o :
  ends e (body s) w w1 (Returned (inl s')) ->
  ends e (while_true body s') w1 w2 o ->
  ends e (while_true body s) w w2 o.
Proof.
  unfold ends, run, while_true. intros Hb Hn.
  rewrite unfold_iter, !interp_state_bind, Hb, !bind_ret_l. cbn.
  rewrite interp_state_ret, bind_ret_l. cbn.
  rewrite interp_state_tau, tau_eutt. exact Hn.
Qed.

Lemma ends_leave {S A} (body : S -> prog (S + A)) s w w1 (a : A) :
  ends e (body s) w w1 (Returned (inr a)) ->
  ends e (while_true body s) w w1 (Returned a).
Proof.
  unfold ends, run, while_true. intros Hb.
  rewrite unfold_iter, !interp_state_bind, Hb, !bind_ret_l. cbn.
  rewrite interp_state_ret, bind_ret_l. cbn.
  rewrite interp_state_ret. reflexivity.
Qed.

Lemma ends_abort {S A} (body : S -> prog (S + A)) s w w1 x :
  ends e (body s) w w1 (Raised x) ->
  ends e (while_true body s) w w1 (Raised x).
Proof.
  unfold ends, run, while_true. intros Hb.
  rewrite unfold_iter, !interp_state_bind, Hb, !bind_ret_l. cbn.
  rewrite interp_state_ret, bind_ret_l. cbn.
  rewrite interp_state_ret. reflexivity.
Qed.

Lemma steps_sound {R} fuel (t : itree void1 R) r :
  steps fuel t = Some r -> t ≈ Ret r.
Proof.
  revert t. induction fuel as [|fuel IH]; intros t; cbn; [discriminate|].
  destruct (observe t) as [r'|t'|X ev k] eqn:Hobs.
  - intros [= <-]. rewrite (itree_eta t), Hobs. reflexivity.
  - intros H. rewrite (itree_eta t), Hobs, tau_eutt. apply IH, H.
  - destruct ev.
Qed.

(** A closed run is settled by evaluating it. *)
Lemma ends_by_steps {A} fuel (p : itree ocrE A) w w' a :
  steps fuel (run e p w) = Some (w', a) -> ends e p w w' a.
Proof. apply steps_sound. Qed.

End Runs.

(** Straight-line execution of a function body against what is known of
    the environment. *)
Ltac atom :=
  first
    [ eapply ends_answer; (eassumption || (cbn; eassumption))
    | eapply ends_broken; (eassumption || (cbn; eassumption))
    | apply ends_lift
    | apply ends_ret
    | apply ends_raise
    | apply ends_perform; reflexivity ].

Ltac forward :=
  first
    [ eapply ends_bind_returned; [ solve [ atom | repeat forward ] | cbn ]
    | eapply ends_bind_raised; solve [ atom | repeat forward ]
    | atom ].

(** Execution to the end, the result compared by computation. *)
Ltac finish :=
  eapply ends_as; [ repeat forward | reflexivity | reflexivity ].

Arguments strip : simpl never.
Arguments eqb : simpl never.
Arguments lit : simpl never.
Arguments head : simpl never.

(* ===================================================================== *)
(** ** Examples of the builtins *)
(* ===================================================================== *)

Example strip_true : strip (lit " true
") = lit "true".
Proof. reflexivity. Qed.

Example of_int_neg : of_int (-42) = lit "-42".
Proof. reflexivity. Qed.

Example py_int_plain : py_int ascii_only 4300 (lit "8") = Some 8.
Proof. reflexivity. Qed.
Example py_int_signed : py_int ascii_only 4300 (lit "-3") = Some (-3).
Proof. reflexivity. Qed.
Example py_int_grouped : py_int ascii_only 4300 (lit "1_000") = Some 1000.
Proof. reflexivity. Qed.
Example py_int_empty : py_int ascii_only 4300 (lit "") = None.
Proof. reflexivity. Qed.
Example py_int_word : py_int ascii_only 4300 (lit "four") = None.
Proof. reflexivity. Qed.
Example py_int_float : py_int ascii_only 4300 (lit "4.0") = None.
Proof. reflexivity. Qed.
Example py_int_double_underscore : py_int ascii_only 4300 (lit "1__0") = None.
Proof. reflexivity. Qed.
Example py_int_spaced_sign : py_int ascii_only 4300 (lit "- 3") = None.
Proof. reflexivity. Qed.

(* ===================================================================== *)
(** ** [ocr4all_processflow_execute] *)
(* ===================================================================== *)

(** C8.  When the POST of [ocr4all_processflow_execute] is answered, the
    function returns if the status code is 200, and for every other
    status code, 2xx included, raises a [RuntimeError] whose message
    names the endpoint ([processFlow/execute]), gives the status code and
    carries the first 500 characters of the response body; so a normal
    return means the status was 200. *)
Theorem execute_succeeds_only_on_200 :
  forall e cfg base_url page_ids processes process_settings w r,
  let rq := execute_request cfg base_url page_ids processes process_settings in
  let p := ocr4all_processflow_execute cfg base_url page_ids processes
             process_settings in
  http e (sent w) rq = Answer r ->
  (status_code r = 200 ->
     ends e p w (called rq (Answer r) w) (Returned tt)) /\
  (status_code r <> 200 ->
     ends e p w (called rq (Answer r) w)
       (Raised (RuntimeError
          [FLit "processFlow/execute failed: HTTP "; FInt (status_code r);
           FLit ": "; FStr (head 500 (text r))]))) /\
  (forall w', ends e p w w' (Returned tt) -> status_code r = 200).
Proof.
  intros e cfg base_url page_ids processes process_settings w r rq p Hr.
  assert (H200 : status_code r = 200 ->
            ends e p w (called rq (Answer r) w) (Returned tt)).
  { intros Hs. unfold p, ocr4all_processflow_execute. forward.
    rewrite Hs. cbn. apply ends_ret. }
  assert (Hother : status_code r <> 200 ->
            ends e p w (called rq (Answer r) w)
              (Raised (RuntimeError
                 [FLit "processFlow/execute failed: HTTP "; FInt (status_code r);
                  FLit ": "; FStr (head 500 (text r))]))).
  { intros Hs. unfold p, ocr4all_processflow_execute. forward.
    apply Z.eqb_neq in Hs. rewrite Hs. cbn. apply ends_raise. }
  split; [exact H200 | split; [exact Hother |]].
  intros w' Hend. destruct (Z.eq_dec (status_code r) 200) as [|Hne]; [assumption|].
  destruct (ends_unique _ _ _ _ _ _ _ Hend (Hother Hne)) as [_ Habs].
  discriminate Habs.
Qed.

Lemma execute_succeeds_only_on_200_witness :
  http created_env 0
    (execute_request Sample.cfg Sample.base [lit "0001"] [lit "recognition"]
       (JDict []))
  = Sample.reply 201 "created" /\
  ends created_env
    (ocr4all_processflow_execute Sample.cfg Sample.base [lit "0001"]
       [lit "recognition"] (JDict []))
    start
    (called
       (execute_request Sample.cfg Sample.base [lit "0001"] [lit "recognition"]
          (JDict []))
       (Sample.reply 201 "created") start)
    (Raised (RuntimeError
       [FLit "processFlow/execute failed: HTTP "; FInt 201; FLit ": ";
        FStr (lit "created")])).
Proof.
  split; [reflexivity|].
  apply (execute_succeeds_only_on_200 created_env Sample.cfg Sample.base
           [lit "0001"] [lit "recognition"] (JDict []) start
           (mkResponse 201 (lit "created") None) eq_refl).
  cbn. lia.
Defined.

(* ===================================================================== *)
(** ** [ocr4all_threads] *)
(* ===================================================================== *)

Section Threads.

Variable e : env.
Variable cfg : settings.
Variable to_decimal : char -> option N.
Variable max_str_digits : N.
Variable base_url : pystr.

Let rq := threads_request cfg base_url.
Let p := ocr4all_threads cfg to_decimal max_str_digits base_url.
Let parsed (r : response) := py_int to_decimal max_str_digits (strip (text r)).

(** What the function returns once the request is answered without an
    HTTP error. *)
Lemma threads_answered w r :
  http e (sent w) rq = Answer r -> raise_for_status r = Returned tt ->
  ends e p w (called rq (Answer r) w)
    (Returned (match parsed r with Some n => Z.max 1 n | None => 1 end)).
Proof.
  intros Hr Hs. unfold p, ocr4all_threads. forward.
  rewrite Hs. forward. fold (parsed r).
  destruct (parsed r); apply ends_ret.
Qed.

Lemma threads_refused w r x :
  http e (sent w) rq = Answer r -> raise_for_status r = Raised x ->
  ends e p w (called rq (Answer r) w) (Raised x).
Proof.
  intros Hr Hs. unfold p, ocr4all_threads. forward.
  rewrite Hs. forward.
Qed.

Lemma threads_broken w x :
  http e (sent w) rq = Broken x ->
  ends e p w (called rq (Broken x) w) (Raised (RequestException x)).
Proof. intros Hr. unfold p, ocr4all_threads. forward. Qed.

End Threads.

(** C7.  Once the threads request is answered without an HTTP error,
    [ocr4all_threads] returns the integer that [int] reads from the
    trimmed text when that integer is positive, and returns 1 when [int]
    rejects the text; in the second case nothing is logged and, in both,
    no exception reaches the caller. *)
Theorem threads_parsed_or_one :
  forall e cfg to_decimal max_str_digits base_url w r,
  let rq := threads_request cfg base_url in
  let p := ocr4all_threads cfg to_decimal max_str_digits base_url in
  let parsed := py_int to_decimal max_str_digits (strip (text r)) in
  http e (sent w) rq = Answer r ->
  raise_for_status r = Returned tt ->
  (forall n, parsed = Some n -> 0 < n ->
     ends e p w (called rq (Answer r) w) (Returned n)) /\
  (parsed = None -> ends e p w (called rq (Answer r) w) (Returned 1)) /\
  (forall w' x, ~ ends e p w w' (Raised x)).
Proof.
  intros e cfg to_decimal max_str_digits base_url w r rq p parsed Hr Hs.
  pose proof (threads_answered e cfg to_decimal max_str_digits base_url w r Hr Hs)
    as Hrun.
  subst rq p parsed. cbv beta zeta in Hrun.
  split; [|split].
  - intros n Hn Hpos. rewrite Hn in Hrun.
    replace (Z.max 1 n) with n in Hrun by lia. exact Hrun.
  - intros Hn. rewrite Hn in Hrun. exact Hrun.
  - intros w' x Habs.
    destruct (ends_unique _ _ _ _ _ _ _ Habs Hrun) as [_ Hne]. discriminate Hne.
Qed.

(** C9.  Whatever the server does, a value returned by [ocr4all_threads]
    is at least 1; in particular a text that [int] reads as zero or as a
    negative integer yields 1, not the integer read and not an error. *)
Theorem threads_at_least_one :
  forall e cfg to_decimal max_str_digits base_url w,
  let rq := threads_request cfg base_url in
  let p := ocr4all_threads cfg to_decimal max_str_digits base_url in
  (forall w' n, ends e p w w' (Returned n) -> 1 <= n) /\
  (forall r n,
     http e (sent w) rq = Answer r ->
     raise_for_status r = Returned tt ->
     py_int to_decimal max_str_digits (strip (text r)) = Some n ->
     n <= 0 ->
     ends e p w (called rq (Answer r) w) (Returned 1)).
Proof.
  intros e cfg to_decimal max_str_digits base_url w rq p. subst rq p. split.
  - intros w' n Hend.
    destruct (http e (sent w) (threads_request cfg base_url)) as [r|x] eqn:Hr.
    + destruct (raise_for_status r) as [[]|x] eqn:Hs.
      * pose proof (threads_answered e cfg to_decimal max_str_digits base_url
                      w r Hr Hs) as Hrun.
        cbv beta zeta in Hrun.
        destruct (ends_unique _ _ _ _ _ _ _ Hend Hrun) as [_ Hn].
        injection Hn as ->.
        destruct (py_int _ _ _); lia.
      * pose proof (threads_refused e cfg to_decimal max_str_digits base_url
                      w r x Hr Hs) as Hrun.
        destruct (ends_unique _ _ _ _ _ _ _ Hend Hrun) as [_ Hn]. discriminate Hn.
    + pose proof (threads_broken e cfg to_decimal max_str_digits base_url
                    w x Hr) as Hrun.
      destruct (ends_unique _ _ _ _ _ _ _ Hend Hrun) as [_ Hn]. discriminate Hn.
  - intros r n Hr Hs Hn Hle.
    pose proof (threads_answered e cfg to_decimal max_str_digits base_url w r Hr Hs)
      as Hrun.
    cbv beta zeta in Hrun. rewrite Hn in Hrun. replace (Z.max 1 n) with 1 in Hrun by lia. exact Hrun.
Qed.

Lemma threads_parsed_or_one_witness :
  (py_int ascii_only 4300 (strip (lit " 8
")) = Some 8 /\
   ends eight_threads_env
     (ocr4all_threads Sample.cfg ascii_only 4300 Sample.base) start
     (called (threads_request Sample.cfg Sample.base) (Sample.reply 200 " 8
") start)
     (Returned 8)) /\
  (py_int ascii_only 4300 (strip (lit "")) = None /\
   ends no_threads_env
     (ocr4all_threads Sample.cfg ascii_only 4300 Sample.base) start
     (called (threads_request Sample.cfg Sample.base) (Sample.reply 200 "") start)
     (Returned 1)).
Proof.
  split; (split; [reflexivity|]).
  - apply (threads_parsed_or_one eight_threads_env Sample.cfg ascii_only 4300
             Sample.base start (mkResponse 200 (lit " 8
") None) eq_refl eq_refl).
    + reflexivity.
    + lia.
  - apply (threads_parsed_or_one no_threads_env Sample.cfg ascii_only 4300
             Sample.base start (mkResponse 200 (lit "") None) eq_refl eq_refl).
    reflexivity.
Defined.

Lemma threads_at_least_one_witness :
  py_int ascii_only 4300 (strip (lit "0")) = Some 0 /\
  ends zero_threads_env
    (ocr4all_threads Sample.cfg ascii_only 4300 Sample.base) start
    (called (threads_request Sample.cfg Sample.base) (Sample.reply 200 "0") start)
    (Returned 1).
Proof.
  split; [reflexivity|].
  apply (proj2 (threads_at_least_one zero_threads_env Sample.cfg ascii_only 4300
                  Sample.base start)
           (mkResponse 200 (lit "0") None) 0 eq_refl eq_refl eq_refl).
  lia.
Defined.

(* ===================================================================== *)
(** ** [ocr4all_get_page_ids] *)
(* ===================================================================== *)

Lemma py_str_of_strings repr_str (ids : list pystr) :
  List.map (py_str repr_str) (List.map JStr ids) = ids.
Proof.
  induction ids as [|s ids IH]; cbn; [reflexivity|]. now rewrite IH.
Qed.

(** C5.  Once the page-list request is answered without an HTTP error:
    if the body decodes to a JSON array, [ocr4all_get_page_ids] returns
    [str] of each element, in the order of the array (the strings
    themselves when the elements are strings); if it decodes to anything
    else, a [RuntimeError] is raised whose message carries the type and
    the first 200 characters of [str] of the decoded payload; if it does
    not decode, a [RuntimeError] is raised whose message carries the
    [repr] of the first 200 characters of the response text. *)
Theorem page_ids_of_array :
  forall e cfg repr_str base_url image_type w r,
  let rq := pagelist_request cfg base_url image_type in
  let p := ocr4all_get_page_ids cfg repr_str base_url image_type in
  http e (sent w) rq = Answer r ->
  raise_for_status r = Returned tt ->
  (forall l, json_body r = Some (JList l) ->
     ends e p w (called rq (Answer r) w)
       (Returned (List.map (py_str repr_str) l))) /\
  (forall ids, json_body r = Some (JList (List.map JStr ids)) ->
     ends e p w (called rq (Answer r) w) (Returned ids)) /\
  (forall data, json_body r = Some data -> is_list data = false ->
     ends e p w (called rq (Answer r) w)
       (Raised (RuntimeError
          [FLit "Unexpected pagelist payload: "; FStr (type_str data);
           FLit " "; FStr (head 200 (py_str repr_str data))]))) /\
  (json_body r = None ->
     ends e p w (called rq (Answer r) w)
       (Raised (RuntimeError
          [FLit "pagelist did not return JSON. head=";
           FRepr (head 200 (text r))]))).
Proof.
  intros e cfg repr_str base_url image_type w r rq p Hr Hs. subst rq p.
  assert (Harray : forall l, json_body r = Some (JList l) ->
            ends e (ocr4all_get_page_ids cfg repr_str base_url image_type) w
              (called (pagelist_request cfg base_url image_type) (Answer r) w)
              (Returned (List.map (py_str repr_str) l))).
  { intros l Hj. unfold ocr4all_get_page_ids. forward.
    rewrite Hs. forward. rewrite Hj. repeat forward. }
  split; [exact Harray | split; [| split]].
  - intros ids Hj. rewrite <- (py_str_of_strings repr_str ids) at 1.
    apply Harray, Hj.
  - intros data Hj Hl. unfold ocr4all_get_page_ids. forward.
    rewrite Hs. forward. rewrite Hj. forward. rewrite Hl. cbn. repeat forward.
  - intros Hj. unfold ocr4all_get_page_ids. forward.
    rewrite Hs. forward. rewrite Hj. repeat forward.
Qed.

Lemma page_ids_of_array_witness :
  json_body (mkResponse 200 three_pages_text (Some three_pages))
    = Some three_pages /\
  ends three_pages_env
    (ocr4all_get_page_ids Sample.cfg Sample.quoted Sample.base (lit "Binary"))
    start
    (called (pagelist_request Sample.cfg Sample.base (lit "Binary"))
       (Answer (mkResponse 200 three_pages_text (Some three_pages))) start)
    (Returned [lit "0001"; lit "0002"; lit "3"]).
Proof.
  split; [reflexivity|].
  apply (proj1 (page_ids_of_array three_pages_env Sample.cfg Sample.quoted
                  Sample.base (lit "Binary") start
                  (mkResponse 200 three_pages_text (Some three_pages))
                  eq_refl eq_refl)
           [JStr (lit "0001"); JStr (lit "0002"); JInt 3] eq_refl).
Defined.

(** A JSON object in place of the array. *)
Example page_ids_of_object :
  ends
    (Sample.scripted
       [Answer (mkResponse 200 (lit "{}") (Some (JDict [])))]
       (Sample.reply 200 "") [] 0)
    (ocr4all_get_page_ids Sample.cfg Sample.quoted Sample.base (lit "Binary"))
    start
    (called (pagelist_request Sample.cfg Sample.base (lit "Binary"))
       (Answer (mkResponse 200 (lit "{}") (Some (JDict [])))) start)
    (Raised (RuntimeError
       [FLit "Unexpected pagelist payload: "; FStr (lit "<class 'dict'>");
        FLit " "; FStr (lit "{}")])).
Proof. apply (ends_by_steps _ 20). vm_compute. reflexivity. Qed.

(* ===================================================================== *)
(** ** [ocr4all_convert_project_files] *)
(* ===================================================================== *)

(** C6.  [ocr4all_convert_project_files] returns the response text as it
    is when the POST is answered without an HTTP error; when the POST
    fails with [ReadTimeout] it logs a warning and returns the empty
    string; every other transport failure, and an answer with an HTTP
    error status, leaves the function as an exception. *)
Theorem convert_tolerates_read_timeout_only :
  forall e base_url delete_blank dpi timeout_s w,
  let rq := convert_request base_url delete_blank dpi timeout_s in
  let p := ocr4all_convert_project_files base_url delete_blank dpi timeout_s in
  (forall r, http e (sent w) rq = Answer r ->
     raise_for_status r = Returned tt ->
     ends e p w (called rq (Answer r) w) (Returned (text r))) /\
  (http e (sent w) rq = Broken ReadTimeout ->
     ends e p w
       (seen (EvLog LWarning
                [FLit "convertProjectFiles timed out after "; FInt timeout_s;
                 FLit "s; assuming conversion continues in background."])
          (called rq (Broken ReadTimeout) w))
       (Returned (lit ""))) /\
  (forall x, http e (sent w) rq = Broken x -> x <> ReadTimeout ->
     ends e p w (called rq (Broken x) w) (Raised (RequestException x))) /\
  (forall r, http e (sent w) rq = Answer r ->
     raise_for_status r = Raised (HTTPError r) ->
     ends e p w (called rq (Answer r) w) (Raised (HTTPError r))).
Proof.
  intros e base_url delete_blank dpi timeout_s w rq p. subst rq p.
  unfold ocr4all_convert_project_files.
  split; [| split; [| split]].
  - intros r Hr Hs. eapply ends_tried. forward. rewrite Hs. repeat forward.
  - intros Hr. eapply ends_caught.
    + forward.
    + reflexivity.
    + repeat forward.
  - intros x Hr Hx. eapply ends_uncaught.
    + forward.
    + destruct x; try reflexivity. contradiction.
  - intros r Hr Hs. eapply ends_uncaught.
    + forward. rewrite Hs. forward.
    + reflexivity.
Qed.

Lemma convert_tolerates_read_timeout_only_witness :
  http slow_convert_env 0 (convert_request Sample.base true 300 600)
    = Broken ReadTimeout /\
  ends slow_convert_env
    (ocr4all_convert_project_files Sample.base true 300 600) start
    (seen (EvLog LWarning
             [FLit "convertProjectFiles timed out after "; FInt 600;
              FLit "s; assuming conversion continues in background."])
       (called (convert_request Sample.base true 300 600)
          (Broken ReadTimeout) start))
    (Returned (lit "")).
Proof.
  split; [reflexivity|].
  apply (proj1 (proj2 (convert_tolerates_read_timeout_only slow_convert_env
                         Sample.base true 300 600 start))).
  reflexivity.
Defined.

Example convert_text_untrimmed :
  ends
    (Sample.scripted [Sample.reply 200 " done
"] (Sample.reply 200 "") [] 0)
    (ocr4all_convert_project_files Sample.base false 300 600) start
    (called (convert_request Sample.base false 300 600)
       (Sample.reply 200 " done
") start)
    (Returned (lit " done
")).
Proof. apply (ends_by_steps _ 20). vm_compute. reflexivity. Qed.

Example convert_connect_timeout_raises :
  ends
    (mkEnv (fun _ _ => Broken ConnectTimeout) (fun _ => 0%float) (fun _ => None))
    (ocr4all_convert_project_files Sample.base false 300 600) start
    (called (convert_request Sample.base false 300 600)
       (Broken ConnectTimeout) start)
    (Raised (RequestException ConnectTimeout)).
Proof. apply (ends_by_steps _ 20). vm_compute. reflexivity. Qed.

(* ===================================================================== *)
(** ** Checked calls *)
(* ===================================================================== *)

Lemma accepted_answer res :
  accepted res = true ->
  exists r, res = Answer r /\ raise_for_status r = Returned tt.
Proof.
  destruct res as [r|x]; cbn; [|discriminate].
  intros H. exists r. split; [reflexivity|].
  unfold raise_for_status.
  destruct ((400 <=? status_code r) && (status_code r <? 600)); [discriminate|reflexivity].
Qed.

Lemma is_2xx_accepted res : is_2xx res = true -> accepted res = true.
Proof.
  destruct res as [r|x]; cbn; [|discriminate]. lia.
Qed.

Section CheckedCall.

Variable e : env.

(** A call whose answer [raise_for_status] refuses, or that breaks, ends
    the function there. *)
Lemma ends_refused {B} rq (k : response -> prog B) w :
  accepted (http e (sent w) rq) = false ->
  ends e (r <-- session_send rq ;;; lift (raise_for_status r) ;;; k r) w
    (called rq (http e (sent w) rq) w)
    (Raised (refusal (http e (sent w) rq))).
Proof.
  intros H. destruct (http e (sent w) rq) as [r|x] eqn:Hr.
  - forward.
    cbn in H. unfold raise_for_status.
    destruct ((400 <=? status_code r) && (status_code r <? 600));
      [|discriminate].
    forward.
  - forward.
Qed.

(** A call whose answer passes hands it to the rest of the function. *)
Lemma ends_accepted {B} rq (k : response -> prog B) w r w' o :
  http e (sent w) rq = Answer r ->
  raise_for_status r = Returned tt ->
  ends e (k r) (called rq (Answer r) w) w' o ->
  ends e (r <-- session_send rq ;;; lift (raise_for_status r) ;;; k r) w w' o.
Proof.
  intros Hr Hs Hk. forward. rewrite Hs. forward. exact Hk.
Qed.

End CheckedCall.

(* ===================================================================== *)
(** ** [ocr4all_open_project] *)
(* ===================================================================== *)

Section OpenProject.

Variable e : env.
Variable cfg : settings.
Variables base_url project_dir image_type : pystr.
Variable reset_session : bool.

Local Abbreviation p :=
  (ocr4all_open_project cfg base_url project_dir image_type reset_session).
Local Abbreviation rq0 := (root_request cfg base_url).
Local Abbreviation rq1 :=
  (checkDir_request cfg base_url project_dir image_type reset_session).
Local Abbreviation rq2 := (validate_request cfg base_url).
Local Abbreviation rqI := (invalidateSession_request cfg base_url).
Local Abbreviation rq3 :=
  (validateProject_request cfg base_url project_dir image_type).

(** The answers a fresh run meets: the calls are numbered from 0, and the
    fourth call is either the invalidation or [validateProject]. *)
Local Abbreviation a0 := (http e 0 rq0).
Local Abbreviation a1 := (http e 1 rq1).
Local Abbreviation a2 := (http e 2 rq2).
Local Abbreviation aI := (http e 3 rqI).
Local Abbreviation a3 := (http e 3 rq3).

Lemma open_root_refused :
  accepted a0 = false ->
  ends e p start (mkWorld 1 0 [EvHttp rq0 a0]) (Raised (refusal a0)).
Proof.
  intros H0. unfold ocr4all_open_project.
  apply (ends_refused e rq0 _ start H0).
Qed.

Lemma open_checkDir_refused :
  accepted a0 = true -> accepted a1 = false ->
  ends e p start (mkWorld 2 0 [EvHttp rq0 a0; EvHttp rq1 a1])
    (Raised (refusal a1)).
Proof.
  intros H0 H1. destruct (accepted_answer _ H0) as (r0 & E0 & S0).
  unfold ocr4all_open_project.
  eapply ends_accepted; [exact E0 | exact S0 |].
  rewrite E0.
  apply (ends_refused e rq1 _ (called rq0 (Answer r0) start) H1).
Qed.

(** What the hypotheses about an answer give: the response, its passing
    [raise_for_status], and the test of its text. *)
Ltac answered H T r E S :=
  destruct (accepted_answer _ H) as (r & E & S);
  rewrite E in T; cbn in T; rewrite E.

Lemma open_checkDir_not_true :
  accepted a0 = true -> accepted a1 = true -> says_true a1 = false ->
  ends e p start (mkWorld 2 0 [EvHttp rq0 a0; EvHttp rq1 a1])
    (Raised (RuntimeError
       [FLit "ocr4all checkDir returned "; FRepr (text_of a1);
        FLit " for projectDir="; FStr project_dir])).
Proof.
  intros H0 H1 T1. destruct (accepted_answer _ H0) as (r0 & E0 & S0).
  answered H1 T1 r1 E1 S1. rewrite E0.
  unfold ocr4all_open_project.
  eapply ends_accepted; [exact E0 | exact S0 |].
  eapply ends_accepted; [exact E1 | exact S1 |].
  rewrite T1. cbn. forward.
Qed.

Lemma open_validate_refused :
  accepted a0 = true -> accepted a1 = true -> says_true a1 = true ->
  accepted a2 = false ->
  ends e p start (mkWorld 3 0 [EvHttp rq0 a0; EvHttp rq1 a1; EvHttp rq2 a2])
    (Raised (refusal a2)).
Proof.
  intros H0 H1 T1 H2. destruct (accepted_answer _ H0) as (r0 & E0 & S0).
  answered H1 T1 r1 E1 S1. rewrite E0.
  unfold ocr4all_open_project.
  eapply ends_accepted; [exact E0 | exact S0 |].
  eapply ends_accepted; [exact E1 | exact S1 |].
  rewrite T1. cbn. forward.
  apply (ends_refused e rq2 _
           (called rq1 (Answer r1) (called rq0 (Answer r0) start)) H2).
Qed.

Lemma open_validate_not_true :
  accepted a0 = true -> accepted a1 = true -> says_true a1 = true ->
  accepted a2 = true -> says_true a2 = false ->
  ends e p start
    (mkWorld 4 0 [EvHttp rq0 a0; EvHttp rq1 a1; EvHttp rq2 a2; EvHttp rqI aI])
    (Raised
       match aI with
       | Answer _ =>
           RuntimeError [FLit "ocr4all validate returned "; FRepr (text_of a2)]
       | Broken x => RequestException x
       end).
Proof.
  intros H0 H1 T1 H2 T2. destruct (accepted_answer _ H0) as (r0 & E0 & S0).
  answered H1 T1 r1 E1 S1. answered H2 T2 r2 E2 S2. rewrite E0.
  unfold ocr4all_open_project.
  eapply ends_accepted; [exact E0 | exact S0 |].
  eapply ends_accepted; [exact E1 | exact S1 |].
  rewrite T1. cbn. forward.
  eapply ends_accepted; [exact E2 | exact S2 |].
  rewrite T2. cbn.
  destruct aI as [rI|x] eqn:EI; finish.
Qed.

Lemma open_validateProject_refused :
  accepted a0 = true -> accepted a1 = true -> says_true a1 = true ->
  accepted a2 = true -> says_true a2 = true ->
  accepted a3 = false ->
  ends e p start
    (mkWorld 4 0 [EvHttp rq0 a0; EvHttp rq1 a1; EvHttp rq2 a2; EvHttp rq3 a3])
    (Raised (refusal a3)).
Proof.
  intros H0 H1 T1 H2 T2 H3. destruct (accepted_answer _ H0) as (r0 & E0 & S0).
  answered H1 T1 r1 E1 S1. answered H2 T2 r2 E2 S2. rewrite E0.
  unfold ocr4all_open_project.
  eapply ends_accepted; [exact E0 | exact S0 |].
  eapply ends_accepted; [exact E1 | exact S1 |].
  rewrite T1. cbn. forward.
  eapply ends_accepted; [exact E2 | exact S2 |].
  rewrite T2. cbn. forward.
  apply (ends_refused e rq3 _
           (called rq2 (Answer r2)
              (called rq1 (Answer r1) (called rq0 (Answer r0) start))) H3).
Qed.

Lemma open_validateProject_answered :
  accepted a0 = true -> accepted a1 = true -> says_true a1 = true ->
  accepted a2 = true -> says_true a2 = true ->
  accepted a3 = true ->
  ends e p start
    (mkWorld 4 0 [EvHttp rq0 a0; EvHttp rq1 a1; EvHttp rq2 a2; EvHttp rq3 a3])
    (if says_true a3 then Returned tt
     else Raised (RuntimeError
            [FLit "ocr4all validateProject returned:
 "; FRepr (text_of a3)])).
Proof.
  intros H0 H1 T1 H2 T2 H3. destruct (accepted_answer _ H0) as (r0 & E0 & S0).
  answered H1 T1 r1 E1 S1. answered H2 T2 r2 E2 S2.
  destruct (accepted_answer _ H3) as (r3 & E3 & S3). rewrite E0, E3.
  unfold ocr4all_open_project.
  eapply ends_accepted; [exact E0 | exact S0 |].
  eapply ends_accepted; [exact E1 | exact S1 |].
  rewrite T1. cbn. forward.
  eapply ends_accepted; [exact E2 | exact S2 |].
  rewrite T2. cbn. forward.
  eapply ends_accepted; [exact E3 | exact S3 |].
  cbn. destruct (eqb (strip (text r3)) (lit "true")); cbn; forward.
Qed.

(** Every run ends; it starts with the call on the root, and it returns
    exactly when all four calls pass. *)
Lemma open_project_total :
  exists w o,
    ends e p start w o /\
    (exists t, trace w = EvHttp rq0 a0 :: t) /\
    (if all_passed a0 a1 a2 a3
     then o = Returned tt /\
          w = mkWorld 4 0
                [EvHttp rq0 a0; EvHttp rq1 a1; EvHttp rq2 a2; EvHttp rq3 a3]
     else exists x, o = Raised x).
Proof.
  unfold all_passed.
  destruct (accepted a0) eqn:H0; cbn [andb].
  2:{ eexists _, _. split; [exact (open_root_refused H0)|]. cbn. eauto. }
  destruct (accepted a1) eqn:H1; cbn [andb].
  2:{ eexists _, _. split; [exact (open_checkDir_refused H0 H1)|]. cbn. eauto. }
  destruct (says_true a1) eqn:T1; cbn [andb].
  2:{ eexists _, _. split; [exact (open_checkDir_not_true H0 H1 T1)|].
      cbn. eauto. }
  destruct (accepted a2) eqn:H2; cbn [andb].
  2:{ eexists _, _. split; [exact (open_validate_refused H0 H1 T1 H2)|].
      cbn. eauto. }
  destruct (says_true a2) eqn:T2; cbn [andb].
  2:{ eexists _, _. split; [exact (open_validate_not_true H0 H1 T1 H2 T2)|].
      cbn. eauto. }
  destruct (accepted a3) eqn:H3; cbn [andb].
  2:{ eexists _, _. split; [exact (open_validateProject_refused H0 H1 T1 H2 T2 H3)|].
      cbn. eauto. }
  eexists _, _. split; [exact (open_validateProject_answered H0 H1 T1 H2 T2 H3)|].
  cbn. destruct (says_true a3); eauto.
Qed.

(** Once the answer of the root is accepted, the call of [checkDir]
    follows, whatever comes after it. *)
Lemma open_project_goes_on :
  accepted a0 = true ->
  exists w o,
    ends e p start w o /\
    (exists t, trace w = EvHttp rq0 a0 :: EvHttp rq1 a1 :: t).
Proof.
  intros H0.
  destruct (accepted a1) eqn:H1.
  2:{ eexists _, _. split; [exact (open_checkDir_refused H0 H1)|]. cbn. eauto. }
  destruct (says_true a1) eqn:T1.
  2:{ eexists _, _. split; [exact (open_checkDir_not_true H0 H1 T1)|].
      cbn. eauto. }
  destruct (accepted a2) eqn:H2.
  2:{ eexists _, _. split; [exact (open_validate_refused H0 H1 T1 H2)|].
      cbn. eauto. }
  destruct (says_true a2) eqn:T2.
  2:{ eexists _, _. split; [exact (open_validate_not_true H0 H1 T1 H2 T2)|].
      cbn. eauto. }
  destruct (accepted a3) eqn:H3.
  2:{ eexists _, _. split; [exact (open_validateProject_refused H0 H1 T1 H2 T2 H3)|].
      cbn. eauto. }
  eexists _, _. split; [exact (open_validateProject_answered H0 H1 T1 H2 T2 H3)|].
  cbn. destruct (says_true a3); eauto.
Qed.

End OpenProject.

(** C1, amended.  [ocr4all_open_project] returns exactly when the call
    on the root and the three steps are each answered without an HTTP
    error status and each step answers the trimmed text ["true"].  A
    step answered without an HTTP error status but with another text
    ends the function with a [RuntimeError] and no later step is called;
    when that step is [validate], one call of [invalidateSession] comes
    before the exception.  A [validate] answered with an HTTP error
    status, or broken in transport, ends the function at once, without
    the invalidation. *)
Theorem open_project_succeeds_iff_all_pass :
  forall e cfg base_url project_dir image_type reset_session,
  let p := ocr4all_open_project cfg base_url project_dir image_type
             reset_session in
  let rq0 := root_request cfg base_url in
  let rq1 := checkDir_request cfg base_url project_dir image_type
               reset_session in
  let rq2 := validate_request cfg base_url in
  let rqI := invalidateSession_request cfg base_url in
  let rq3 := validateProject_request cfg base_url project_dir image_type in
  let a0 := http e 0 rq0 in
  let a1 := http e 1 rq1 in
  let a2 := http e 2 rq2 in
  let aI := http e 3 rqI in
  let a3 := http e 3 rq3 in
  ((exists w, ends e p start w (Returned tt)) <->
     all_passed a0 a1 a2 a3 = true) /\
  (accepted a0 = true -> accepted a1 = true -> says_true a1 = false ->
     ends e p start (mkWorld 2 0 [EvHttp rq0 a0; EvHttp rq1 a1])
       (Raised (RuntimeError
          [FLit "ocr4all checkDir returned "; FRepr (text_of a1);
           FLit " for projectDir="; FStr project_dir]))) /\
  (accepted a0 = true -> accepted a1 = true -> says_true a1 = true ->
   accepted a2 = true -> says_true a2 = false ->
     ends e p start
       (mkWorld 4 0
          [EvHttp rq0 a0; EvHttp rq1 a1; EvHttp rq2 a2; EvHttp rqI aI])
       (Raised
          match aI with
          | Answer _ =>
              RuntimeError
                [FLit "ocr4all validate returned "; FRepr (text_of a2)]
          | Broken x => RequestException x
          end)) /\
  (accepted a0 = true -> accepted a1 = true -> says_true a1 = true ->
   accepted a2 = true -> says_true a2 = true ->
   accepted a3 = true -> says_true a3 = false ->
     ends e p start
       (mkWorld 4 0
          [EvHttp rq0 a0; EvHttp rq1 a1; EvHttp rq2 a2; EvHttp rq3 a3])
       (Raised (RuntimeError
          [FLit "ocr4all validateProject returned:
 "; FRepr (text_of a3)]))) /\
  (accepted a0 = true -> accepted a1 = true -> says_true a1 = true ->
   accepted a2 = false ->
     ends e p start
       (mkWorld 3 0 [EvHttp rq0 a0; EvHttp rq1 a1; EvHttp rq2 a2])
       (Raised (refusal a2))).
Proof.
  intros e cfg base_url project_dir image_type reset_session
         p rq0 rq1 rq2 rqI rq3 a0 a1 a2 aI a3.
  subst a0 a1 a2 aI a3 rq0 rq1 rq2 rqI rq3 p.
  split; [| split; [| split; [| split]]].
  - destruct (open_project_total e cfg base_url project_dir image_type
                reset_session) as (w & o & Hrun & _ & Hcase).
    split.
    + intros [w' Hend].
      destruct (all_passed _ _ _ _); [reflexivity|].
      destruct Hcase as [x ->].
      destruct (ends_unique _ _ _ _ _ _ _ Hend Hrun) as [_ Habs].
      discriminate Habs.
    + intros Hall. rewrite Hall in Hcase. destruct Hcase as [-> _].
      exists w. exact Hrun.
  - apply open_checkDir_not_true.
  - apply open_validate_not_true.
  - intros H0 H1 T1 H2 T2 H3 T3.
    pose proof (open_validateProject_answered e cfg base_url project_dir
                  image_type reset_session H0 H1 T1 H2 T2 H3) as Hrun.
    rewrite T3 in Hrun. exact Hrun.
  - apply open_validate_refused.
Qed.

Lemma open_project_succeeds_iff_all_pass_witness :
  says_true (Sample.reply 200 "false") = false /\
  ends OpenProjectSamples.invalid_session_env OpenProjectSamples.p start
    (mkWorld 4 0
       [EvHttp OpenProjectSamples.rq0 (Sample.reply 200 "<html>");
        EvHttp OpenProjectSamples.rq1 (Sample.reply 200 "true");
        EvHttp OpenProjectSamples.rq2 (Sample.reply 200 "false");
        EvHttp OpenProjectSamples.rqI (Sample.reply 200 "")])
    (Raised (RuntimeError
       [FLit "ocr4all validate returned "; FRepr (lit "false")])).
Proof.
  split; [reflexivity|].
  apply (proj1 (proj2 (proj2
           (open_project_succeeds_iff_all_pass
              OpenProjectSamples.invalid_session_env Sample.cfg Sample.base
              (lit "books/atlas") (lit "Original") true)))
           eq_refl eq_refl eq_refl eq_refl eq_refl).
Defined.

(** C1 as stated fails at two runs.  In the first, [validate] answers
    with a text other than ["true"] (an error page, status 500): the
    function raises after three calls, none of them to
    [invalidateSession].  In the second, all three steps answer the text
    ["true"], [checkDir] with status 500: the function raises. *)
Lemma open_project_true_text_not_enough :
  (says_true (http OpenProjectSamples.validate_500_env 2 OpenProjectSamples.rq2)
     = false /\
   ends OpenProjectSamples.validate_500_env OpenProjectSamples.p start
     (mkWorld 3 0
        [EvHttp OpenProjectSamples.rq0 (Sample.reply 200 "<html>");
         EvHttp OpenProjectSamples.rq1 (Sample.reply 200 "true");
         EvHttp OpenProjectSamples.rq2
           (Sample.reply 500 "Internal Server Error")])
     (Raised (HTTPError
        (mkResponse 500 (lit "Internal Server Error") None))) /\
   calls_to (url OpenProjectSamples.rqI)
     [EvHttp OpenProjectSamples.rq0 (Sample.reply 200 "<html>");
      EvHttp OpenProjectSamples.rq1 (Sample.reply 200 "true");
      EvHttp OpenProjectSamples.rq2
        (Sample.reply 500 "Internal Server Error")] = 0%nat) /\
  (says_true (http OpenProjectSamples.checkDir_500_env 1 OpenProjectSamples.rq1)
     = true /\
   says_true (http OpenProjectSamples.checkDir_500_env 2 OpenProjectSamples.rq2)
     = true /\
   says_true (http OpenProjectSamples.checkDir_500_env 3 OpenProjectSamples.rq3)
     = true /\
   ends OpenProjectSamples.checkDir_500_env OpenProjectSamples.p start
     (mkWorld 2 0
        [EvHttp OpenProjectSamples.rq0 (Sample.reply 200 "<html>");
         EvHttp OpenProjectSamples.rq1 (Sample.reply 500 "true")])
     (Raised (HTTPError (mkResponse 500 (lit "true") None)))).
Proof.
  split; [split; [| split] | split; [| split; [| split]]];
    try (vm_compute; reflexivity);
    apply (ends_by_steps _ 50); vm_compute; reflexivity.
Qed.

(** C10, amended.  Every run of [ocr4all_open_project] starts with a GET
    on the root of the base URL.  When that call breaks in transport or
    is answered with a status from 400 to 599, the function raises and
    no other call is made.  Any other status passes, 1xx and 3xx
    included: the function goes on, and the second call of the run is
    the [checkDir] request.  A run that returns has made exactly four
    calls, all of them GET: the root and the three steps. *)
Theorem open_project_calls_root_first :
  forall e cfg base_url project_dir image_type reset_session,
  let p := ocr4all_open_project cfg base_url project_dir image_type
             reset_session in
  let rq0 := root_request cfg base_url in
  let rq1 := checkDir_request cfg base_url project_dir image_type
               reset_session in
  let rq2 := validate_request cfg base_url in
  let rq3 := validateProject_request cfg base_url project_dir image_type in
  (meth rq0 = GET /\ url rq0 = base_url ++ lit "/") /\
  (forall w o, ends e p start w o ->
     exists t, trace w = EvHttp rq0 (http e 0 rq0) :: t) /\
  (accepted (http e 0 rq0) = false ->
     ends e p start (mkWorld 1 0 [EvHttp rq0 (http e 0 rq0)])
       (Raised (refusal (http e 0 rq0)))) /\
  (forall r, http e 0 rq0 = Answer r ->
     (accepted (http e 0 rq0) = false <->
      400 <= status_code r < 600)) /\
  (forall w, ends e p start w (Returned tt) ->
     trace w = [EvHttp rq0 (http e 0 rq0); EvHttp rq1 (http e 1 rq1);
                EvHttp rq2 (http e 2 rq2); EvHttp rq3 (http e 3 rq3)] /\
     count_calls GET (trace w) = 4%nat /\
     count_calls POST (trace w) = 0%nat) /\
  (forall r, http e 0 rq0 = Answer r ->
     status_code r < 400 \/ 600 <= status_code r ->
     accepted (http e 0 rq0) = true /\
     exists w o,
       ends e p start w o /\
       exists t, trace w = EvHttp rq0 (Answer r)
                           :: EvHttp rq1 (http e 1 rq1) :: t).
Proof.
  intros e cfg base_url project_dir image_type reset_session p rq0 rq1 rq2 rq3.
  subst p rq0 rq1 rq2 rq3.
  destruct (open_project_total e cfg base_url project_dir image_type
              reset_session) as (w0 & o0 & Hrun & Hfirst & Hcase).
  split; [split; reflexivity |].
  split; [| split; [| split; [| split]]].
  5:{ intros r Hr Hstatus.
      assert (H0 : accepted (http e 0 (root_request cfg base_url)) = true).
      { rewrite Hr. cbn. apply negb_true_iff. lia. }
      split; [exact H0|].
      destruct (open_project_goes_on e cfg base_url project_dir image_type
                  reset_session H0) as (w & o & Hgo & t & Ht).
      rewrite Hr in Ht. eauto. }
  - intros w o Hend.
    destruct (ends_unique _ _ _ _ _ _ _ Hend Hrun) as [-> _]. exact Hfirst.
  - apply open_root_refused.
  - intros r Hr. rewrite Hr. cbn. split.
    + intros H. apply negb_false_iff in H. lia.
    + intros H. apply negb_false_iff. lia.
  - intros w Hend.
    destruct (ends_unique _ _ _ _ _ _ _ Hend Hrun) as [-> <-].
    destruct (all_passed _ _ _ _).
    + destruct Hcase as [_ ->]. cbn. repeat split; reflexivity.
    + destruct Hcase as [x Hx]. discriminate Hx.
Qed.

Lemma open_project_calls_root_first_witness :
  accepted (http OpenProjectSamples.root_503_env 0 OpenProjectSamples.rq0)
    = false /\
  ends OpenProjectSamples.root_503_env OpenProjectSamples.p start
    (mkWorld 1 0
       [EvHttp OpenProjectSamples.rq0 (Sample.reply 503 "Service Unavailable")])
    (Raised (HTTPError (mkResponse 503 (lit "Service Unavailable") None))).
Proof.
  split; [reflexivity|].
  apply (proj1 (proj2 (proj2
           (open_project_calls_root_first OpenProjectSamples.root_503_env
              Sample.cfg Sample.base (lit "books/atlas") (lit "Original")
              true)))).
  reflexivity.
Defined.

(** C10 as stated fails when the root answers 304: the status is not
    2xx, and the function goes on and returns. *)
Lemma open_project_passes_root_304 :
  is_2xx (http OpenProjectSamples.root_304_env 0 OpenProjectSamples.rq0)
    = false /\
  ends OpenProjectSamples.root_304_env OpenProjectSamples.p start
    (mkWorld 4 0
       [EvHttp OpenProjectSamples.rq0 (Sample.reply 304 "");
        EvHttp OpenProjectSamples.rq1 (Sample.reply 200 "true");
        EvHttp OpenProjectSamples.rq2 (Sample.reply 200 "true");
        EvHttp OpenProjectSamples.rq3 (Sample.reply 200 "true")])
    (Returned tt).
Proof.
  split; [reflexivity|].
  apply (ends_by_steps _ 50). vm_compute. reflexivity.
Qed.

(* ===================================================================== *)
(** ** [ocr4all_processflow_execute_json] *)
(* ===================================================================== *)

Lemma extend_extend n1 t1 n2 t2 w :
  extend n2 t2 (extend n1 t1 w) = extend (n1 + n2) (t1 ++ t2) w.
Proof.
  unfold extend. cbn. now rewrite Nat.add_assoc, app_assoc.
Qed.

Lemma called_extend rq res w : called rq res w = extend 1 [EvHttp rq res] w.
Proof. unfold called, extend. now rewrite Nat.add_1_r. Qed.

Lemma seen_extend ev w : seen ev w = extend 0 [ev] w.
Proof. unfold seen, extend. now rewrite Nat.add_0_r. Qed.

Lemma busy_answer res :
  busy res = true ->
  exists r, res = Answer r /\ raise_for_status r = Returned tt /\
            eqb (strip (text r)) (lit "") = false.
Proof.
  unfold busy. intros H. apply andb_true_iff in H as [Ha Ht].
  destruct (accepted_answer _ Ha) as (r & -> & Hs).
  exists r. cbn in Ht. apply negb_true_iff in Ht. auto.
Qed.

Lemma idle_answer res :
  idle res = true ->
  exists r, res = Answer r /\ raise_for_status r = Returned tt /\
            eqb (strip (text r)) (lit "") = true.
Proof.
  unfold idle. intros H. apply andb_true_iff in H as [Ha Ht].
  destruct (accepted_answer _ Ha) as (r & -> & Hs).
  exists r. auto.
Qed.

(** An accepted poll is busy or idle. *)
Lemma accepted_busy_or_idle res :
  accepted res = true -> busy res = true \/ idle res = true.
Proof.
  unfold busy, idle. intros ->. cbn.
  destruct (eqb (strip (text_of res)) (lit "")); auto.
Qed.

Lemma busy_not_idle res : busy res = true -> idle res = false.
Proof.
  unfold busy, idle. destruct (accepted res); cbn; [|discriminate].
  destruct (eqb _ _); cbn; congruence.
Qed.

Section Polling.

Variable e : env.
Variable cfg : settings.
Variable base_url : pystr.

Local Abbreviation rqc := (current_request cfg base_url).

Lemma current_accepted w r :
  http e (sent w) rqc = Answer r -> raise_for_status r = Returned tt ->
  ends e (ocr4all_processflow_current cfg base_url) w
    (called rqc (Answer r) w) (Returned (strip (text r))).
Proof.
  intros Hr Hs. unfold ocr4all_processflow_current.
  eapply ends_accepted; [exact Hr | exact Hs |]. apply ends_ret.
Qed.

Lemma current_refused w :
  accepted (http e (sent w) rqc) = false ->
  ends e (ocr4all_processflow_current cfg base_url) w
    (called rqc (http e (sent w) rqc) w)
    (Raised (refusal (http e (sent w) rqc))).
Proof.
  intros H. unfold ocr4all_processflow_current.
  apply (ends_refused e rqc _ w H).
Qed.

End Polling.

Lemma ends_getenv e key default w :
  ends e (getenv key default) w w
    (Returned (match environ e key with Some s => s | None => default end)).
Proof. unfold getenv. finish. Qed.

(** Two ways of writing the world a run goes on from. *)
Ltac same_start H :=
  match goal with
  | |- ends _ _ ?w1 _ _ =>
      match type of H with
      | ends _ _ ?w2 _ _ =>
          replace w1 with w2;
          [ exact H
          | unfold extend, seen, called; cbn; f_equal; try lia;
            rewrite <- ?app_assoc; cbn; rewrite ?app_nil_r; reflexivity ]
      end
  end.

(** [time.sleep] sleeps for a duration that is not negative and that the
    clock holds, and raises for any other. *)
Lemma sleep_error_none too_long secs :
  too_long secs = false -> (0 <= secs)%Q -> sleep_error too_long secs = None.
Proof.
  intros Hfit Hpos. unfold sleep_error. rewrite Hfit.
  apply Qle_bool_iff in Hpos. now rewrite Hpos.
Qed.

Lemma sleep_error_some too_long secs x :
  sleep_error too_long secs = Some x ->
  too_long secs = true \/ (secs < 0)%Q.
Proof.
  unfold sleep_error. destruct (too_long secs); [now left|].
  destruct (Qle_bool 0 secs) eqn:Hle; [discriminate|].
  intros _. right. apply Qnot_le_lt. intros H.
  apply Qle_bool_iff in H. congruence.
Qed.

Lemma ends_slept e too_long secs w :
  sleep_error too_long secs = None ->
  ends e (time_sleep too_long secs) w (seen (EvSleep secs) w) (Returned tt).
Proof.
  intros H. unfold time_sleep. rewrite H. apply ends_perform. reflexivity.
Qed.

Lemma ends_unslept e too_long secs w x :
  sleep_error too_long secs = Some x ->
  ends e (time_sleep too_long secs) w w (Raised x).
Proof. intros H. unfold time_sleep. rewrite H. apply ends_raise. Qed.

Section ExecuteJsonLoop.

Variable e : env.
Variable cfg : settings.
Variable too_long : Q -> bool.
Variable base_url : pystr.
Variable rqp : request.
Variable retries : Z.
Variable retry_sleep_s : Q.

Local Abbreviation rqc := (current_request cfg base_url).
Local Abbreviation loop :=
  (execute_json_loop cfg too_long base_url rqp retries retry_sleep_s).

Local Abbreviation loop_events_ok := (loop_events_ok retry_sleep_s).
Local Abbreviation busy_turns := (busy_turns e cfg base_url retry_sleep_s).

Lemma loop_exhausted w :
  ends e (loop []) w w
    (Raised (RuntimeError [FLit "processFlow/execute failed after retries"])).
Proof. apply ends_raise. Qed.

(** A poll that is not accepted ends the function. *)
Lemma loop_poll_refused attempt todo w :
  accepted (http e (sent w) rqc) = false ->
  ends e (loop (attempt :: todo)) w
    (called rqc (http e (sent w) rqc) w)
    (Raised (refusal (http e (sent w) rqc))).
Proof.
  intros H. cbn [execute_json_loop].
  eapply ends_bind_raised. apply current_refused, H.
Qed.

(** A busy poll whose sleep is refused ends the function. *)
Lemma loop_busy_unslept attempt todo w x :
  busy (http e (sent w) rqc) = true ->
  sleep_error too_long retry_sleep_s = Some x ->
  ends e (loop (attempt :: todo)) w
    (called rqc (http e (sent w) rqc) w) (Raised x).
Proof.
  intros Hb Hx. destruct (busy_answer _ Hb) as (r & Hr & Hs & Ht).
  rewrite Hr. cbn [execute_json_loop].
  eapply ends_bind_returned; [apply current_accepted; eassumption|].
  cbn beta. rewrite Ht. cbn [negb].
  eapply ends_bind_raised. apply ends_unslept, Hx.
Qed.

(** The POST answered with another status, and the sleep refused: the
    lines are logged, and the function ends at the sleep. *)
Lemma loop_post_failed_unslept attempt todo w rp x :
  idle (http e (sent w) rqc) = true ->
  http e (S (sent w)) rqp = Answer rp ->
  status_code rp <> 200 ->
  sleep_error too_long retry_sleep_s = Some x ->
  ends e (loop (attempt :: todo)) w
    (extend 0 (attempt_line attempt retries rp :: failure_lines rp)
       (called rqp (Answer rp) (called rqc (http e (sent w) rqc) w)))
    (Raised x).
Proof.
  intros Hi Hp Hne Hx. destruct (idle_answer _ Hi) as (r & Hr & Hs & Ht).
  rewrite Hr. cbn [execute_json_loop].
  eapply ends_bind_returned; [apply current_accepted; eassumption|].
  cbn beta. rewrite Ht. cbn [negb].
  eapply ends_bind_returned; [apply ends_answer; exact Hp|].
  eapply ends_bind_returned; [apply ends_perform; reflexivity|].
  apply Z.eqb_neq in Hne. rewrite Hne.
  eapply ends_bind_returned; [apply ends_perform; reflexivity|].
  unfold failure_lines.
  destruct (eqb (text rp) (lit "")); cbn [negb when].
  - eapply ends_bind_returned; [apply ends_ret|].
    eapply ends_as.
    + eapply ends_bind_raised. apply ends_unslept, Hx.
    + unfold extend, seen, called. cbn. f_equal; try lia.
      rewrite <- ?app_assoc. reflexivity.
    + reflexivity.
  - eapply ends_bind_returned; [apply ends_perform; reflexivity|].
    eapply ends_as.
    + eapply ends_bind_raised. apply ends_unslept, Hx.
    + unfold extend, seen, called. cbn. f_equal; try lia.
      rewrite <- ?app_assoc. reflexivity.
    + reflexivity.
Qed.

(** From here on the sleep between two attempts is one that
    [time.sleep] carries out. *)
Hypothesis sleep_ok : sleep_error too_long retry_sleep_s = None.

(** A busy poll: sleep, then the next attempt. *)
Lemma loop_busy attempt todo w w' o :
  busy (http e (sent w) rqc) = true ->
  ends e (loop todo)
    (seen (EvSleep retry_sleep_s) (called rqc (http e (sent w) rqc) w)) w' o ->
  ends e (loop (attempt :: todo)) w w' o.
Proof.
  intros Hb Hk. destruct (busy_answer _ Hb) as (r & Hr & Hs & Ht).
  rewrite Hr in Hk. cbn [execute_json_loop].
  eapply ends_bind_returned; [apply current_accepted; eassumption|].
  cbn beta. rewrite Ht. cbn [negb].
  eapply ends_bind_returned; [apply ends_slept, sleep_ok|].
  exact Hk.
Qed.

(** An idle poll is followed by the POST; a transport failure of the
    POST ends the function. *)
Lemma loop_post_broken attempt todo w x :
  idle (http e (sent w) rqc) = true ->
  http e (S (sent w)) rqp = Broken x ->
  ends e (loop (attempt :: todo)) w
    (called rqp (Broken x) (called rqc (http e (sent w) rqc) w))
    (Raised (RequestException x)).
Proof.
  intros Hi Hp. destruct (idle_answer _ Hi) as (r & Hr & Hs & Ht).
  rewrite Hr. cbn [execute_json_loop].
  eapply ends_bind_returned; [apply current_accepted; eassumption|].
  cbn beta. rewrite Ht. cbn [negb].
  eapply ends_bind_raised. apply ends_broken. exact Hp.
Qed.

(** The POST answered with status 200 ends the function normally. *)
Lemma loop_post_200 attempt todo w rp :
  idle (http e (sent w) rqc) = true ->
  http e (S (sent w)) rqp = Answer rp ->
  status_code rp = 200 ->
  ends e (loop (attempt :: todo)) w
    (seen (attempt_line attempt retries rp)
       (called rqp (Answer rp) (called rqc (http e (sent w) rqc) w)))
    (Returned tt).
Proof.
  intros Hi Hp H200. destruct (idle_answer _ Hi) as (r & Hr & Hs & Ht).
  rewrite Hr. cbn [execute_json_loop].
  eapply ends_bind_returned; [apply current_accepted; eassumption|].
  cbn beta. rewrite Ht. cbn [negb].
  eapply ends_bind_returned; [apply ends_answer; exact Hp|].
  eapply ends_bind_returned; [apply ends_perform; reflexivity|].
  apply Z.eqb_eq in H200. rewrite H200. apply ends_ret.
Qed.

(** The POST answered with another status: log, sleep, next attempt. *)
Lemma loop_post_failed attempt todo w rp w' o :
  idle (http e (sent w) rqc) = true ->
  http e (S (sent w)) rqp = Answer rp ->
  status_code rp <> 200 ->
  ends e (loop todo)
    (extend 0
       (attempt_line attempt retries rp :: failure_lines rp
        ++ [EvSleep retry_sleep_s])
       (called rqp (Answer rp) (called rqc (http e (sent w) rqc) w)))
    w' o ->
  ends e (loop (attempt :: todo)) w w' o.
Proof.
  intros Hi Hp Hne Hk. destruct (idle_answer _ Hi) as (r & Hr & Hs & Ht).
  rewrite Hr in Hk. cbn [execute_json_loop].
  eapply ends_bind_returned; [apply current_accepted; eassumption|].
  cbn beta. rewrite Ht. cbn [negb].
  eapply ends_bind_returned; [apply ends_answer; exact Hp|].
  eapply ends_bind_returned; [apply ends_perform; reflexivity|].
  apply Z.eqb_neq in Hne. rewrite Hne.
  eapply ends_bind_returned; [apply ends_perform; reflexivity|].
  unfold failure_lines in Hk.
  destruct (eqb (text rp) (lit "")); cbn [negb when].
  - eapply ends_bind_returned; [apply ends_ret|].
    eapply ends_bind_returned; [apply ends_slept, sleep_ok|].
    same_start Hk.
  - eapply ends_bind_returned; [apply ends_perform; reflexivity|].
    eapply ends_bind_returned; [apply ends_slept, sleep_ok|].
    same_start Hk.
Qed.

Hypothesis rqp_post : meth rqp = POST.

Lemma count_calls_cons m ev t :
  count_calls m (ev :: t)
  = ((if is_call m ev then 1 else 0) + count_calls m t)%nat.
Proof. unfold count_calls. cbn. destruct (is_call m ev); reflexivity. Qed.

Lemma busy_polls_cons ev t :
  busy_polls (ev :: t)
  = ((if is_busy_poll ev then 1 else 0) + busy_polls t)%nat.
Proof. unfold busy_polls. cbn. destruct (is_busy_poll ev); reflexivity. Qed.

Lemma post_is_post res : is_call POST (EvHttp rqp res) = true.
Proof. cbn. now rewrite rqp_post. Qed.

Lemma post_not_poll res : is_busy_poll (EvHttp rqp res) = false.
Proof. cbn. now rewrite rqp_post. Qed.

Lemma poll_is_poll res : is_busy_poll (EvHttp rqc res) = busy res.
Proof. reflexivity. Qed.

Lemma sleeps_cons_quiet ev t :
  is_busy_poll ev = false ->
  sleeps_after_busy retry_sleep_s t ->
  sleeps_after_busy retry_sleep_s (ev :: t).
Proof. intros Hq Ht. split; [congruence | exact Ht]. Qed.

Lemma sleeps_cons_slept ev t :
  sleeps_after_busy retry_sleep_s t ->
  sleeps_after_busy retry_sleep_s (ev :: EvSleep retry_sleep_s :: t).
Proof.
  intros Ht. split; [intros _; eexists; reflexivity|].
  apply sleeps_cons_quiet; [reflexivity | exact Ht].
Qed.

Lemma failure_lines_quiet rp t :
  count_calls POST (failure_lines rp ++ EvSleep retry_sleep_s :: t)
    = count_calls POST t /\
  busy_polls (failure_lines rp ++ EvSleep retry_sleep_s :: t) = busy_polls t /\
  (sleeps_after_busy retry_sleep_s t ->
   sleeps_after_busy retry_sleep_s
     (failure_lines rp ++ EvSleep retry_sleep_s :: t)).
Proof.
  unfold failure_lines.
  destruct (eqb (text rp) (lit "")); cbn [app]; (split; [|split]);
    try reflexivity; intros H;
    repeat (apply sleeps_cons_quiet; [reflexivity|]); exact H.
Qed.

(** The loop always ends, and what it adds to the trace is as
    described. *)
Lemma loop_total todo :
  forall w, exists w' o t,
    ends e (loop todo) w w' o /\
    trace w' = trace w ++ t /\
    loop_events_ok (List.length todo) t.
Proof.
  induction todo as [|attempt todo IH]; intros w.
  - exists w, (Raised (RuntimeError
                 [FLit "processFlow/execute failed after retries"])), [].
    split; [apply loop_exhausted|]. split; [now rewrite app_nil_r|].
    split; [cbn; lia | split; [exact I | discriminate]].
  - destruct (accepted (http e (sent w) rqc)) eqn:Ha.
    2:{ eexists _, _, [EvHttp rqc (http e (sent w) rqc)].
        split; [apply loop_poll_refused, Ha|]. split; [reflexivity|].
        assert (Hb : busy (http e (sent w) rqc) = false)
          by (unfold busy; now rewrite Ha).
        split; [|split].
        - rewrite count_calls_cons, busy_polls_cons, poll_is_poll, Hb.
          cbn. lia.
        - apply sleeps_cons_quiet; [rewrite poll_is_poll; exact Hb | exact I].
        - discriminate. }
    destruct (accepted_busy_or_idle _ Ha) as [Hb|Hi].
    + destruct (IH (seen (EvSleep retry_sleep_s)
                      (called rqc (http e (sent w) rqc) w)))
        as (w' & o & t & Hrun & Ht & Hcount & Hsleep & Hfirst).
      exists w', o,
        (EvHttp rqc (http e (sent w) rqc) :: EvSleep retry_sleep_s :: t).
      split; [eapply loop_busy; eassumption|].
      split; [rewrite Ht; cbn; now rewrite <- !app_assoc|].
      split; [|split].
      * rewrite !count_calls_cons, !busy_polls_cons, poll_is_poll, Hb.
        cbn. lia.
      * apply sleeps_cons_slept, Hsleep.
      * discriminate.
    + assert (Hb : busy (http e (sent w) rqc) = false).
      { pose proof (busy_not_idle (http e (sent w) rqc)) as Hnb.
        destruct (busy (http e (sent w) rqc)); [|reflexivity].
        specialize (Hnb eq_refl). congruence. }
      destruct (http e (S (sent w)) rqp) as [rp|x] eqn:Hp.
      * destruct (Z.eq_dec (status_code rp) 200) as [H200|Hne].
        -- eexists _, _,
             [EvHttp rqc (http e (sent w) rqc); EvHttp rqp (Answer rp);
              attempt_line attempt retries rp].
           split; [eapply loop_post_200; eassumption|].
           split; [cbn; now rewrite <- !app_assoc|].
           split; [|split].
           ++ rewrite !count_calls_cons, !busy_polls_cons, poll_is_poll, Hb,
                post_is_post, post_not_poll.
              cbn. lia.
           ++ apply sleeps_cons_quiet; [rewrite poll_is_poll; exact Hb|].
              apply sleeps_cons_quiet; [apply post_not_poll|].
              apply sleeps_cons_quiet; [reflexivity | exact I].
           ++ discriminate.
        -- destruct (IH (extend 0
                           (attempt_line attempt retries rp :: failure_lines rp
                            ++ [EvSleep retry_sleep_s])
                           (called rqp (Answer rp)
                              (called rqc (http e (sent w) rqc) w))))
             as (w' & o & t & Hrun & Ht & Hcount & Hsleep & Hfirst).
           destruct (failure_lines_quiet rp t) as (Hq1 & Hq2 & Hq3).
           exists w', o,
             (EvHttp rqc (http e (sent w) rqc) :: EvHttp rqp (Answer rp)
              :: attempt_line attempt retries rp
              :: failure_lines rp ++ EvSleep retry_sleep_s :: t).
           split; [eapply loop_post_failed; eassumption|].
           split.
           { rewrite Ht. cbn. rewrite <- !app_assoc. cbn.
             rewrite <- !app_assoc. reflexivity. }
           split; [|split].
           ++ rewrite !count_calls_cons, !busy_polls_cons, poll_is_poll, Hb,
                post_is_post, post_not_poll, Hq1, Hq2.
              cbn. lia.
           ++ apply sleeps_cons_quiet; [rewrite poll_is_poll; exact Hb|].
              apply sleeps_cons_quiet; [apply post_not_poll|].
              apply sleeps_cons_quiet; [reflexivity|].
              apply Hq3, Hsleep.
           ++ discriminate.
      * eexists _, _,
          [EvHttp rqc (http e (sent w) rqc); EvHttp rqp (Broken x)].
        split; [eapply loop_post_broken; eassumption|].
        split; [cbn; now rewrite <- !app_assoc|].
        split; [|split].
        -- rewrite !count_calls_cons, !busy_polls_cons, poll_is_poll, Hb,
             post_is_post, post_not_poll.
           cbn. lia.
        -- apply sleeps_cons_quiet; [rewrite poll_is_poll; exact Hb|].
           apply sleeps_cons_quiet; [apply post_not_poll | exact I].
        -- discriminate.
Qed.

Lemma first_call_failure_lines rp t :
  first_call (failure_lines rp ++ EvSleep retry_sleep_s :: t) = first_call t.
Proof.
  unfold failure_lines. destruct (eqb (text rp) (lit "")); reflexivity.
Qed.

(** From an idle poll on: the POST comes next, and what follows it does
    not start with another POST. *)
Lemma loop_idle_total attempt todo w :
  idle (http e (sent w) rqc) = true ->
  exists w' o t,
    ends e (loop (attempt :: todo)) w w' o /\
    trace w' = trace w ++ EvHttp rqc (http e (sent w) rqc)
                 :: EvHttp rqp (http e (S (sent w)) rqp) :: t /\
    first_call t <> Some POST.
Proof.
  intros Hi. destruct (http e (S (sent w)) rqp) as [rp|x] eqn:Hp.
  - destruct (Z.eq_dec (status_code rp) 200) as [H200|Hne].
    + eexists _, _, [attempt_line attempt retries rp].
      split; [eapply loop_post_200; eassumption|].
      split; [cbn; now rewrite <- !app_assoc | discriminate].
    + destruct (loop_total todo
                  (extend 0
                     (attempt_line attempt retries rp :: failure_lines rp
                      ++ [EvSleep retry_sleep_s])
                     (called rqp (Answer rp)
                        (called rqc (http e (sent w) rqc) w))))
        as (w' & o & t & Hrun & Ht & _ & _ & Hfirst).
      exists w', o,
        (attempt_line attempt retries rp
         :: failure_lines rp ++ EvSleep retry_sleep_s :: t).
      split; [eapply loop_post_failed; eassumption|].
      split.
      * rewrite Ht. cbn. rewrite <- !app_assoc. cbn.
        rewrite <- !app_assoc. reflexivity.
      * cbn [first_call attempt_line]. now rewrite first_call_failure_lines.
  - eexists _, _, [].
    split; [eapply loop_post_broken; eassumption|].
    split; [cbn; now rewrite <- !app_assoc | discriminate].
Qed.

(** Every attempt starts with the status poll. *)
Lemma loop_polls_first attempt todo w :
  exists w' o t,
    ends e (loop (attempt :: todo)) w w' o /\
    trace w' = trace w ++ EvHttp rqc (http e (sent w) rqc) :: t.
Proof.
  destruct (accepted (http e (sent w) rqc)) eqn:Ha.
  2:{ eexists _, _, []. split; [apply loop_poll_refused, Ha | reflexivity]. }
  destruct (accepted_busy_or_idle _ Ha) as [Hb|Hi].
  - destruct (loop_total todo
                (seen (EvSleep retry_sleep_s)
                   (called rqc (http e (sent w) rqc) w)))
      as (w' & o & t & Hrun & Ht & _).
    exists w', o, (EvSleep retry_sleep_s :: t).
    split; [eapply loop_busy; eassumption|].
    rewrite Ht. cbn. now rewrite <- !app_assoc.
  - destruct (loop_idle_total attempt todo w Hi)
      as (w' & o & t & Hrun & Ht & _).
    eexists _, _, _. split; [exact Hrun | exact Ht].
Qed.

Lemma extend_nothing w : extend 0 [] w = w.
Proof. destruct w. unfold extend. cbn. now rewrite Nat.add_0_r, app_nil_r. Qed.

Lemma busy_turns_S n :
  busy_turns 0 (S n)
  = busy_turns 0 n ++ [EvHttp rqc (http e n rqc); EvSleep retry_sleep_s].
Proof.
  unfold busy_turns. rewrite seq_S, flat_map_app. cbn. reflexivity.
Qed.

Lemma busy_turns_quiet from n :
  count_calls POST (busy_turns from n) = 0%nat.
Proof.
  revert from. induction n as [|n IH]; intros from; [reflexivity|].
  unfold busy_turns in *. cbn [seq flat_map app].
  rewrite !count_calls_cons, IH. reflexivity.
Qed.

(** While the polls are busy the loop only polls and sleeps. *)
Lemma loop_busy_prefix n :
  forall todo w w' o,
  (n <= List.length todo)%nat ->
  (forall k, (k < n)%nat -> busy (http e (sent w + k) rqc) = true) ->
  ends e (loop (skipn n todo)) (extend n (busy_turns (sent w) n) w) w' o ->
  ends e (loop todo) w w' o.
Proof.
  induction n as [|n IH]; intros todo w w' o Hlen Hbusy Hk.
  - cbn in Hk. now rewrite extend_nothing in Hk.
  - destruct todo as [|attempt todo]; [cbn in Hlen; lia|].
    assert (H0 : busy (http e (sent w) rqc) = true).
    { specialize (Hbusy 0%nat). rewrite Nat.add_0_r in Hbusy.
      apply Hbusy. lia. }
    eapply loop_busy; [exact H0|].
    apply IH.
    + cbn in Hlen. lia.
    + intros k Hlt. cbn [sent seen called].
      replace (S (sent w) + k)%nat with (sent w + S k)%nat by lia.
      apply Hbusy. lia.
    + cbn [skipn] in Hk.
      match type of Hk with
      | ends _ _ ?w2 _ _ =>
          match goal with
          | |- ends _ _ ?w1 _ _ => replace w1 with w2; [exact Hk|]
          end
      end.
      unfold extend, seen, called, busy_turns. cbn [sent ticks trace].
      cbn [seq flat_map app]. f_equal; [lia|].
      rewrite <- !app_assoc. reflexivity.
Qed.

End ExecuteJsonLoop.

Lemma attempts_length retries : List.length (attempts retries) = Z.to_nat retries.
Proof. unfold attempts. now rewrite length_map, length_seq. Qed.

Lemma attempts_skipn n retries :
  (n < Z.to_nat retries)%nat ->
  skipn n (attempts retries)
  = Z.of_nat (S n) :: skipn (S n) (attempts retries).
Proof.
  intros Hlt. unfold attempts. rewrite !skipn_map, !skipn_seq.
  replace (Z.to_nat retries - n)%nat with (S (Z.to_nat retries - S n)) by lia.
  cbn [seq List.map]. repeat f_equal.
Qed.

Lemma attempts_skipn_all retries :
  skipn (Z.to_nat retries) (attempts retries) = [].
Proof. rewrite <- attempts_length. apply skipn_all. Qed.

Section ExecuteJson.

Variable e : env.
Variable cfg : settings.
Variable too_long : Q -> bool.
Variable base_url : pystr.
Variables page_ids processes : list pystr.
Variable process_settings : json.
Variable timeout_s : Q.
Variable retries : Z.
Variable retry_sleep_s : Q.

Local Abbreviation rqc := (current_request cfg base_url).
Local Abbreviation rqp :=
  (execute_json_request base_url (origin_of e) (referer_of e base_url)
     page_ids processes process_settings timeout_s).
Local Abbreviation p :=
  (ocr4all_processflow_execute_json cfg too_long base_url page_ids processes
     process_settings timeout_s retries retry_sleep_s).
Local Abbreviation loop :=
  (execute_json_loop cfg too_long base_url rqp retries retry_sleep_s).

Hypothesis sleep_ok : sleep_error too_long retry_sleep_s = None.

(** The function is its loop over [range(1, retries + 1)]. *)
Lemma execute_json_is_loop w w' o :
  ends e (loop (attempts retries)) w w' o -> ends e p w w' o.
Proof.
  intros H. unfold ocr4all_processflow_execute_json.
  eapply ends_bind_returned; [apply ends_getenv|].
  eapply ends_bind_returned; [apply ends_getenv|].
  exact H.
Qed.

Lemma execute_json_total :
  exists w o,
    ends e p start w o /\
    loop_events_ok retry_sleep_s (Z.to_nat retries) (trace w).
Proof.
  destruct (loop_total e cfg too_long base_url rqp retries retry_sleep_s sleep_ok
              eq_refl
              (attempts retries) start) as (w & o & t & Hrun & Ht & Hok).
  exists w, o. split; [apply execute_json_is_loop, Hrun|].
  rewrite Ht. cbn [trace start app]. now rewrite <- attempts_length.
Qed.

Lemma execute_json_all_busy :
  (forall k, (k < Z.to_nat retries)%nat -> busy (http e k rqc) = true) ->
  ends e p start
    (mkWorld (Z.to_nat retries) 0
       (busy_turns e cfg base_url retry_sleep_s 0 (Z.to_nat retries)))
    (Raised (RuntimeError [FLit "processFlow/execute failed after retries"])).
Proof.
  intros Hbusy. apply execute_json_is_loop.
  eapply (loop_busy_prefix e cfg too_long base_url rqp retries retry_sleep_s
            sleep_ok
            (Z.to_nat retries)).
  - rewrite attempts_length. lia.
  - exact Hbusy.
  - rewrite attempts_skipn_all. apply loop_exhausted.
Qed.

(** After [n] busy polls, with attempts left, the function goes on with
    the next poll. *)
Lemma execute_json_moves_on n :
  (n < Z.to_nat retries)%nat ->
  (forall k, (k < n)%nat -> busy (http e k rqc) = true) ->
  exists w o t,
    ends e p start w o /\
    trace w = busy_turns e cfg base_url retry_sleep_s 0 n
              ++ EvHttp rqc (http e n rqc) :: t.
Proof.
  intros Hlt Hbusy.
  destruct (loop_polls_first e cfg too_long base_url rqp retries retry_sleep_s
              sleep_ok eq_refl
              (Z.of_nat (S n)) (skipn (S n) (attempts retries))
              (extend n (busy_turns e cfg base_url retry_sleep_s 0 n) start))
    as (w & o & t & Hrun & Ht).
  exists w, o, t. split; [|exact Ht].
  apply execute_json_is_loop.
  eapply (loop_busy_prefix e cfg too_long base_url rqp retries retry_sleep_s
            sleep_ok n).
  - rewrite attempts_length. lia.
  - exact Hbusy.
  - rewrite attempts_skipn by exact Hlt. exact Hrun.
Qed.

Lemma execute_json_first_idle n :
  (n < Z.to_nat retries)%nat ->
  (forall k, (k < n)%nat -> busy (http e k rqc) = true) ->
  idle (http e n rqc) = true ->
  exists w o t,
    ends e p start w o /\
    trace w = busy_turns e cfg base_url retry_sleep_s 0 n
              ++ EvHttp rqc (http e n rqc)
              :: EvHttp rqp (http e (S n) rqp) :: t /\
    first_call t <> Some POST.
Proof.
  intros Hlt Hbusy Hidle.
  destruct (loop_idle_total e cfg too_long base_url rqp retries retry_sleep_s
              sleep_ok eq_refl
              (Z.of_nat (S n)) (skipn (S n) (attempts retries))
              (extend n (busy_turns e cfg base_url retry_sleep_s 0 n) start)
              Hidle)
    as (w & o & t & Hrun & Ht & Hfirst).
  exists w, o, t. split; [|split; [exact Ht | exact Hfirst]].
  apply execute_json_is_loop.
  eapply (loop_busy_prefix e cfg too_long base_url rqp retries retry_sleep_s
            sleep_ok n).
  - rewrite attempts_length. lia.
  - exact Hbusy.
  - rewrite attempts_skipn by exact Hlt. exact Hrun.
Qed.

Lemma execute_json_first_idle_200 n rp :
  (n < Z.to_nat retries)%nat ->
  (forall k, (k < n)%nat -> busy (http e k rqc) = true) ->
  idle (http e n rqc) = true ->
  http e (S n) rqp = Answer rp ->
  status_code rp = 200 ->
  ends e p start
    (mkWorld (S (S n)) 0
       (busy_turns e cfg base_url retry_sleep_s 0 n
        ++ [EvHttp rqc (http e n rqc); EvHttp rqp (Answer rp);
            attempt_line (Z.of_nat (S n)) retries rp]))
    (Returned tt).
Proof.
  intros Hlt Hbusy Hidle Hp H200.
  apply execute_json_is_loop.
  eapply (loop_busy_prefix e cfg too_long base_url rqp retries retry_sleep_s
            sleep_ok n).
  - rewrite attempts_length. lia.
  - exact Hbusy.
  - rewrite attempts_skipn by exact Hlt.
    eapply ends_as.
    + eapply loop_post_200; [exact Hidle | exact Hp | exact H200].
    + unfold seen, called, extend. cbn. f_equal; try lia.
      rewrite <- !app_assoc. reflexivity.
    + reflexivity.
Qed.

End ExecuteJson.

(** C2, amended.  Let [retry_sleep_s] be a duration [time.sleep] carries
    out: not negative, and not too long for the clock.  Then every run
    of [ocr4all_processflow_execute_json] ends, and in its trace each
    busy poll is directly followed by the sleep, not by a POST.  After
    the sleep the function moves on to the next attempt: when the first
    [n] polls are busy and attempts are left, the run consists of these
    polls, each with its sleep and no POST among them, and goes on with
    poll [n + 1]; when all [retries] polls are busy it raises after the
    last sleep.  The busy polls and the POSTs together number at most
    [retries]: a busy poll uses up one attempt of the bounded count. *)
Theorem execute_json_busy_poll_spends_attempt :
  forall e cfg too_long base_url page_ids processes process_settings timeout_s
         retries retry_sleep_s,
  let rqc := current_request cfg base_url in
  let p := ocr4all_processflow_execute_json cfg too_long base_url page_ids
             processes process_settings timeout_s retries retry_sleep_s in
  let turns := busy_turns e cfg base_url retry_sleep_s 0 in
  too_long retry_sleep_s = false ->
  (0 <= retry_sleep_s)%Q ->
  (exists w o, ends e p start w o) /\
  (forall w o, ends e p start w o ->
     sleeps_after_busy retry_sleep_s (trace w) /\
     (count_calls POST (trace w) + busy_polls (trace w) <= Z.to_nat retries)%nat) /\
  (forall n,
     (n < Z.to_nat retries)%nat ->
     (forall k, (k < n)%nat -> busy (http e k rqc) = true) ->
     (exists w o t,
        ends e p start w o /\
        trace w = turns n ++ EvHttp rqc (http e n rqc) :: t) /\
     count_calls POST (turns n) = 0%nat /\
     turns (S n) = turns n ++ [EvHttp rqc (http e n rqc); EvSleep retry_sleep_s]) /\
  ((forall k, (k < Z.to_nat retries)%nat -> busy (http e k rqc) = true) ->
     ends e p start (mkWorld (Z.to_nat retries) 0 (turns (Z.to_nat retries)))
       (Raised (RuntimeError
          [FLit "processFlow/execute failed after retries"]))).
Proof.
  intros e cfg too_long base_url page_ids processes process_settings timeout_s
         retries retry_sleep_s rqc p turns Hfit Hpos. subst rqc p turns.
  pose proof (sleep_error_none too_long retry_sleep_s Hfit Hpos) as Hok.
  destruct (execute_json_total e cfg too_long base_url page_ids processes
              process_settings timeout_s retries retry_sleep_s Hok)
    as (w0 & o0 & Hrun & Hcount & Hsleep & _).
  split; [exists w0, o0; exact Hrun|].
  split; [|split].
  - intros w o Hend.
    destruct (ends_unique _ _ _ _ _ _ _ Hend Hrun) as [-> _].
    split; [exact Hsleep | exact Hcount].
  - intros n Hlt Hbusy. split; [|split].
    + apply execute_json_moves_on; assumption.
    + apply busy_turns_quiet.
    + apply busy_turns_S.
  - intros Hbusy. apply execute_json_all_busy; assumption.
Qed.

Lemma execute_json_busy_poll_spends_attempt_witness :
  Sample.too_long 2 = false /\
  (0 <= 2)%Q /\
  ends ExecuteJsonSamples.busy_twice_env (ExecuteJsonSamples.p 3) start
    (mkWorld 4 0
       [EvHttp ExecuteJsonSamples.rqc (Sample.reply 200 "segmentation");
        EvSleep 2;
        EvHttp ExecuteJsonSamples.rqc (Sample.reply 200 "segmentation");
        EvSleep 2;
        EvHttp ExecuteJsonSamples.rqc (Sample.reply 200 "");
        EvHttp ExecuteJsonSamples.rqp (Sample.reply 200 "");
        attempt_line 3 3 (mkResponse 200 (lit "") None)])
    (Returned tt) /\
  (count_calls POST
     [EvHttp ExecuteJsonSamples.rqc (Sample.reply 200 "segmentation");
      EvSleep 2;
      EvHttp ExecuteJsonSamples.rqc (Sample.reply 200 "segmentation");
      EvSleep 2;
      EvHttp ExecuteJsonSamples.rqc (Sample.reply 200 "");
      EvHttp ExecuteJsonSamples.rqp (Sample.reply 200 "");
      attempt_line 3 3 (mkResponse 200 (lit "") None)]
   + busy_polls
       [EvHttp ExecuteJsonSamples.rqc (Sample.reply 200 "segmentation");
        EvSleep 2;
        EvHttp ExecuteJsonSamples.rqc (Sample.reply 200 "segmentation");
        EvSleep 2;
        EvHttp ExecuteJsonSamples.rqc (Sample.reply 200 "");
        EvHttp ExecuteJsonSamples.rqp (Sample.reply 200 "");
        attempt_line 3 3 (mkResponse 200 (lit "") None)]
   <= Z.to_nat 3)%nat /\
  (exists w o t,
     ends ExecuteJsonSamples.busy_twice_env (ExecuteJsonSamples.p 3) start w o /\
     trace w
     = busy_turns ExecuteJsonSamples.busy_twice_env Sample.cfg Sample.base 2 0 2
       ++ EvHttp ExecuteJsonSamples.rqc
            (http ExecuteJsonSamples.busy_twice_env 2 ExecuteJsonSamples.rqc)
          :: t).
Proof.
  assert (Hpos : (0 <= 2)%Q) by (unfold Qle; simpl; lia).
  assert (Hrun :
    ends ExecuteJsonSamples.busy_twice_env (ExecuteJsonSamples.p 3) start
      (mkWorld 4 0
         [EvHttp ExecuteJsonSamples.rqc (Sample.reply 200 "segmentation");
          EvSleep 2;
          EvHttp ExecuteJsonSamples.rqc (Sample.reply 200 "segmentation");
          EvSleep 2;
          EvHttp ExecuteJsonSamples.rqc (Sample.reply 200 "");
          EvHttp ExecuteJsonSamples.rqp (Sample.reply 200 "");
          attempt_line 3 3 (mkResponse 200 (lit "") None)])
      (Returned tt)).
  { apply (ends_by_steps _ 100). vm_compute. reflexivity. }
  assert (Hbusy : forall k, (k < 2)%nat ->
            busy (http ExecuteJsonSamples.busy_twice_env k
                    (current_request Sample.cfg Sample.base)) = true).
  { intros [|[|k]] Hk; [reflexivity | reflexivity | lia]. }
  assert (Hlt : (2 < Z.to_nat 3)%nat) by (vm_compute; lia).
  destruct (execute_json_busy_poll_spends_attempt
              ExecuteJsonSamples.busy_twice_env Sample.cfg Sample.too_long
              Sample.base [lit "0001"] [lit "recognition"] (JDict []) 3600 3 2
              eq_refl Hpos) as (_ & Hall & Hon & _).
  split; [reflexivity|]. split; [exact Hpos|]. split; [exact Hrun|].
  split; [exact (proj2 (Hall _ _ Hrun))|].
  exact (proj1 (Hon 2%nat Hlt Hbusy)).
Defined.

(** C2 as stated fails with [retries = 1] when the server is busy at the
    first poll and idle afterwards: the busy poll has used the only
    attempt, the function raises and no POST was issued. *)
Lemma execute_json_busy_poll_costs_the_post :
  busy (http ExecuteJsonSamples.busy_once_env 0 ExecuteJsonSamples.rqc) = true /\
  idle (http ExecuteJsonSamples.busy_once_env 1 ExecuteJsonSamples.rqc) = true /\
  ends ExecuteJsonSamples.busy_once_env (ExecuteJsonSamples.p 1) start
    (mkWorld 1 0
       [EvHttp ExecuteJsonSamples.rqc (Sample.reply 200 "segmentation");
        EvSleep 2])
    (Raised (RuntimeError [FLit "processFlow/execute failed after retries"])) /\
  count_calls POST
    [EvHttp ExecuteJsonSamples.rqc (Sample.reply 200 "segmentation");
     EvSleep 2] = 0%nat.
Proof.
  split; [reflexivity|]. split; [reflexivity|]. split; [|reflexivity].
  apply (ends_by_steps _ 100). vm_compute. reflexivity.
Qed.

(** C3, amended.  Let [retry_sleep_s] be a duration [time.sleep] carries
    out: not negative, and not too long for the clock.  When every poll
    the function makes is busy, it raises
    after [retries] polls, each followed by a sleep, and no POST is
    issued.  When the first idle poll is poll number [n + 1], no POST
    precedes it, the POST is the call that follows it, and what follows
    the POST does not start with another POST; when that POST is answered
    with status 200 the function returns and the run has exactly one
    POST. *)
Theorem execute_json_posts_after_first_idle_poll :
  forall e cfg too_long base_url page_ids processes process_settings timeout_s
         retries retry_sleep_s,
  let rqc := current_request cfg base_url in
  let rqp := execute_json_request base_url (origin_of e)
               (referer_of e base_url) page_ids processes process_settings
               timeout_s in
  let p := ocr4all_processflow_execute_json cfg too_long base_url page_ids
             processes process_settings timeout_s retries retry_sleep_s in
  let turns := busy_turns e cfg base_url retry_sleep_s 0 in
  too_long retry_sleep_s = false ->
  (0 <= retry_sleep_s)%Q ->
  ((forall k, (k < Z.to_nat retries)%nat -> busy (http e k rqc) = true) ->
     ends e p start (mkWorld (Z.to_nat retries) 0 (turns (Z.to_nat retries)))
       (Raised (RuntimeError
          [FLit "processFlow/execute failed after retries"])) /\
     count_calls POST (turns (Z.to_nat retries)) = 0%nat) /\
  (forall n,
     (n < Z.to_nat retries)%nat ->
     (forall k, (k < n)%nat -> busy (http e k rqc) = true) ->
     idle (http e n rqc) = true ->
     (exists w o t,
        ends e p start w o /\
        trace w = turns n ++ EvHttp rqc (http e n rqc)
                  :: EvHttp rqp (http e (S n) rqp) :: t /\
        count_calls POST (turns n) = 0%nat /\
        first_call t <> Some POST) /\
     (forall rp,
        http e (S n) rqp = Answer rp -> status_code rp = 200 ->
        ends e p start
          (mkWorld (S (S n)) 0
             (turns n ++ [EvHttp rqc (http e n rqc); EvHttp rqp (Answer rp);
                          attempt_line (Z.of_nat (S n)) retries rp]))
          (Returned tt) /\
        count_calls POST
          (turns n ++ [EvHttp rqc (http e n rqc); EvHttp rqp (Answer rp);
                       attempt_line (Z.of_nat (S n)) retries rp]) = 1%nat)).
Proof.
  intros e cfg too_long base_url page_ids processes process_settings timeout_s
         retries retry_sleep_s rqc rqp p turns Hfit Hpos.
  subst rqc rqp p turns.
  pose proof (sleep_error_none too_long retry_sleep_s Hfit Hpos) as Hok.
  split.
  - intros Hbusy. split.
    + apply execute_json_all_busy; assumption.
    + apply busy_turns_quiet.
  - intros n Hlt Hbusy Hidle. split.
    + destruct (execute_json_first_idle e cfg too_long base_url page_ids
                  processes process_settings timeout_s retries retry_sleep_s
                  Hok n Hlt Hbusy Hidle) as (w & o & t & Hrun & Ht & Hfirst).
      exists w, o, t. split; [exact Hrun|]. split; [exact Ht|].
      split; [apply busy_turns_quiet | exact Hfirst].
    + intros rp Hp H200. split.
      * apply execute_json_first_idle_200; assumption.
      * unfold count_calls. rewrite filter_app, length_app.
        fold (count_calls POST
                (busy_turns e cfg base_url retry_sleep_s 0 n)).
        rewrite busy_turns_quiet. reflexivity.
Qed.

Lemma execute_json_posts_after_first_idle_poll_witness :
  (forall k, (k < 2)%nat ->
     busy (http ExecuteJsonSamples.busy_twice_env k ExecuteJsonSamples.rqc)
       = true) /\
  idle (http ExecuteJsonSamples.busy_twice_env 2 ExecuteJsonSamples.rqc) = true /\
  ends ExecuteJsonSamples.busy_twice_env (ExecuteJsonSamples.p 12) start
    (mkWorld 4 0
       [EvHttp ExecuteJsonSamples.rqc (Sample.reply 200 "segmentation");
        EvSleep 2;
        EvHttp ExecuteJsonSamples.rqc (Sample.reply 200 "segmentation");
        EvSleep 2;
        EvHttp ExecuteJsonSamples.rqc (Sample.reply 200 "");
        EvHttp ExecuteJsonSamples.rqp (Sample.reply 200 "");
        attempt_line 3 12 (mkResponse 200 (lit "") None)])
    (Returned tt).
Proof.
  assert (Hbusy : forall k, (k < 2)%nat ->
            busy (http ExecuteJsonSamples.busy_twice_env k
                    ExecuteJsonSamples.rqc) = true).
  { intros [|[|k]] Hk; [reflexivity | reflexivity | lia]. }
  split; [exact Hbusy|]. split; [reflexivity|].
  assert (Hlt : (2 < Z.to_nat 12)%nat) by (vm_compute; lia).
  assert (Hpos : (0 <= 2)%Q) by (unfold Qle; simpl; lia).
  destruct (proj2 (execute_json_posts_after_first_idle_poll
                     ExecuteJsonSamples.busy_twice_env Sample.cfg
                     Sample.too_long Sample.base
                     [lit "0001"] [lit "recognition"] (JDict []) 3600 12 2
                     eq_refl Hpos)
              2%nat Hlt Hbusy eq_refl) as [_ H200].
  destruct (H200 (mkResponse 200 (lit "") None) eq_refl eq_refl) as [Hrun _].
  exact Hrun.
Defined.

(** C3 as stated fails when the POST that follows the first idle poll is
    answered with status 500 and the server is idle at the next poll: two
    POSTs are issued after the first idle poll. *)
Lemma execute_json_posts_again_after_failure :
  idle (http ExecuteJsonSamples.post_fails_once_env 0 ExecuteJsonSamples.rqc)
    = true /\
  ends ExecuteJsonSamples.post_fails_once_env (ExecuteJsonSamples.p 12) start
    (mkWorld 4 0
       ([EvHttp ExecuteJsonSamples.rqc (Sample.reply 200 "");
         EvHttp ExecuteJsonSamples.rqp (Sample.reply 500 "busy");
         attempt_line 1 12 (mkResponse 500 (lit "busy") None)]
        ++ failure_lines (mkResponse 500 (lit "busy") None)
        ++ [EvSleep 2;
            EvHttp ExecuteJsonSamples.rqc (Sample.reply 200 "");
            EvHttp ExecuteJsonSamples.rqp (Sample.reply 200 "");
            attempt_line 2 12 (mkResponse 200 (lit "") None)]))
    (Returned tt) /\
  count_calls POST
    ([EvHttp ExecuteJsonSamples.rqc (Sample.reply 200 "");
      EvHttp ExecuteJsonSamples.rqp (Sample.reply 500 "busy");
      attempt_line 1 12 (mkResponse 500 (lit "busy") None)]
     ++ failure_lines (mkResponse 500 (lit "busy") None)
     ++ [EvSleep 2;
         EvHttp ExecuteJsonSamples.rqc (Sample.reply 200 "");
         EvHttp ExecuteJsonSamples.rqp (Sample.reply 200 "");
         attempt_line 2 12 (mkResponse 200 (lit "") None)]) = 2%nat.
Proof.
  split; [reflexivity|]. split; [|reflexivity].
  apply (ends_by_steps _ 200). vm_compute. reflexivity.
Qed.

(* ===================================================================== *)
(** ** [ocr4all_processflow_wait] *)
(* ===================================================================== *)

Lemma eqb_true a b : eqb a b = true -> a = b.
Proof. unfold eqb. destruct (eq_dec a b); [auto | discriminate]. Qed.

Lemma eqb_same a : eqb a a = true.
Proof. unfold eqb. destruct (eq_dec a a); [reflexivity | contradiction]. Qed.

Section WaitTurn.

Variable e : env.
Variable cfg : settings.
Variable base_url : pystr.
Variable timeout_s : Z.
Variable t0 : float.

Local Abbreviation rqc := (current_request cfg base_url).
Local Abbreviation turn := (wait_turn cfg base_url timeout_s t0).

Local Abbreviation polled := (polled cfg base_url).

Lemma turn_polled w last r :
  http e (sent w) rqc = Answer r -> raise_for_status r = Returned tt ->
  forall (k : pystr -> option pystr -> prog (option pystr + unit)) w' o,
  ends e (k (strip (text r)) (next_last (strip (text r)) last))
    (polled w last r) w' o ->
  ends e (cur <-- ocr4all_processflow_current cfg base_url ;;;
          last' <-- (if differs cur last
                     then perform (Log LInfo
                            [FLit "OCR4all current: "; FRepr cur]) ;;;
                          ret (Some cur)
                     else ret last) ;;;
          k cur last') w w' o.
Proof.
  intros Hr Hs k w' o Hk.
  eapply ends_bind_returned; [apply current_accepted; eassumption|].
  cbn beta. unfold polled, next_last in Hk.
  destruct (differs (strip (text r)) last).
  - eapply ends_bind_returned.
    + eapply ends_bind_returned; [apply ends_perform; reflexivity|].
      apply ends_ret.
    + same_start Hk.
  - eapply ends_bind_returned; [apply ends_ret|].
    same_start Hk.
Qed.

(** An idle poll ends the wait, whatever the clock shows. *)
Lemma turn_idle w last r :
  http e (sent w) rqc = Answer r -> raise_for_status r = Returned tt ->
  eqb (strip (text r)) (lit "") = true ->
  ends e (turn last) w (polled w last r) (Returned (inr tt)).
Proof.
  intros Hr Hs Hidle. unfold wait_turn.
  eapply (turn_polled w last r Hr Hs
            (fun cur last' =>
               if eqb cur (lit "") then ret (inr tt)
               else
                 t <-- perform Now ;;;
                 if float_gt_int (t - t0) timeout_s
                 then raise timed_out
                 else perform (Sleep 1) ;;; ret (inl last'))).
  cbn beta. rewrite Hidle. apply ends_ret.
Qed.

(** A busy poll with the budget exceeded raises. *)
Lemma turn_timeout w last r :
  http e (sent w) rqc = Answer r -> raise_for_status r = Returned tt ->
  eqb (strip (text r)) (lit "") = false ->
  negb (float_gt_int (clock e (ticks w) - t0) timeout_s) = false ->
  ends e (turn last) w (ticked (polled w last r)) (Raised timed_out).
Proof.
  intros Hr Hs Hbusy Hlate. unfold wait_turn.
  eapply (turn_polled w last r Hr Hs
            (fun cur last' =>
               if eqb cur (lit "") then ret (inr tt)
               else
                 t <-- perform Now ;;;
                 if float_gt_int (t - t0) timeout_s
                 then raise timed_out
                 else perform (Sleep 1) ;;; ret (inl last'))).
  cbn beta. rewrite Hbusy.
  eapply ends_bind_returned; [apply ends_perform; reflexivity|].
  cbn beta. unfold polled at 1. cbn [ticks extend called].
  apply negb_false_iff in Hlate. rewrite Hlate. apply ends_raise.
Qed.

(** A busy poll within the budget sleeps one second and goes round. *)
Lemma turn_again w last r :
  http e (sent w) rqc = Answer r -> raise_for_status r = Returned tt ->
  eqb (strip (text r)) (lit "") = false ->
  negb (float_gt_int (clock e (ticks w) - t0) timeout_s) = true ->
  ends e (turn last) w (seen (EvSleep 1) (ticked (polled w last r)))
    (Returned (inl (next_last (strip (text r)) last))).
Proof.
  intros Hr Hs Hbusy Hok. unfold wait_turn.
  eapply (turn_polled w last r Hr Hs
            (fun cur last' =>
               if eqb cur (lit "") then ret (inr tt)
               else
                 t <-- perform Now ;;;
                 if float_gt_int (t - t0) timeout_s
                 then raise timed_out
                 else perform (Sleep 1) ;;; ret (inl last'))).
  cbn beta. rewrite Hbusy.
  eapply ends_bind_returned; [apply ends_perform; reflexivity|].
  cbn beta. unfold polled at 1. cbn [ticks extend called].
  apply negb_true_iff in Hok. rewrite Hok.
  eapply ends_bind_returned; [apply ends_perform; reflexivity|].
  apply ends_ret.
Qed.

End WaitTurn.

Section Wait.

Variable e : env.
Variable cfg : settings.
Variable base_url : pystr.
Variable timeout_s : Z.

Local Abbreviation rqc := (current_request cfg base_url).
Local Abbreviation turn := (wait_turn cfg base_url timeout_s (clock e 0)).

Local Abbreviation status := (status e cfg base_url).
Local Abbreviation logged := (logged e cfg base_url).
Local Abbreviation poll_events := (poll_events e cfg base_url).
Local Abbreviation waiting_turns := (waiting_turns e cfg base_url).
Local Abbreviation in_budget := (in_budget e timeout_s).
Local Abbreviation last_at := (last_at e cfg base_url).
Local Abbreviation at_turn := (at_turn e cfg base_url).

Lemma differs_logged k : differs (status k) (last_at k) = logged k.
Proof. destruct k; reflexivity. Qed.

Lemma next_last_at k : next_last (status k) (last_at k) = last_at (S k).
Proof.
  unfold next_last. rewrite differs_logged.
  destruct k as [|j]; [reflexivity|]. cbn [logged last_at].
  destruct (eqb (status (S j)) (status j)) eqn:Heq; cbn [negb]; [|reflexivity].
  apply eqb_true in Heq. now rewrite Heq.
Qed.

Lemma waiting_turns_S n :
  waiting_turns (S n) = waiting_turns n ++ poll_events n ++ [EvSleep 1].
Proof.
  unfold waiting_turns. rewrite seq_S, flat_map_app. cbn [flat_map Nat.add].
  now rewrite app_nil_r.
Qed.

Lemma polled_at k r :
  http e k rqc = Answer r ->
  polled cfg base_url (at_turn k) (last_at k) r
  = mkWorld (S k) (S k) (waiting_turns k ++ poll_events k) /\
  strip (text r) = status k.
Proof.
  intros Hr.
  assert (Hst : strip (text r) = status k) by (unfold status; now rewrite Hr).
  split; [|exact Hst].
  unfold polled, poll_events. rewrite Hst, differs_logged, Hr.
  unfold extend, called, at_turn. cbn [sent ticks trace].
  f_equal; [lia|]. rewrite <- app_assoc. reflexivity.
Qed.

(** [m] turns that go round, from turn [k] on. *)
Lemma wait_rounds m :
  forall k w' o,
  (forall j, (k <= j < k + m)%nat ->
     busy (http e j rqc) = true /\ in_budget j = true) ->
  ends e (while_true turn (last_at (k + m))) (at_turn (k + m)) w' o ->
  ends e (while_true turn (last_at k)) (at_turn k) w' o.
Proof.
  induction m as [|m IH]; intros k w' o Hturns Hend.
  - now rewrite Nat.add_0_r in Hend.
  - destruct (Hturns k ltac:(lia)) as [Hbusy Hok].
    destruct (busy_answer _ Hbusy) as (r & Hr & Hs & Ht).
    destruct (polled_at k r Hr) as [Hw Hst].
    eapply ends_again with (s' := last_at (S k)) (w1 := at_turn (S k)).
    + eapply ends_as.
      * apply (turn_again e cfg base_url timeout_s (clock e 0)
                 (at_turn k) (last_at k) r Hr Hs Ht Hok).
      * rewrite Hw. unfold seen, ticked, at_turn. cbn [sent ticks trace].
        rewrite waiting_turns_S, <- app_assoc. reflexivity.
      * rewrite Hst, next_last_at. reflexivity.
    + apply IH.
      * intros j Hj. apply Hturns. lia.
      * replace (S k + m)%nat with (k + S m)%nat by lia. exact Hend.
Qed.

Lemma wait_starts w' o :
  ends e (while_true turn None) (at_turn 0) w' o ->
  ends e (ocr4all_processflow_wait cfg base_url timeout_s) start w' o.
Proof.
  intros H. unfold ocr4all_processflow_wait.
  eapply ends_bind_returned; [apply ends_perform; reflexivity|].
  exact H.
Qed.

Lemma wait_returns n :
  (forall j, (j < n)%nat ->
     busy (http e j rqc) = true /\ in_budget j = true) ->
  idle (http e n rqc) = true ->
  ends e (ocr4all_processflow_wait cfg base_url timeout_s) start
    (mkWorld (S n) (S n) (waiting_turns n ++ poll_events n)) (Returned tt).
Proof.
  intros Hturns Hidle. apply wait_starts.
  apply (wait_rounds n 0); [intros j Hj; apply Hturns; lia|].
  cbn [Nat.add].
  destruct (idle_answer _ Hidle) as (r & Hr & Hs & Ht).
  destruct (polled_at n r Hr) as [Hw _].
  apply ends_leave. rewrite <- Hw.
  apply (turn_idle e cfg base_url timeout_s (clock e 0)
           (at_turn n) (last_at n) r Hr Hs Ht).
Qed.

Lemma wait_times_out n :
  (forall j, (j < n)%nat ->
     busy (http e j rqc) = true /\ in_budget j = true) ->
  busy (http e n rqc) = true ->
  in_budget n = false ->
  ends e (ocr4all_processflow_wait cfg base_url timeout_s) start
    (mkWorld (S n) (S (S n)) (waiting_turns n ++ poll_events n))
    (Raised timed_out).
Proof.
  intros Hturns Hbusy Hlate. apply wait_starts.
  apply (wait_rounds n 0); [intros j Hj; apply Hturns; lia|].
  cbn [Nat.add].
  destruct (busy_answer _ Hbusy) as (r & Hr & Hs & Ht).
  destruct (polled_at n r Hr) as [Hw _].
  apply ends_abort.
  eapply ends_as.
  - apply (turn_timeout e cfg base_url timeout_s (clock e 0)
             (at_turn n) (last_at n) r Hr Hs Ht Hlate).
  - rewrite Hw. reflexivity.
  - reflexivity.
Qed.

End Wait.

(** The comparison with the budget is a comparison of numbers. *)
Lemma float_gt_int_value x n q :
  float_value x = Some q ->
  (float_gt_int x n = true <-> (inject_Z n < q)%Q).
Proof.
  unfold float_value, float_gt_int.
  destruct (Prim2SF x) as [s|s| |s m ex]; try discriminate.
  - intros [= <-]. rewrite Z.ltb_lt. unfold Qlt. cbn. lia.
  - intros [= <-]. destruct (Z.leb_spec 0 ex) as [Hex|Hex].
    + rewrite Z.ltb_lt. unfold Qlt. cbn [Qnum Qden inject_Z]. lia.
    + rewrite Z.ltb_lt. unfold Qlt. cbn [Qnum Qden inject_Z].
      rewrite Z2Pos.id by (apply Z.pow_pos_nonneg; lia). lia.
Qed.

(** C4.  Let the first [n] polls of a run of [ocr4all_processflow_wait]
    be busy and the clock reading taken after each of them be within the
    budget, that is, the float difference between that reading and the
    reading taken at the start be not greater than [timeout_s].  If poll
    [n] is idle the function returns, and the clock is not consulted for
    it; if poll [n] is busy and the reading taken after it exceeds the
    budget, the function raises [TimeoutError].  In both cases the trace
    is: for each earlier turn the poll, a log line when the polled
    status is not that of the poll before (the first poll is always
    logged), and a sleep of one second; then the last poll and its log
    line, if any. *)
Theorem wait_returns_when_idle_or_times_out :
  forall e cfg base_url timeout_s n,
  let rqc := current_request cfg base_url in
  let p := ocr4all_processflow_wait cfg base_url timeout_s in
  let so_far := waiting_turns e cfg base_url n ++ poll_events e cfg base_url n in
  (forall j, (j < n)%nat ->
     busy (http e j rqc) = true /\ in_budget e timeout_s j = true) ->
  (idle (http e n rqc) = true ->
     ends e p start (mkWorld (S n) (S n) so_far) (Returned tt)) /\
  (busy (http e n rqc) = true -> in_budget e timeout_s n = false ->
     ends e p start (mkWorld (S n) (S (S n)) so_far) (Raised timed_out)) /\
  (in_budget e timeout_s n = false <->
     float_gt_int (clock e (S n) - clock e 0) timeout_s = true) /\
  (forall q, float_value (clock e (S n) - clock e 0) = Some q ->
     (in_budget e timeout_s n = false <-> (inject_Z timeout_s < q)%Q)) /\
  (forall k,
     poll_events e cfg base_url k
     = EvHttp rqc (http e k rqc)
       :: (if logged e cfg base_url k
           then [status_line (status e cfg base_url k)] else [])) /\
  logged e cfg base_url 0 = true /\
  (forall k, logged e cfg base_url (S k) = true <->
             status e cfg base_url (S k) <> status e cfg base_url k).
Proof.
  intros e cfg base_url timeout_s n rqc p so_far Hturns.
  subst rqc p so_far.
  split; [| split; [| split; [| split; [| split; [| split]]]]].
  - apply wait_returns, Hturns.
  - apply wait_times_out, Hturns.
  - unfold in_budget. apply negb_false_iff.
  - intros q Hq. unfold in_budget. rewrite negb_false_iff.
    apply float_gt_int_value, Hq.
  - reflexivity.
  - reflexivity.
  - intros k. cbn [logged]. split.
    + intros H Heq. rewrite Heq, eqb_same in H. discriminate H.
    + intros H. destruct (eqb _ _) eqn:Heq; [|reflexivity].
      apply eqb_true in Heq. contradiction.
Qed.

Lemma wait_returns_when_idle_or_times_out_witness :
  (forall j, (j < 3)%nat ->
     busy (http WaitSamples.three_steps_env j WaitSamples.rqc) = true /\
     in_budget WaitSamples.three_steps_env 3600 j = true) /\
  idle (http WaitSamples.three_steps_env 3 WaitSamples.rqc) = true /\
  ends WaitSamples.three_steps_env
    (ocr4all_processflow_wait Sample.cfg Sample.base 3600) start
    (mkWorld 4 4
       [EvHttp WaitSamples.rqc (Sample.reply 200 "segmentation");
        status_line (lit "segmentation");
        EvSleep 1;
        EvHttp WaitSamples.rqc (Sample.reply 200 " segmentation
");
        EvSleep 1;
        EvHttp WaitSamples.rqc (Sample.reply 200 "recognition");
        status_line (lit "recognition");
        EvSleep 1;
        EvHttp WaitSamples.rqc (Sample.reply 200 "");
        status_line (lit "")])
    (Returned tt).
Proof.
  assert (Hturns : forall j, (j < 3)%nat ->
            busy (http WaitSamples.three_steps_env j WaitSamples.rqc) = true /\
            in_budget WaitSamples.three_steps_env 3600 j = true).
  { intros [|[|[|j]]] Hj; [split; reflexivity .. | lia]. }
  split; [exact Hturns|]. split; [reflexivity|].
  apply (proj1 (wait_returns_when_idle_or_times_out
                  WaitSamples.three_steps_env Sample.cfg Sample.base 3600 3
                  Hturns)).
  reflexivity.
Defined.

Example wait_times_out_when_stuck :
  ends WaitSamples.stuck_env
    (ocr4all_processflow_wait Sample.cfg Sample.base 10) start
    (mkWorld 2 3
       [EvHttp WaitSamples.rqc (Sample.reply 200 "recognition");
        status_line (lit "recognition");
        EvSleep 1;
        EvHttp WaitSamples.rqc (Sample.reply 200 "recognition")])
    (Raised timed_out).
Proof. apply (ends_by_steps _ 100). vm_compute. reflexivity. Qed.

Example wait_returns_on_late_idle_poll :
  ends WaitSamples.late_idle_env
    (ocr4all_processflow_wait Sample.cfg Sample.base 10) start
    (mkWorld 2 2
       [EvHttp WaitSamples.rqc (Sample.reply 200 "recognition");
        status_line (lit "recognition");
        EvSleep 1;
        EvHttp WaitSamples.rqc (Sample.reply 200 "");
        status_line (lit "")])
    (Returned tt).
Proof. apply (ends_by_steps _ 100). vm_compute. reflexivity. Qed.

(** The subtraction is the machine's: ten seconds measured from 0.3 to
    10.3 are within a budget of ten seconds. *)
Example wait_goes_on_at_rounded_budget :
  (clock WaitSamples.rounding_env 1 - clock WaitSamples.rounding_env 0
   = 10)%float /\
  in_budget WaitSamples.rounding_env 10 0 = true /\
  ends WaitSamples.rounding_env
    (ocr4all_processflow_wait Sample.cfg Sample.base 10) start
    (mkWorld 2 2
       [EvHttp WaitSamples.rqc (Sample.reply 200 "recognition");
        status_line (lit "recognition");
        EvSleep 1;
        EvHttp WaitSamples.rqc (Sample.reply 200 "");
        status_line (lit "")])
    (Returned tt).
Proof.
  split; [vm_compute; reflexivity|]. split; [vm_compute; reflexivity|].
  apply (ends_by_steps _ 100). vm_compute. reflexivity.
Qed.

(* ===================================================================== *)
(** ** Trimming *)
(* ===================================================================== *)

Lemma blank_app a b : blank (a ++ b) = blank a && blank b.
Proof. unfold blank. apply forallb_app. Qed.

Lemma blank_cons c s : blank (c :: s) = isspace c && blank s.
Proof. reflexivity. Qed.

Lemma blank_rev s : blank (rev s) = blank s.
Proof.
  induction s as [|c s IH]; [reflexivity|].
  cbn [rev]. rewrite blank_app, IH, !blank_cons.
  change (blank []) with true. rewrite andb_true_r. apply andb_comm.
Qed.

Lemma lstrip_split s : exists before, s = before ++ lstrip s /\ blank before = true.
Proof.
  induction s as [|c s (before & Hs & Hb)]; [exists []; auto|].
  cbn [lstrip]. destruct (isspace c) eqn:Hc.
  - exists (c :: before). split; [cbn; now rewrite <- Hs|].
    now rewrite blank_cons, Hc, Hb.
  - exists []. auto.
Qed.

Lemma lstrip_first s c t : lstrip s = c :: t -> isspace c = false.
Proof.
  induction s as [|d s IH]; [discriminate|].
  cbn [lstrip]. destruct (isspace d) eqn:Hd; [exact IH|].
  intros [= <- _]. exact Hd.
Qed.

Lemma lstrip_blank before s : blank before = true -> lstrip (before ++ s) = lstrip s.
Proof.
  induction before as [|c before IH]; [reflexivity|].
  rewrite blank_cons. intros H. apply andb_true_iff in H as [Hc Hb].
  cbn. rewrite Hc. auto.
Qed.

Lemma lstrip_keeps c t : isspace c = false -> lstrip (c :: t) = c :: t.
Proof. intros H. cbn. now rewrite H. Qed.

Lemma lstrip_nil s : lstrip s = [] <-> blank s = true.
Proof.
  split.
  - intros H. destruct (lstrip_split s) as (before & Hs & Hb).
    rewrite H, app_nil_r in Hs. now subst.
  - intros H. rewrite <- (app_nil_r s). now rewrite lstrip_blank.
Qed.

Lemma rstrip_split s : exists after, s = rstrip s ++ after /\ blank after = true.
Proof.
  unfold rstrip. destruct (lstrip_split (rev s)) as (before & Hs & Hb).
  exists (rev before). split; [|now rewrite blank_rev].
  rewrite <- rev_app_distr, <- Hs. now rewrite rev_involutive.
Qed.

Lemma rstrip_last s t c : rstrip s = t ++ [c] -> isspace c = false.
Proof.
  unfold rstrip. intros H.
  apply (f_equal (@rev char)) in H.
  rewrite rev_involutive, rev_app_distr in H. cbn in H.
  eapply lstrip_first, H.
Qed.

Lemma rstrip_blank s after : blank after = true -> rstrip (s ++ after) = rstrip s.
Proof.
  intros H. unfold rstrip. rewrite rev_app_distr, lstrip_blank; [reflexivity|].
  now rewrite blank_rev.
Qed.

Lemma rstrip_keeps t c : isspace c = false -> rstrip (t ++ [c]) = t ++ [c].
Proof.
  intros H. unfold rstrip. rewrite rev_app_distr. cbn [rev app].
  rewrite lstrip_keeps by exact H.
  change (c :: rev t) with ([c] ++ rev t).
  now rewrite rev_app_distr, rev_involutive.
Qed.

Lemma rstrip_nil s : rstrip s = [] <-> blank s = true.
Proof.
  unfold rstrip. split.
  - intros H. apply (f_equal (@rev char)) in H.
    rewrite rev_involutive in H. cbn in H.
    apply lstrip_nil in H. now rewrite blank_rev in H.
  - intros H. rewrite <- blank_rev in H. apply lstrip_nil in H. now rewrite H.
Qed.

(** What is trimmed away is white space. *)
Lemma strip_split s : padded (strip s) s.
Proof.
  unfold strip, padded.
  destruct (lstrip_split s) as (before & Hs & Hb).
  destruct (rstrip_split (lstrip s)) as (after & Hl & Ha).
  exists before, after. split; [|auto].
  rewrite <- Hl. exact Hs.
Qed.

Lemma strip_nil s : strip s = [] <-> blank s = true.
Proof.
  unfold strip. rewrite rstrip_nil. split.
  - intros H. destruct (lstrip_split s) as (before & Hs & Hb).
    rewrite Hs, blank_app, Hb, H. reflexivity.
  - intros H. apply lstrip_nil in H. now rewrite H.
Qed.

Lemma strip_first s c t : strip s = c :: t -> isspace c = false.
Proof.
  unfold strip. intros H.
  destruct (rstrip_split (lstrip s)) as (after & Hl & Ha).
  rewrite H in Hl. cbn in Hl. eapply lstrip_first, Hl.
Qed.

Lemma strip_last s t c : strip s = t ++ [c] -> isspace c = false.
Proof. unfold strip. apply rstrip_last. Qed.

(** A string that neither starts nor ends with white space is what is
    left of it when it is padded. *)
Lemma strip_padded core s :
  (forall c t, core = c :: t -> isspace c = false) ->
  (forall t c, core = t ++ [c] -> isspace c = false) ->
  padded core s -> strip s = core.
Proof.
  intros Hfirst Hlast (before & after & -> & Hb & Ha).
  unfold strip. rewrite lstrip_blank by exact Hb.
  destruct core as [|c t].
  - cbn [app]. apply lstrip_nil in Ha. rewrite Ha. reflexivity.
  - cbn [app]. rewrite lstrip_keeps by (eapply Hfirst; reflexivity).
    change (c :: t ++ after) with ((c :: t) ++ after).
    rewrite rstrip_blank by exact Ha.
    destruct (exists_last (l := c :: t) ltac:(discriminate)) as (t' & c' & Heq).
    rewrite Heq. apply rstrip_keeps. eapply Hlast. exact Heq.
Qed.

Lemma strip_idempotent s : strip (strip s) = strip s.
Proof.
  apply strip_padded.
  - intros c t. apply strip_first.
  - intros t c. apply strip_last.
  - exists [], []. now rewrite app_nil_r.
Qed.

(** X1.  When the status request is answered without an HTTP error,
    [ocr4all_processflow_current] returns what is left of the body when
    the white space around it is taken away: the result is empty exactly
    when the body is white space only, it neither starts nor ends with
    white space, and trimming it again changes nothing. *)
Theorem current_returns_trimmed_status :
  forall e cfg base_url w r,
  let rq := current_request cfg base_url in
  let s := strip (text r) in
  http e (sent w) rq = Answer r ->
  raise_for_status r = Returned tt ->
  ends e (ocr4all_processflow_current cfg base_url) w
    (called rq (Answer r) w) (Returned s) /\
  (s = lit "" <-> blank (text r) = true) /\
  (forall c t, s = c :: t -> isspace c = false) /\
  (forall t c, s = t ++ [c] -> isspace c = false) /\
  padded s (text r) /\
  strip s = s.
Proof.
  intros e cfg base_url w r rq s Hr Hs. subst rq s.
  split; [apply current_accepted; assumption|].
  split; [apply strip_nil|].
  split; [apply strip_first|].
  split; [apply strip_last|].
  split; [apply strip_split | apply strip_idempotent].
Qed.

Lemma current_returns_trimmed_status_witness :
  blank (lit " 	
") = true /\
  ends MoreSamples.blank_env
    (ocr4all_processflow_current Sample.cfg Sample.base) start
    (called (current_request Sample.cfg Sample.base) (Sample.reply 200 " 	
") start)
    (Returned (lit "")).
Proof.
  split; [reflexivity|].
  apply (proj1 (current_returns_trimmed_status MoreSamples.blank_env Sample.cfg
                  Sample.base start (mkResponse 200 (lit " 	
") None) eq_refl eq_refl)).
Defined.

(** An answer says ["true"] exactly when its body is "true" with white
    space around it. *)
Lemma says_true_padded res :
  says_true res = true <->
  exists r, res = Answer r /\ padded (lit "true") (text r).
Proof.
  split.
  - destruct res as [r|x]; cbn [says_true]; [|discriminate].
    intros H. apply eqb_true in H. exists r. split; [reflexivity|].
    rewrite <- H. apply strip_split.
  - intros (r & -> & Hp). cbn [says_true].
    rewrite (strip_padded (lit "true") (text r)); [apply eqb_same | | | exact Hp].
    + intros c t H. vm_compute in H. injection H as <- _. reflexivity.
    + intros t c H. apply (f_equal (@rev char)) in H.
      rewrite rev_app_distr in H. cbn [rev app] in H.
      vm_compute (rev (lit "true")) in H.
      injection H as <- _. reflexivity.
Qed.

(** X2.  When the root and the three steps of [ocr4all_open_project] are
    answered without an HTTP error, the function returns exactly when the
    body of each step is "true" with any white space before and after
    it. *)
Theorem open_project_accepts_padded_true :
  forall e cfg base_url project_dir image_type reset_session,
  let p := ocr4all_open_project cfg base_url project_dir image_type
             reset_session in
  let a0 := http e 0 (root_request cfg base_url) in
  let a1 := http e 1 (checkDir_request cfg base_url project_dir image_type
                        reset_session) in
  let a2 := http e 2 (validate_request cfg base_url) in
  let a3 := http e 3 (validateProject_request cfg base_url project_dir
                        image_type) in
  accepted a0 = true -> accepted a1 = true ->
  accepted a2 = true -> accepted a3 = true ->
  ((exists w, ends e p start w (Returned tt)) <->
   padded (lit "true") (text_of a1) /\
   padded (lit "true") (text_of a2) /\
   padded (lit "true") (text_of a3)).
Proof.
  intros e cfg base_url project_dir image_type reset_session p a0 a1 a2 a3
         H0 H1 H2 H3.
  assert (Hsays : forall a, accepted a = true ->
            (says_true a = true <-> padded (lit "true") (text_of a))).
  { intros a Ha. rewrite says_true_padded.
    destruct (accepted_answer _ Ha) as (r & -> & _). cbn [text_of]. split.
    - intros (r' & [= <-] & Hp). exact Hp.
    - intros Hp. exists r. auto. }
  destruct (open_project_total e cfg base_url project_dir image_type
              reset_session) as (w & o & Hrun & _ & Hcase).
  fold a0 a1 a2 a3 in Hcase. fold p in Hrun.
  unfold all_passed in Hcase. rewrite H0, H1, H2, H3 in Hcase.
  cbn [andb] in Hcase.
  rewrite <- (Hsays a1 H1), <- (Hsays a2 H2), <- (Hsays a3 H3).
  split.
  - intros [w' Hend].
    destruct (ends_unique _ _ _ _ _ _ _ Hend Hrun) as [_ <-].
    destruct (says_true a1), (says_true a2), (says_true a3); cbn in Hcase;
      try (destruct Hcase as [x Hx]; discriminate Hx).
    auto.
  - intros (T1 & T2 & T3). rewrite T1, T2, T3 in Hcase. cbn in Hcase.
    destruct Hcase as [-> _]. exists w. exact Hrun.
Qed.

Lemma open_project_accepts_padded_true_witness :
  padded (lit "true") (lit "true
") /\
  padded (lit "true") (lit "  true") /\
  padded (lit "true") (lit "	true ") /\
  exists w,
    ends MoreSamples.padded_true_env OpenProjectSamples.p start w (Returned tt).
Proof.
  assert (P1 : padded (lit "true") (lit "true
")) by (exists (lit ""), (lit "
"); repeat split).
  assert (P2 : padded (lit "true") (lit "  true"))
    by (exists (lit "  "), (lit ""); repeat split).
  assert (P3 : padded (lit "true") (lit "	true "))
    by (exists (lit "	"), (lit " "); repeat split).
  split; [exact P1|]. split; [exact P2|]. split; [exact P3|].
  apply (proj2 (open_project_accepts_padded_true MoreSamples.padded_true_env
                  Sample.cfg Sample.base (lit "books/atlas") (lit "Original")
                  true eq_refl eq_refl eq_refl eq_refl)).
  split; [exact P1 | split; [exact P2 | exact P3]].
Defined.

(* ===================================================================== *)
(** ** [ocr4all_checkpdf] *)
(* ===================================================================== *)

(** On ASCII text [lower] works letter by letter and does not consult the
    interpreter's table. *)
Lemma lower_from_ascii unicode_lower s i rest :
  is_ascii rest = true ->
  lower_from unicode_lower s i rest = List.map ascii_lower rest.
Proof.
  revert i. induction rest as [|c rest IH]; intros i H; [reflexivity|].
  cbn in H. apply andb_true_iff in H as [Hc Hrest].
  cbn [lower_from List.map]. rewrite Hc, IH by exact Hrest. reflexivity.
Qed.

Lemma ascii_lower_letter c x :
  (97 <= x <= 122)%N ->
  ascii_lower c = x <-> (c = x \/ c + 32 = x)%N.
Proof.
  intros Hx. unfold ascii_lower.
  destruct ((65 <=? c) && (c <=? 90))%N eqn:Hup.
  - apply andb_true_iff in Hup as [H1 H2].
    apply N.leb_le in H1, H2. lia.
  - apply andb_false_iff in Hup as [H|H]; apply N.leb_gt in H; lia.
Qed.

Lemma lower_spells_true s :
  List.map ascii_lower s = lit "true" <-> spells_true s.
Proof.
  change (lit "true") with [116; 114; 117; 101]%N.
  unfold spells_true. split.
  - destruct s as [|c1 [|c2 [|c3 [|c4 [|c5 s]]]]]; try discriminate.
    cbn [List.map]. intros [= H1 H2 H3 H4].
    apply ascii_lower_letter in H1, H2, H3, H4; try lia.
    exists c1, c2, c3, c4. split; [reflexivity|]. lia.
  - intros (c1 & c2 & c3 & c4 & -> & H1 & H2 & H3 & H4).
    cbn [List.map].
    assert (E1 : ascii_lower c1 = 116%N) by (apply ascii_lower_letter; lia).
    assert (E2 : ascii_lower c2 = 114%N) by (apply ascii_lower_letter; lia).
    assert (E3 : ascii_lower c3 = 117%N) by (apply ascii_lower_letter; lia).
    assert (E4 : ascii_lower c4 = 101%N) by (apply ascii_lower_letter; lia).
    now rewrite E1, E2, E3, E4.
Qed.

(** X3.  [ocr4all_checkpdf] makes one GET.  An answer that is not
    accepted leaves the function as an exception.  For an accepted
    answer whose trimmed body is ASCII the function returns a boolean and
    never raises: [True] exactly when the trimmed body spells "true" in
    any mix of upper and lower case. *)
Theorem checkpdf_reads_true_in_any_case :
  forall e cfg unicode_lower base_url w,
  let rq := checkpdf_request cfg base_url in
  let p := ocr4all_checkpdf cfg unicode_lower base_url in
  (accepted (http e (sent w) rq) = false ->
     ends e p w (called rq (http e (sent w) rq) w)
       (Raised (refusal (http e (sent w) rq)))) /\
  (forall r,
     http e (sent w) rq = Answer r ->
     raise_for_status r = Returned tt ->
     is_ascii (strip (text r)) = true ->
     exists b,
       ends e p w (called rq (Answer r) w) (Returned b) /\
       (b = true <-> spells_true (strip (text r)))).
Proof.
  intros e cfg unicode_lower base_url w rq p. subst rq p. split.
  - intros H. unfold ocr4all_checkpdf.
    apply (ends_refused e (checkpdf_request cfg base_url) _ w H).
  - intros r Hr Hs Hascii.
    exists (eqb (lower unicode_lower (strip (text r))) (lit "true")). split.
    + unfold ocr4all_checkpdf.
      eapply ends_accepted; [exact Hr | exact Hs | apply ends_ret].
    + unfold lower. rewrite lower_from_ascii by exact Hascii.
      rewrite <- lower_spells_true. split.
      * apply eqb_true.
      * intros ->. apply eqb_same.
Qed.

Lemma checkpdf_reads_true_in_any_case_witness :
  is_ascii (strip (lit "TRUE
")) = true /\
  spells_true (strip (lit "TRUE
")) /\
  ends MoreSamples.shouting_env
    (ocr4all_checkpdf Sample.cfg (fun _ _ c => [c]) Sample.base) start
    (called (checkpdf_request Sample.cfg Sample.base) (Sample.reply 200 "TRUE
") start)
    (Returned true).
Proof.
  assert (Hspell : spells_true (strip (lit "TRUE
"))).
  { exists 84%N, 82%N, 85%N, 69%N. vm_compute. repeat split; auto. }
  split; [reflexivity|]. split; [exact Hspell|].
  destruct (proj2 (checkpdf_reads_true_in_any_case MoreSamples.shouting_env
                     Sample.cfg (fun _ _ c => [c]) Sample.base start)
              (mkResponse 200 (lit "TRUE
") None) eq_refl eq_refl eq_refl) as (b & Hrun & Hb).
  rewrite (proj2 Hb Hspell) in Hrun. exact Hrun.
Defined.

(* ===================================================================== *)
(** ** More on [ocr4all_open_project] *)
(* ===================================================================== *)

Lemma eqb_app_head b x y : eqb (b ++ x) (b ++ y) = eqb x y.
Proof.
  unfold eqb.
  destruct (eq_dec (b ++ x) (b ++ y)) as [H|H], (eq_dec x y) as [H'|H'];
    try reflexivity.
  - apply app_inv_head in H. contradiction.
  - subst. contradiction.
Qed.

Lemma calls_to_cons u rq res t :
  calls_to u (EvHttp rq res :: t)
  = ((if eqb (url rq) u then 1 else 0) + calls_to u t)%nat.
Proof. unfold calls_to. cbn. destruct (eqb (url rq) u); reflexivity. Qed.

Section OpenProjectTrace.

Variable e : env.
Variable cfg : settings.
Variables base_url project_dir image_type : pystr.
Variable reset_session : bool.

Local Abbreviation p :=
  (ocr4all_open_project cfg base_url project_dir image_type reset_session).
Local Abbreviation rq0 := (root_request cfg base_url).
Local Abbreviation rq1 :=
  (checkDir_request cfg base_url project_dir image_type reset_session).
Local Abbreviation rq2 := (validate_request cfg base_url).
Local Abbreviation rqI := (invalidateSession_request cfg base_url).
Local Abbreviation rq3 :=
  (validateProject_request cfg base_url project_dir image_type).
Local Abbreviation a0 := (http e 0 rq0).
Local Abbreviation a1 := (http e 1 rq1).
Local Abbreviation a2 := (http e 2 rq2).
Local Abbreviation aI := (http e 3 rqI).
Local Abbreviation a3 := (http e 3 rq3).

Local Abbreviation invalidating :=
  (invalidating e cfg base_url project_dir image_type reset_session).
Local Abbreviation open_world_ok :=
  (open_world_ok e cfg base_url project_dir image_type reset_session).

Lemma not_invalidate_0 : eqb (url rq0) (url rqI) = false.
Proof. cbn [url root_request invalidateSession_request get_request].
       now rewrite eqb_app_head. Qed.

Lemma not_invalidate_1 : eqb (url rq1) (url rqI) = false.
Proof. cbn [url checkDir_request invalidateSession_request get_request].
       now rewrite eqb_app_head. Qed.

Lemma not_invalidate_2 : eqb (url rq2) (url rqI) = false.
Proof. cbn [url validate_request invalidateSession_request get_request].
       now rewrite eqb_app_head. Qed.

Lemma not_invalidate_3 : eqb (url rq3) (url rqI) = false.
Proof. cbn [url validateProject_request invalidateSession_request get_request].
       now rewrite eqb_app_head. Qed.

Ltac world_ok :=
  unfold open_world_ok, invalidating;
  cbn [sent ticks trace];
  rewrite ?calls_to_cons, ?not_invalidate_0, ?not_invalidate_1,
    ?not_invalidate_2, ?not_invalidate_3, ?eqb_same;
  repeat match goal with
         | H : _ = true |- _ => rewrite H
         | H : _ = false |- _ => rewrite H
         end;
  cbn; repeat split; try lia.

Lemma open_project_world :
  exists w o, ends e p start w o /\ open_world_ok w.
Proof.
  destruct (accepted a0) eqn:H0.
  2:{ eexists _, _. split; [exact (open_root_refused _ _ _ _ _ _ H0)|].
      world_ok. }
  destruct (accepted a1) eqn:H1.
  2:{ eexists _, _. split; [exact (open_checkDir_refused _ _ _ _ _ _ H0 H1)|].
      world_ok. }
  destruct (says_true a1) eqn:T1.
  2:{ eexists _, _.
      split; [exact (open_checkDir_not_true _ _ _ _ _ _ H0 H1 T1)|].
      world_ok. }
  destruct (accepted a2) eqn:H2.
  2:{ eexists _, _.
      split; [exact (open_validate_refused _ _ _ _ _ _ H0 H1 T1 H2)|].
      world_ok. }
  destruct (says_true a2) eqn:T2.
  2:{ eexists _, _.
      split; [exact (open_validate_not_true _ _ _ _ _ _ H0 H1 T1 H2 T2)|].
      world_ok. }
  destruct (accepted a3) eqn:H3.
  2:{ eexists _, _.
      split; [exact (open_validateProject_refused _ _ _ _ _ _
                       H0 H1 T1 H2 T2 H3)|].
      world_ok. }
  eexists _, _.
  split; [exact (open_validateProject_answered _ _ _ _ _ _
                   H0 H1 T1 H2 T2 H3)|].
  world_ok.
Qed.

End OpenProjectTrace.

(** X4.  Whatever the server answers, a run of [ocr4all_open_project]
    makes at most four calls, none of them a POST, never sleeps, logs or
    reads the clock, and calls [invalidateSession] once when the root
    and [checkDir] passed and [validate] was accepted with a text other
    than ["true"], and not at all otherwise. *)
Theorem open_project_invalidates_only_after_validate :
  forall e cfg base_url project_dir image_type reset_session w o,
  ends e (ocr4all_open_project cfg base_url project_dir image_type
            reset_session) start w o ->
  (sent w <= 4)%nat /\
  ticks w = 0%nat /\
  only_calls (trace w) = true /\
  count_calls POST (trace w) = 0%nat /\
  calls_to (url (invalidateSession_request cfg base_url)) (trace w)
  = (if invalidating e cfg base_url project_dir image_type reset_session
     then 1 else 0)%nat.
Proof.
  intros e cfg base_url project_dir image_type reset_session w o Hend.
  destruct (open_project_world e cfg base_url project_dir image_type
              reset_session) as (w0 & o0 & Hrun & Hok).
  destruct (ends_unique _ _ _ _ _ _ _ Hend Hrun) as [-> _]. exact Hok.
Qed.

Lemma open_project_invalidates_only_after_validate_witness :
  invalidating OpenProjectSamples.invalid_session_env Sample.cfg Sample.base
    (lit "books/atlas") (lit "Original") true = true /\
  calls_to (url OpenProjectSamples.rqI)
    [EvHttp OpenProjectSamples.rq0 (Sample.reply 200 "<html>");
     EvHttp OpenProjectSamples.rq1 (Sample.reply 200 "true");
     EvHttp OpenProjectSamples.rq2 (Sample.reply 200 "false");
     EvHttp OpenProjectSamples.rqI (Sample.reply 200 "")] = 1%nat.
Proof.
  assert (Hrun :
    ends OpenProjectSamples.invalid_session_env OpenProjectSamples.p start
      (mkWorld 4 0
         [EvHttp OpenProjectSamples.rq0 (Sample.reply 200 "<html>");
          EvHttp OpenProjectSamples.rq1 (Sample.reply 200 "true");
          EvHttp OpenProjectSamples.rq2 (Sample.reply 200 "false");
          EvHttp OpenProjectSamples.rqI (Sample.reply 200 "")])
      (Raised (RuntimeError
         [FLit "ocr4all validate returned "; FRepr (lit "false")]))).
  { apply (ends_by_steps _ 50). vm_compute. reflexivity. }
  split; [reflexivity|].
  exact (proj2 (proj2 (proj2 (proj2
           (open_project_invalidates_only_after_validate
              OpenProjectSamples.invalid_session_env Sample.cfg Sample.base
              (lit "books/atlas") (lit "Original") true _ _ Hrun))))).
Defined.

(* ===================================================================== *)
(** ** More on [ocr4all_processflow_execute_json] *)
(* ===================================================================== *)

Lemma failure_lines_no_call m rp secs t :
  count_calls m (failure_lines rp ++ EvSleep secs :: t) = count_calls m t.
Proof.
  unfold failure_lines. destruct (eqb (text rp) (lit "")); reflexivity.
Qed.

Lemma failure_lines_sleeps rp secs t :
  sleeps (failure_lines rp ++ EvSleep secs :: t) = secs :: sleeps t.
Proof.
  unfold failure_lines. destruct (eqb (text rp) (lit "")); reflexivity.
Qed.

Lemma attempts_range a retries : In a (attempts retries) -> 1 <= a <= retries.
Proof.
  unfold attempts. intros H. apply in_map_iff in H as (k & <- & Hk).
  apply in_seq in Hk. lia.
Qed.

Section ExecuteJsonShape.

Variable e : env.
Variable cfg : settings.
Variable too_long : Q -> bool.
Variable base_url : pystr.
Variable rqp : request.
Variable retries : Z.
Variable retry_sleep_s : Q.

Hypothesis rqp_post : meth rqp = POST.

Local Abbreviation rqc := (current_request cfg base_url).
Local Abbreviation loop :=
  (execute_json_loop cfg too_long base_url rqp retries retry_sleep_s).

Lemma poll_counts res t :
  count_calls GET (EvHttp rqc res :: t) = S (count_calls GET t) /\
  count_calls POST (EvHttp rqc res :: t) = count_calls POST t.
Proof. rewrite !count_calls_cons. split; reflexivity. Qed.

Lemma post_counts res t :
  count_calls GET (EvHttp rqp res :: t) = count_calls GET t /\
  count_calls POST (EvHttp rqp res :: t) = S (count_calls POST t).
Proof. rewrite !count_calls_cons. cbn. rewrite rqp_post. split; reflexivity. Qed.

(** The loop with [todo] attempts left: the calls it makes, the time it
    sleeps, and how it returns. *)
Lemma failure_lines_alone m rp :
  count_calls m (failure_lines rp) = 0%nat /\
  sleeps (failure_lines rp) = [].
Proof.
  unfold failure_lines. destruct (eqb (text rp) (lit "")); split; reflexivity.
Qed.

Lemma loop_shape todo :
  forall w, exists w' o t,
    ends e (loop todo) w w' o /\
    trace w' = trace w ++ t /\
    (sent w' = sent w + count_calls GET t + count_calls POST t)%nat /\
    ticks w' = ticks w /\
    (count_calls GET t <= List.length todo)%nat /\
    (count_calls POST t <= count_calls GET t)%nat /\
    (List.length (sleeps t) <= List.length todo)%nat /\
    Forall (eq retry_sleep_s) (sleeps t) /\
    (o = Returned tt ->
     exists before rp a,
       t = before ++ [EvHttp rqp (Answer rp); attempt_line a retries rp] /\
       status_code rp = 200 /\ In a todo).
Proof.
  induction todo as [|attempt todo IH]; intros w.
  - exists w, (Raised (RuntimeError
                 [FLit "processFlow/execute failed after retries"])), [].
    split; [apply loop_exhausted|]. split; [now rewrite app_nil_r|].
    cbn. repeat split; try lia; [constructor | discriminate].
  - destruct (accepted (http e (sent w) rqc)) eqn:Ha.
    2:{ eexists _, _, [EvHttp rqc (http e (sent w) rqc)].
        split; [apply loop_poll_refused, Ha|]. split; [reflexivity|].
        cbn. repeat split; try lia; [constructor | discriminate]. }
    destruct (sleep_error too_long retry_sleep_s) as [x|] eqn:Hsl.
    { (* the sleep is refused: the run ends at the first sleep *)
      destruct (accepted_busy_or_idle _ Ha) as [Hb|Hi].
      - eexists _, _, [EvHttp rqc (http e (sent w) rqc)].
        split; [eapply loop_busy_unslept; eassumption|].
        split; [reflexivity|].
        cbn. repeat split; try lia; [constructor | discriminate].
      - destruct (http e (S (sent w)) rqp) as [rp|y] eqn:Hp.
        + destruct (Z.eq_dec (status_code rp) 200) as [H200|Hne].
          * eexists _, _,
              [EvHttp rqc (http e (sent w) rqc); EvHttp rqp (Answer rp);
               attempt_line attempt retries rp].
            split; [eapply loop_post_200; eassumption|].
            split; [cbn; now rewrite <- !app_assoc|].
            destruct (poll_counts (http e (sent w) rqc)
                        [EvHttp rqp (Answer rp);
                         attempt_line attempt retries rp])
              as [-> ->].
            destruct (post_counts (Answer rp) [attempt_line attempt retries rp])
              as [-> ->].
            cbn. repeat split; try lia; [constructor|].
            intros _. exists [EvHttp rqc (http e (sent w) rqc)], rp, attempt.
            split; [reflexivity|]. split; [exact H200 | left; reflexivity].
          * eexists _, _,
              (EvHttp rqc (http e (sent w) rqc) :: EvHttp rqp (Answer rp)
               :: attempt_line attempt retries rp :: failure_lines rp).
            split; [eapply loop_post_failed_unslept; eassumption|].
            split; [cbn; now rewrite <- !app_assoc|].
            destruct (poll_counts (http e (sent w) rqc)
                        (EvHttp rqp (Answer rp)
                         :: attempt_line attempt retries rp
                         :: failure_lines rp))
              as [-> ->].
            destruct (post_counts (Answer rp)
                        (attempt_line attempt retries rp :: failure_lines rp))
              as [-> ->].
            rewrite !(count_calls_cons _ (attempt_line attempt retries rp)).
            destruct (failure_lines_alone GET rp) as [-> Hquiet].
            destruct (failure_lines_alone POST rp) as [-> _].
            cbn [is_call attempt_line Nat.add sleeps List.length].
            rewrite Hquiet.
            cbn. repeat split; try lia; [constructor | discriminate].
        + eexists _, _,
            [EvHttp rqc (http e (sent w) rqc); EvHttp rqp (Broken y)].
          split; [eapply loop_post_broken; eassumption|].
          split; [cbn; now rewrite <- !app_assoc|].
          destruct (poll_counts (http e (sent w) rqc) [EvHttp rqp (Broken y)])
            as [-> ->].
          destruct (post_counts (Broken y) []) as [-> ->].
          cbn. repeat split; try lia; [constructor | discriminate]. }
    destruct (accepted_busy_or_idle _ Ha) as [Hb|Hi].
    + destruct (IH (seen (EvSleep retry_sleep_s)
                      (called rqc (http e (sent w) rqc) w)))
        as (w' & o & t & Hrun & Ht & Hsent & Hticks & Hget & Hpost & Hlen
            & Hall & Hret).
      exists w', o,
        (EvHttp rqc (http e (sent w) rqc) :: EvSleep retry_sleep_s :: t).
      split; [eapply loop_busy; eassumption|].
      split; [rewrite Ht; cbn; now rewrite <- !app_assoc|].
      destruct (poll_counts (http e (sent w) rqc) (EvSleep retry_sleep_s :: t))
        as [-> ->].
      rewrite !count_calls_cons. cbn [is_call Nat.add sleeps List.length].
      cbn [sent ticks seen called] in Hsent, Hticks.
      repeat split; try lia.
      * constructor; [reflexivity | exact Hall].
      * intros Ho. destruct (Hret Ho) as (before & rp & a & -> & H200 & Hin).
        exists (EvHttp rqc (http e (sent w) rqc) :: EvSleep retry_sleep_s
                :: before), rp, a.
        split; [reflexivity|]. split; [exact H200 | right; exact Hin].
    + destruct (http e (S (sent w)) rqp) as [rp|x] eqn:Hp.
      * destruct (Z.eq_dec (status_code rp) 200) as [H200|Hne].
        -- eexists _, _,
             [EvHttp rqc (http e (sent w) rqc); EvHttp rqp (Answer rp);
              attempt_line attempt retries rp].
           split; [eapply loop_post_200; eassumption|].
           split; [cbn; now rewrite <- !app_assoc|].
           destruct (poll_counts (http e (sent w) rqc)
                       [EvHttp rqp (Answer rp); attempt_line attempt retries rp])
             as [-> ->].
           destruct (post_counts (Answer rp) [attempt_line attempt retries rp])
             as [-> ->].
           cbn. repeat split; try lia; [constructor|].
           intros _. exists [EvHttp rqc (http e (sent w) rqc)], rp, attempt.
           split; [reflexivity|]. split; [exact H200 | left; reflexivity].
        -- destruct (IH (extend 0
                           (attempt_line attempt retries rp :: failure_lines rp
                            ++ [EvSleep retry_sleep_s])
                           (called rqp (Answer rp)
                              (called rqc (http e (sent w) rqc) w))))
             as (w' & o & t & Hrun & Ht & Hsent & Hticks & Hget & Hpost & Hlen
                 & Hall & Hret).
           exists w', o,
             (EvHttp rqc (http e (sent w) rqc) :: EvHttp rqp (Answer rp)
              :: attempt_line attempt retries rp
              :: failure_lines rp ++ EvSleep retry_sleep_s :: t).
           split; [eapply loop_post_failed; eassumption|].
           split.
           { rewrite Ht. cbn. rewrite <- !app_assoc. cbn.
             rewrite <- !app_assoc. reflexivity. }
           destruct (poll_counts (http e (sent w) rqc)
                       (EvHttp rqp (Answer rp)
                        :: attempt_line attempt retries rp
                        :: failure_lines rp ++ EvSleep retry_sleep_s :: t))
             as [-> ->].
           destruct (post_counts (Answer rp)
                       (attempt_line attempt retries rp
                        :: failure_lines rp ++ EvSleep retry_sleep_s :: t))
             as [-> ->].
           rewrite !(count_calls_cons _ (attempt_line attempt retries rp)).
           rewrite !failure_lines_no_call.
           cbn [is_call attempt_line Nat.add sleeps List.length].
           rewrite failure_lines_sleeps.
           cbn [sent ticks extend called List.length] in Hsent, Hticks.
           cbn [List.length].
           repeat split; try lia.
           ++ constructor; [reflexivity | exact Hall].
           ++ intros Ho.
              destruct (Hret Ho) as (before & rp' & a & -> & H200 & Hin).
              exists (EvHttp rqc (http e (sent w) rqc) :: EvHttp rqp (Answer rp)
                      :: attempt_line attempt retries rp
                      :: failure_lines rp ++ EvSleep retry_sleep_s :: before),
                rp', a.
              split.
              { cbn. rewrite <- !app_assoc. reflexivity. }
              split; [exact H200 | right; exact Hin].
      * eexists _, _,
          [EvHttp rqc (http e (sent w) rqc); EvHttp rqp (Broken x)].
        split; [eapply loop_post_broken; eassumption|].
        split; [cbn; now rewrite <- !app_assoc|].
        destruct (poll_counts (http e (sent w) rqc) [EvHttp rqp (Broken x)])
          as [-> ->].
        destruct (post_counts (Broken x) []) as [-> ->].
        cbn. repeat split; try lia; [constructor | discriminate].
Qed.

End ExecuteJsonShape.

Section ExecuteJsonMore.

Variable e : env.
Variable cfg : settings.
Variable too_long : Q -> bool.
Variable base_url : pystr.
Variables page_ids processes : list pystr.
Variable process_settings : json.
Variable timeout_s : Q.
Variable retries : Z.
Variable retry_sleep_s : Q.

Local Abbreviation rqc := (current_request cfg base_url).
Local Abbreviation rqp :=
  (execute_json_request base_url (origin_of e) (referer_of e base_url)
     page_ids processes process_settings timeout_s).
Local Abbreviation p :=
  (ocr4all_processflow_execute_json cfg too_long base_url page_ids processes
     process_settings timeout_s retries retry_sleep_s).
Local Abbreviation loop :=
  (execute_json_loop cfg too_long base_url rqp retries retry_sleep_s).
Local Abbreviation turns := (busy_turns e cfg base_url retry_sleep_s 0).

Hypothesis sleep_ok : sleep_error too_long retry_sleep_s = None.

Lemma execute_json_shape :
  exists w o,
    ends e p start w o /\
    (sent w = count_calls GET (trace w) + count_calls POST (trace w))%nat /\
    ticks w = 0%nat /\
    (count_calls GET (trace w) <= Z.to_nat retries)%nat /\
    (count_calls POST (trace w) <= count_calls GET (trace w))%nat /\
    (List.length (sleeps (trace w)) <= Z.to_nat retries)%nat /\
    Forall (eq retry_sleep_s) (sleeps (trace w)) /\
    (o = Returned tt ->
     exists before rp a,
       trace w = before ++ [EvHttp rqp (Answer rp); attempt_line a retries rp] /\
       status_code rp = 200 /\ 1 <= a <= retries).
Proof.
  destruct (loop_shape e cfg too_long base_url rqp retries retry_sleep_s eq_refl
              (attempts retries) start)
    as (w & o & t & Hrun & Ht & Hsent & Hticks & Hget & Hpost & Hlen & Hall
        & Hret).
  cbn [trace start app] in Ht. rewrite <- Ht in *.
  rewrite attempts_length in Hget, Hlen.
  exists w, o. split; [apply execute_json_is_loop, Hrun|].
  repeat (split; [assumption|]).
  intros Ho. destruct (Hret Ho) as (before & rp & a & Heq & H200 & Hin).
  exists before, rp, a. split; [exact Heq|]. split; [exact H200|].
  apply attempts_range, Hin.
Qed.

Lemma execute_json_poll_refused n :
  (n < Z.to_nat retries)%nat ->
  (forall k, (k < n)%nat -> busy (http e k rqc) = true) ->
  accepted (http e n rqc) = false ->
  ends e p start
    (mkWorld (S n) 0 (turns n ++ [EvHttp rqc (http e n rqc)]))
    (Raised (refusal (http e n rqc))).
Proof.
  intros Hlt Hbusy Href. apply execute_json_is_loop.
  eapply (loop_busy_prefix e cfg too_long base_url rqp retries retry_sleep_s
            sleep_ok n).
  - rewrite attempts_length. lia.
  - exact Hbusy.
  - rewrite attempts_skipn by exact Hlt.
    eapply ends_as.
    + eapply loop_poll_refused. exact Href.
    + unfold called, extend. cbn. f_equal; try lia.
    + reflexivity.
Qed.

Lemma execute_json_post_broken n x :
  (n < Z.to_nat retries)%nat ->
  (forall k, (k < n)%nat -> busy (http e k rqc) = true) ->
  idle (http e n rqc) = true ->
  http e (S n) rqp = Broken x ->
  ends e p start
    (mkWorld (S (S n)) 0
       (turns n ++ [EvHttp rqc (http e n rqc); EvHttp rqp (Broken x)]))
    (Raised (RequestException x)).
Proof.
  intros Hlt Hbusy Hidle Hp. apply execute_json_is_loop.
  eapply (loop_busy_prefix e cfg too_long base_url rqp retries retry_sleep_s
            sleep_ok n).
  - rewrite attempts_length. lia.
  - exact Hbusy.
  - rewrite attempts_skipn by exact Hlt.
    eapply ends_as.
    + eapply loop_post_broken; [exact Hidle | exact Hp].
    + unfold called, extend. cbn. f_equal; try lia.
      rewrite <- !app_assoc. reflexivity.
    + reflexivity.
Qed.

Lemma execute_json_no_attempt :
  retries <= 0 ->
  ends e p start start
    (Raised (RuntimeError [FLit "processFlow/execute failed after retries"])).
Proof.
  intros Hle. apply execute_json_is_loop.
  unfold attempts. replace (Z.to_nat retries) with 0%nat by lia.
  apply loop_exhausted.
Qed.

End ExecuteJsonMore.

Section ExecuteJsonRefusedSleep.

Variable e : env.
Variable cfg : settings.
Variable too_long : Q -> bool.
Variable base_url : pystr.
Variables page_ids processes : list pystr.
Variable process_settings : json.
Variable timeout_s : Q.
Variable retries : Z.
Variable retry_sleep_s : Q.
Variable x : exn.

Local Abbreviation rqc := (current_request cfg base_url).
Local Abbreviation rqp :=
  (execute_json_request base_url (origin_of e) (referer_of e base_url)
     page_ids processes process_settings timeout_s).
Local Abbreviation p :=
  (ocr4all_processflow_execute_json cfg too_long base_url page_ids processes
     process_settings timeout_s retries retry_sleep_s).

Hypothesis refused : sleep_error too_long retry_sleep_s = Some x.
Hypothesis some_attempt : 0 < retries.

Lemma attempts_first :
  attempts retries = 1 :: skipn 1 (attempts retries).
Proof.
  assert (Hlt : (0 < Z.to_nat retries)%nat) by lia.
  exact (attempts_skipn 0 retries Hlt).
Qed.

Lemma execute_json_busy_unslept :
  busy (http e 0 rqc) = true ->
  ends e p start (mkWorld 1 0 [EvHttp rqc (http e 0 rqc)]) (Raised x).
Proof.
  intros Hb. apply execute_json_is_loop. rewrite attempts_first.
  exact (loop_busy_unslept e cfg too_long base_url rqp retries retry_sleep_s
           1 _ start x Hb refused).
Qed.

Lemma execute_json_post_failed_unslept rp :
  idle (http e 0 rqc) = true ->
  http e 1 rqp = Answer rp ->
  status_code rp <> 200 ->
  ends e p start
    (mkWorld 2 0
       (EvHttp rqc (http e 0 rqc) :: EvHttp rqp (Answer rp)
        :: attempt_line 1 retries rp :: failure_lines rp))
    (Raised x).
Proof.
  intros Hi Hp Hne. apply execute_json_is_loop. rewrite attempts_first.
  exact (loop_post_failed_unslept e cfg too_long base_url rqp retries
           retry_sleep_s 1 _ start rp x Hi Hp Hne refused).
Qed.

End ExecuteJsonRefusedSleep.

(** X5.  With [retries] zero or negative,
    [ocr4all_processflow_execute_json] makes no call at all, neither the
    status poll nor the POST, and raises its "failed after retries"
    error at once. *)
Theorem execute_json_without_retries_raises_at_once :
  forall e cfg too_long base_url page_ids processes process_settings timeout_s
         retries retry_sleep_s,
  retries <= 0 ->
  ends e
    (ocr4all_processflow_execute_json cfg too_long base_url page_ids processes
       process_settings timeout_s retries retry_sleep_s)
    start start
    (Raised (RuntimeError [FLit "processFlow/execute failed after retries"])).
Proof. intros. now apply execute_json_no_attempt. Qed.

Lemma execute_json_without_retries_raises_at_once_witness :
  ends ExecuteJsonSamples.busy_once_env (ExecuteJsonSamples.p 0) start start
    (Raised (RuntimeError [FLit "processFlow/execute failed after retries"])).
Proof.
  apply (execute_json_without_retries_raises_at_once
           ExecuteJsonSamples.busy_once_env Sample.cfg Sample.too_long
           Sample.base [lit "0001"] [lit "recognition"] (JDict []) 3600 0 2).
  lia.
Defined.

(** X6.  The retry loop of [ocr4all_processflow_execute_json] does not
    retry exceptions.  Let [retry_sleep_s] be a duration [time.sleep]
    carries out: not negative, and not too long for the clock.  After
    [n] busy polls, with attempts left: a status poll that is answered
    with an HTTP error status or breaks in transport ends the function
    with that exception, and so does a POST that breaks in transport
    after an idle poll; no further call is made. *)
Theorem execute_json_does_not_retry_exceptions :
  forall e cfg too_long base_url page_ids processes process_settings timeout_s
         retries retry_sleep_s n,
  let rqc := current_request cfg base_url in
  let rqp := execute_json_request base_url (origin_of e)
               (referer_of e base_url) page_ids processes process_settings
               timeout_s in
  let p := ocr4all_processflow_execute_json cfg too_long base_url page_ids
             processes process_settings timeout_s retries retry_sleep_s in
  let turns := busy_turns e cfg base_url retry_sleep_s 0 in
  too_long retry_sleep_s = false ->
  (0 <= retry_sleep_s)%Q ->
  (n < Z.to_nat retries)%nat ->
  (forall k, (k < n)%nat -> busy (http e k rqc) = true) ->
  (accepted (http e n rqc) = false ->
     ends e p start
       (mkWorld (S n) 0 (turns n ++ [EvHttp rqc (http e n rqc)]))
       (Raised (refusal (http e n rqc)))) /\
  (forall x,
     idle (http e n rqc) = true ->
     http e (S n) rqp = Broken x ->
     ends e p start
       (mkWorld (S (S n)) 0
          (turns n ++ [EvHttp rqc (http e n rqc); EvHttp rqp (Broken x)]))
       (Raised (RequestException x))).
Proof.
  intros e cfg too_long base_url page_ids processes process_settings timeout_s
         retries retry_sleep_s n rqc rqp p turns Hfit Hpos Hlt Hbusy.
  subst rqc rqp p turns.
  pose proof (sleep_error_none too_long retry_sleep_s Hfit Hpos) as Hok.
  split.
  - apply execute_json_poll_refused; assumption.
  - intros x. apply execute_json_post_broken; assumption.
Qed.

Lemma execute_json_does_not_retry_exceptions_witness :
  (forall k, (k < 1)%nat ->
     busy (http MoreSamples.poll_fails_env k ExecuteJsonSamples.rqc) = true) /\
  accepted (http MoreSamples.poll_fails_env 1 ExecuteJsonSamples.rqc) = false /\
  ends MoreSamples.poll_fails_env (ExecuteJsonSamples.p 12) start
    (mkWorld 2 0
       [EvHttp ExecuteJsonSamples.rqc (Sample.reply 200 "segmentation");
        EvSleep 2;
        EvHttp ExecuteJsonSamples.rqc (Sample.reply 502 "Bad Gateway")])
    (Raised (HTTPError (mkResponse 502 (lit "Bad Gateway") None))).
Proof.
  assert (Hbusy : forall k, (k < 1)%nat ->
            busy (http MoreSamples.poll_fails_env k ExecuteJsonSamples.rqc)
              = true).
  { intros [|k] Hk; [reflexivity | lia]. }
  split; [exact Hbusy|]. split; [reflexivity|].
  assert (Hlt : (1 < Z.to_nat 12)%nat) by (vm_compute; lia).
  assert (Hpos : (0 <= 2)%Q) by (unfold Qle; simpl; lia).
  exact (proj1 (execute_json_does_not_retry_exceptions
                  MoreSamples.poll_fails_env Sample.cfg Sample.too_long
                  Sample.base [lit "0001"] [lit "recognition"] (JDict [])
                  3600 12 2 1 eq_refl Hpos Hlt Hbusy) eq_refl).
Defined.

(** X7.  When [ocr4all_processflow_execute_json] returns, the last call
    it made is the POST, answered with status 200, and the last event of
    the run is the line that logs this attempt, whose number lies
    between 1 and [retries]. *)
Theorem execute_json_returns_only_after_200 :
  forall e cfg too_long base_url page_ids processes process_settings timeout_s
         retries retry_sleep_s w,
  let rqp := execute_json_request base_url (origin_of e)
               (referer_of e base_url) page_ids processes process_settings
               timeout_s in
  ends e
    (ocr4all_processflow_execute_json cfg too_long base_url page_ids processes
       process_settings timeout_s retries retry_sleep_s)
    start w (Returned tt) ->
  exists before rp a,
    trace w = before ++ [EvHttp rqp (Answer rp); attempt_line a retries rp] /\
    status_code rp = 200 /\
    1 <= a <= retries.
Proof.
  intros e cfg too_long base_url page_ids processes process_settings timeout_s
         retries retry_sleep_s w rqp Hend. subst rqp.
  destruct (execute_json_shape e cfg too_long base_url page_ids processes
              process_settings timeout_s retries retry_sleep_s)
    as (w0 & o0 & Hrun & _ & _ & _ & _ & _ & _ & Hret).
  destruct (ends_unique _ _ _ _ _ _ _ Hend Hrun) as [-> <-].
  apply Hret. reflexivity.
Qed.

Lemma execute_json_returns_only_after_200_witness :
  exists before rp a,
    [EvHttp ExecuteJsonSamples.rqc (Sample.reply 200 "segmentation");
     EvSleep 2;
     EvHttp ExecuteJsonSamples.rqc (Sample.reply 200 "segmentation");
     EvSleep 2;
     EvHttp ExecuteJsonSamples.rqc (Sample.reply 200 "");
     EvHttp ExecuteJsonSamples.rqp (Sample.reply 200 "");
     attempt_line 3 3 (mkResponse 200 (lit "") None)]
    = before ++ [EvHttp ExecuteJsonSamples.rqp (Answer rp);
                 attempt_line a 3 rp] /\
    status_code rp = 200 /\
    1 <= a <= 3.
Proof.
  assert (Hrun :
    ends ExecuteJsonSamples.busy_twice_env (ExecuteJsonSamples.p 3) start
      (mkWorld 4 0
         [EvHttp ExecuteJsonSamples.rqc (Sample.reply 200 "segmentation");
          EvSleep 2;
          EvHttp ExecuteJsonSamples.rqc (Sample.reply 200 "segmentation");
          EvSleep 2;
          EvHttp ExecuteJsonSamples.rqc (Sample.reply 200 "");
          EvHttp ExecuteJsonSamples.rqp (Sample.reply 200 "");
          attempt_line 3 3 (mkResponse 200 (lit "") None)])
      (Returned tt)).
  { apply (ends_by_steps _ 100). vm_compute. reflexivity. }
  exact (execute_json_returns_only_after_200
           ExecuteJsonSamples.busy_twice_env Sample.cfg Sample.too_long
           Sample.base [lit "0001"] [lit "recognition"] (JDict []) 3600 3 2
           _ Hrun).
Defined.

(** X8.  Every run of [ocr4all_processflow_execute_json] makes at most
    [retries] status polls and at most one POST per poll, sleeps at most
    [retries] times and each time for [retry_sleep_s], makes no other
    call and never reads the clock. *)
Theorem execute_json_work_is_bounded :
  forall e cfg too_long base_url page_ids processes process_settings timeout_s
         retries retry_sleep_s w o,
  ends e
    (ocr4all_processflow_execute_json cfg too_long base_url page_ids processes
       process_settings timeout_s retries retry_sleep_s)
    start w o ->
  (count_calls GET (trace w) <= Z.to_nat retries)%nat /\
  (count_calls POST (trace w) <= count_calls GET (trace w))%nat /\
  (sent w = count_calls GET (trace w) + count_calls POST (trace w))%nat /\
  (List.length (sleeps (trace w)) <= Z.to_nat retries)%nat /\
  Forall (eq retry_sleep_s) (sleeps (trace w)) /\
  ticks w = 0%nat.
Proof.
  intros e cfg too_long base_url page_ids processes process_settings timeout_s
         retries retry_sleep_s w o Hend.
  destruct (execute_json_shape e cfg too_long base_url page_ids processes
              process_settings timeout_s retries retry_sleep_s)
    as (w0 & o0 & Hrun & Hsent & Hticks & Hget & Hpost & Hlen & Hall & _).
  destruct (ends_unique _ _ _ _ _ _ _ Hend Hrun) as [-> _].
  auto 10.
Qed.

Lemma execute_json_work_is_bounded_witness :
  (count_calls GET
     [EvHttp ExecuteJsonSamples.rqc (Sample.reply 200 "segmentation");
      EvSleep 2;
      EvHttp ExecuteJsonSamples.rqc (Sample.reply 200 "segmentation");
      EvSleep 2;
      EvHttp ExecuteJsonSamples.rqc (Sample.reply 200 "");
      EvHttp ExecuteJsonSamples.rqp (Sample.reply 200 "");
      attempt_line 3 3 (mkResponse 200 (lit "") None)]
   <= Z.to_nat 3)%nat.
Proof.
  assert (Hrun :
    ends ExecuteJsonSamples.busy_twice_env (ExecuteJsonSamples.p 3) start
      (mkWorld 4 0
         [EvHttp ExecuteJsonSamples.rqc (Sample.reply 200 "segmentation");
          EvSleep 2;
          EvHttp ExecuteJsonSamples.rqc (Sample.reply 200 "segmentation");
          EvSleep 2;
          EvHttp ExecuteJsonSamples.rqc (Sample.reply 200 "");
          EvHttp ExecuteJsonSamples.rqp (Sample.reply 200 "");
          attempt_line 3 3 (mkResponse 200 (lit "") None)])
      (Returned tt)).
  { apply (ends_by_steps _ 100). vm_compute. reflexivity. }
  exact (proj1 (execute_json_work_is_bounded
                  ExecuteJsonSamples.busy_twice_env Sample.cfg Sample.too_long
                  Sample.base [lit "0001"] [lit "recognition"] (JDict [])
                  3600 3 2 _ _ Hrun)).
Defined.

(** X15.  A [retry_sleep_s] that [time.sleep] refuses ends
    [ocr4all_processflow_execute_json] at the first sleep, with the
    exception of [time.sleep]: [OverflowError] for a duration too long
    for the clock, [ValueError] for a negative one.  With at least one
    attempt, a busy first poll is then the only call of the run, and an
    idle first poll followed by a POST with a status other than 200 is
    followed by the log lines of that attempt and nothing else: the
    function makes no second attempt and does not reach its "failed
    after retries" error. *)
Theorem execute_json_ends_at_refused_sleep :
  forall e cfg too_long base_url page_ids processes process_settings timeout_s
         retries retry_sleep_s,
  let rqc := current_request cfg base_url in
  let rqp := execute_json_request base_url (origin_of e)
               (referer_of e base_url) page_ids processes process_settings
               timeout_s in
  let p := ocr4all_processflow_execute_json cfg too_long base_url page_ids
             processes process_settings timeout_s retries retry_sleep_s in
  too_long retry_sleep_s = true \/ (retry_sleep_s < 0)%Q ->
  0 < retries ->
  exists x,
    sleep_error too_long retry_sleep_s = Some x /\
    (x = OverflowError [FLit "timestamp too large to convert to C _PyTime_t"]
     \/ x = ValueError [FLit "sleep length must be non-negative"]) /\
    (too_long retry_sleep_s = false ->
     x = ValueError [FLit "sleep length must be non-negative"]) /\
    (busy (http e 0 rqc) = true ->
     ends e p start (mkWorld 1 0 [EvHttp rqc (http e 0 rqc)]) (Raised x)) /\
    (forall rp,
       idle (http e 0 rqc) = true ->
       http e 1 rqp = Answer rp ->
       status_code rp <> 200 ->
       ends e p start
         (mkWorld 2 0
            (EvHttp rqc (http e 0 rqc) :: EvHttp rqp (Answer rp)
             :: attempt_line 1 retries rp :: failure_lines rp))
         (Raised x)).
Proof.
  intros e cfg too_long base_url page_ids processes process_settings timeout_s
         retries retry_sleep_s rqc rqp p Hbad Hsome. subst rqc rqp p.
  assert (Hx : exists x,
            sleep_error too_long retry_sleep_s = Some x /\
            (x = OverflowError
                   [FLit "timestamp too large to convert to C _PyTime_t"]
             \/ x = ValueError [FLit "sleep length must be non-negative"]) /\
            (too_long retry_sleep_s = false ->
             x = ValueError [FLit "sleep length must be non-negative"])).
  { unfold sleep_error. destruct (too_long retry_sleep_s) eqn:Hfit.
    - eexists. split; [reflexivity|]. split; [now left | discriminate].
    - destruct Hbad as [Hbad|Hneg]; [discriminate|].
      destruct (Qle_bool 0 retry_sleep_s) eqn:Hle.
      + apply Qle_bool_iff in Hle. apply Qlt_not_le in Hneg. contradiction.
      + eexists. split; [reflexivity|]. split; [now right | reflexivity]. }
  destruct Hx as (x & Hx & Hkind & Hneg).
  exists x. split; [exact Hx|]. split; [exact Hkind|]. split; [exact Hneg|].
  split.
  - apply execute_json_busy_unslept; assumption.
  - intros rp. apply execute_json_post_failed_unslept; assumption.
Qed.

Lemma execute_json_ends_at_refused_sleep_witness :
  (Sample.too_long (-1) = true \/ (-1 < 0)%Q) /\
  busy (http MoreSamples.always_busy_env 0 ExecuteJsonSamples.rqc) = true /\
  ends MoreSamples.always_busy_env (ExecuteJsonSamples.p_sleeping 2 (-1)) start
    (mkWorld 1 0
       [EvHttp ExecuteJsonSamples.rqc (Sample.reply 200 "recognition")])
    (Raised (ValueError [FLit "sleep length must be non-negative"])).
Proof.
  assert (Hbad : Sample.too_long (-1) = true \/ (-1 < 0)%Q)
    by (right; unfold Qlt; simpl; lia).
  assert (Hsome : 0 < 2) by lia.
  split; [exact Hbad|]. split; [reflexivity|].
  destruct (execute_json_ends_at_refused_sleep MoreSamples.always_busy_env
              Sample.cfg Sample.too_long Sample.base [lit "0001"]
              [lit "recognition"] (JDict []) 3600 2 (-1) Hbad Hsome)
    as (x & _ & _ & Hneg & Hrun & _).
  rewrite <- (Hneg eq_refl). apply Hrun. reflexivity.
Defined.

(* ===================================================================== *)
(** ** More on [ocr4all_processflow_wait] *)
(* ===================================================================== *)

Section WaitMore.

Variable e : env.
Variable cfg : settings.
Variable base_url : pystr.
Variable timeout_s : Z.

Local Abbreviation rqc := (current_request cfg base_url).
Local Abbreviation turn := (wait_turn cfg base_url timeout_s (clock e 0)).
Local Abbreviation status := (status e cfg base_url).
Local Abbreviation poll_events := (poll_events e cfg base_url).
Local Abbreviation waiting_turns := (waiting_turns e cfg base_url).
Local Abbreviation in_budget := (in_budget e timeout_s).
Local Abbreviation last_at := (last_at e cfg base_url).
Local Abbreviation at_turn := (at_turn e cfg base_url).
Local Abbreviation p := (ocr4all_processflow_wait cfg base_url timeout_s).

(** A poll that is not accepted ends the turn with its exception. *)
Lemma turn_refused w last :
  accepted (http e (sent w) rqc) = false ->
  ends e (turn last) w (called rqc (http e (sent w) rqc) w)
    (Raised (refusal (http e (sent w) rqc))).
Proof.
  intros H. unfold wait_turn. eapply ends_bind_raised.
  apply current_refused, H.
Qed.

Lemma wait_poll_refused n :
  (forall j, (j < n)%nat ->
     busy (http e j rqc) = true /\ in_budget j = true) ->
  accepted (http e n rqc) = false ->
  ends e p start
    (mkWorld (S n) (S n) (waiting_turns n ++ [EvHttp rqc (http e n rqc)]))
    (Raised (refusal (http e n rqc))).
Proof.
  intros Hturns Href. apply wait_starts.
  apply (wait_rounds e cfg base_url timeout_s n 0);
    [intros j Hj; apply Hturns; lia|].
  cbn [Nat.add]. apply ends_abort.
  apply (turn_refused (at_turn n) (last_at n) Href).
Qed.

(** One turn that goes round. *)
Lemma wait_round k w' o :
  busy (http e k rqc) = true -> in_budget k = true ->
  ends e (while_true turn (last_at (S k))) (at_turn (S k)) w' o ->
  ends e (while_true turn (last_at k)) (at_turn k) w' o.
Proof.
  intros Hb Hok Hend.
  apply (wait_rounds e cfg base_url timeout_s 1 k).
  - intros j Hj. replace j with k by lia. auto.
  - now rewrite Nat.add_1_r.
Qed.

(** From turn [k] on, the wait is over by turn [k + d] at the latest when
    the reading taken in that turn is beyond the budget. *)
Lemma wait_stops d :
  forall k,
  in_budget (k + d) = false ->
  exists w o,
    ends e (while_true turn (last_at k)) (at_turn k) w o /\
    (sent w <= S (k + d))%nat /\
    (o = Returned tt \/ o = Raised timed_out \/
     exists j, o = Raised (refusal (http e j rqc))).
Proof.
  induction d as [|d IH]; intros k Hlate.
  - rewrite Nat.add_0_r in Hlate.
    destruct (accepted (http e k rqc)) eqn:Ha.
    2:{ eexists _, _. split.
        - apply ends_abort. apply (turn_refused (at_turn k) (last_at k) Ha).
        - cbn. split; [lia|]. right. right. exists k. reflexivity. }
    destruct (accepted_busy_or_idle _ Ha) as [Hb|Hi].
    + destruct (busy_answer _ Hb) as (r & Hr & Hs & Ht).
      destruct (polled_at e cfg base_url k r Hr) as [Hw _].
      eexists _, _. split.
      * apply ends_abort.
        apply (turn_timeout e cfg base_url timeout_s (clock e 0)
                 (at_turn k) (last_at k) r Hr Hs Ht Hlate).
      * rewrite Hw. cbn. split; [lia|]. right. left. reflexivity.
    + destruct (idle_answer _ Hi) as (r & Hr & Hs & Ht).
      destruct (polled_at e cfg base_url k r Hr) as [Hw _].
      eexists _, _. split.
      * apply ends_leave.
        apply (turn_idle e cfg base_url timeout_s (clock e 0)
                 (at_turn k) (last_at k) r Hr Hs Ht).
      * rewrite Hw. cbn. split; [lia|]. left. reflexivity.
  - destruct (accepted (http e k rqc)) eqn:Ha.
    2:{ eexists _, _. split.
        - apply ends_abort. apply (turn_refused (at_turn k) (last_at k) Ha).
        - cbn. split; [lia|]. right. right. exists k. reflexivity. }
    destruct (accepted_busy_or_idle _ Ha) as [Hb|Hi].
    + destruct (in_budget k) eqn:Hok.
      * replace (k + S d)%nat with (S k + d)%nat in Hlate by lia.
        destruct (IH (S k) Hlate) as (w & o & Hrun & Hsent & Ho).
        exists w, o. split; [apply wait_round; assumption|].
        split; [lia | exact Ho].
      * destruct (busy_answer _ Hb) as (r & Hr & Hs & Ht).
        destruct (polled_at e cfg base_url k r Hr) as [Hw _].
        eexists _, _. split.
        -- apply ends_abort.
           apply (turn_timeout e cfg base_url timeout_s (clock e 0)
                    (at_turn k) (last_at k) r Hr Hs Ht Hok).
        -- rewrite Hw. cbn. split; [lia|]. right. left. reflexivity.
    + destruct (idle_answer _ Hi) as (r & Hr & Hs & Ht).
      destruct (polled_at e cfg base_url k r Hr) as [Hw _].
      eexists _, _. split.
      * apply ends_leave.
        apply (turn_idle e cfg base_url timeout_s (clock e 0)
                 (at_turn k) (last_at k) r Hr Hs Ht).
      * rewrite Hw. cbn. split; [lia|]. left. reflexivity.
Qed.

End WaitMore.

(** X9.  [ocr4all_processflow_wait] does not turn a failing status poll
    into a timeout or a retry: after [n] busy polls within the budget, a
    poll that is answered with an HTTP error status or breaks in
    transport ends the function with that exception, and nothing is
    logged for it. *)
Theorem wait_passes_poll_failures_on :
  forall e cfg base_url timeout_s n,
  let rqc := current_request cfg base_url in
  (forall j, (j < n)%nat ->
     busy (http e j rqc) = true /\ in_budget e timeout_s j = true) ->
  accepted (http e n rqc) = false ->
  ends e (ocr4all_processflow_wait cfg base_url timeout_s) start
    (mkWorld (S n) (S n)
       (waiting_turns e cfg base_url n ++ [EvHttp rqc (http e n rqc)]))
    (Raised (refusal (http e n rqc))).
Proof.
  intros e cfg base_url timeout_s n rqc. subst rqc. apply wait_poll_refused.
Qed.

Lemma wait_passes_poll_failures_on_witness :
  (forall j, (j < 1)%nat ->
     busy (http MoreSamples.status_fails_env j WaitSamples.rqc) = true /\
     in_budget MoreSamples.status_fails_env 3600 j = true) /\
  accepted (http MoreSamples.status_fails_env 1 WaitSamples.rqc) = false /\
  ends MoreSamples.status_fails_env
    (ocr4all_processflow_wait Sample.cfg Sample.base 3600) start
    (mkWorld 2 2
       [EvHttp WaitSamples.rqc (Sample.reply 200 "recognition");
        status_line (lit "recognition");
        EvSleep 1;
        EvHttp WaitSamples.rqc (Sample.reply 502 "Bad Gateway")])
    (Raised (HTTPError (mkResponse 502 (lit "Bad Gateway") None))).
Proof.
  assert (Hturns : forall j, (j < 1)%nat ->
            busy (http MoreSamples.status_fails_env j WaitSamples.rqc) = true /\
            in_budget MoreSamples.status_fails_env 3600 j = true).
  { intros [|j] Hj; [split; reflexivity | lia]. }
  split; [exact Hturns|]. split; [reflexivity|].
  exact (wait_passes_poll_failures_on MoreSamples.status_fails_env Sample.cfg
           Sample.base 3600 1 Hturns eq_refl).
Defined.

(** X10.  [ocr4all_processflow_wait] cannot outlast its budget by more
    than the turn in which the clock shows it spent: if the reading taken
    after poll [m] is beyond the budget, that is, its float difference to
    the reading taken at the start is greater than [timeout_s], the
    function ends after at most [m + 1] polls, by returning, by the
    timeout, or by the exception of a failed poll. *)
Theorem wait_ends_once_budget_is_spent :
  forall e cfg base_url timeout_s m,
  in_budget e timeout_s m = false ->
  exists w o,
    ends e (ocr4all_processflow_wait cfg base_url timeout_s) start w o /\
    (sent w <= S m)%nat /\
    (o = Returned tt \/ o = Raised timed_out \/
     exists j, o = Raised (refusal (http e j (current_request cfg base_url)))).
Proof.
  intros e cfg base_url timeout_s m Hlate.
  destruct (wait_stops e cfg base_url timeout_s m 0 Hlate)
    as (w & o & Hrun & Hsent & Ho).
  exists w, o. split; [apply wait_starts, Hrun|]. auto.
Qed.

Lemma wait_ends_once_budget_is_spent_witness :
  in_budget WaitSamples.stuck_env 10 1 = false /\
  exists w o,
    ends WaitSamples.stuck_env
      (ocr4all_processflow_wait Sample.cfg Sample.base 10) start w o /\
    (sent w <= 2)%nat /\
    (o = Returned tt \/ o = Raised timed_out \/
     exists j, o = Raised (refusal (http WaitSamples.stuck_env j
                                      (current_request Sample.cfg Sample.base)))).
Proof.
  split; [reflexivity|].
  exact (wait_ends_once_budget_is_spent WaitSamples.stuck_env Sample.cfg
           Sample.base 10 1 eq_refl).
Defined.

(* ===================================================================== *)
(** ** [int] reads what [str] writes *)
(* ===================================================================== *)

Lemma lit_String c s : lit (String c s) = N_of_ascii c :: lit s.
Proof. reflexivity. Qed.

Section ReadingDecimals.

Variable to_decimal : char -> option N.
Variable max_str_digits : N.

Local Abbreviation written d := (lit (NilEmpty.string_of_uint d)).

Lemma written_length d : List.length (written d) = Decimal.nb_digits d.
Proof.
  induction d; cbn [NilEmpty.string_of_uint Decimal.nb_digits];
    [reflexivity | ..]; rewrite lit_String; cbn [List.length]; congruence.
Qed.

Lemma written_no_space d : Forall (fun c => isspace c = false) (written d).
Proof.
  induction d; cbn [NilEmpty.string_of_uint];
    [constructor | ..]; rewrite lit_String;
    constructor; (reflexivity || assumption).
Qed.

(** The scan of a written numeral, started in the middle of a literal. *)
Lemma scan_written_pos d :
  forall a count rest,
  scan_digits (List.map (classify to_decimal) (written d) ++ rest)
    (Z.pos a) count false
  = scan_digits rest (Z.pos (Pos.of_uint_acc d a))
      (count + N.of_nat (Decimal.nb_digits d)) false.
Proof.
  induction d; intros a count rest;
    cbn [NilEmpty.string_of_uint Decimal.nb_digits Pos.of_uint_acc];
    [ change (written Decimal.Nil) with (@nil char);
      cbn [List.map app]; f_equal; lia | .. ];
    rewrite lit_String; cbn [List.map app];
    match goal with
    | |- context [classify to_decimal ?c] =>
        change (classify to_decimal c) with (TDigit (c - 48))
    end;
    cbn [scan_digits];
    match goal with
    | |- scan_digits _ ?v _ _
         = scan_digits _ (Z.pos (Pos.of_uint_acc d ?b)) _ _ =>
        replace v with (Z.pos b)
          by (match goal with
              | |- context [Z.of_N ?x] =>
                  let y := eval vm_compute in (Z.of_N x) in
                  change (Z.of_N x) with y
              end; lia)
    end;
    rewrite IHd; f_equal; lia.
Qed.

(** The scan of a written numeral from its first digit. *)
Lemma scan_written d :
  forall count rest,
  scan_digits (List.map (classify to_decimal) (written d) ++ rest) 0 count false
  = scan_digits rest (Z.of_N (Pos.of_uint d))
      (count + N.of_nat (Decimal.nb_digits d)) false.
Proof.
  induction d; intros count rest;
    cbn [NilEmpty.string_of_uint Decimal.nb_digits Pos.of_uint];
    [ change (written Decimal.Nil) with (@nil char);
      cbn [List.map app]; f_equal; lia | .. ];
    rewrite lit_String; cbn [List.map app];
    match goal with
    | |- context [classify to_decimal ?c] =>
        change (classify to_decimal c) with (TDigit (c - 48))
    end;
    cbn [scan_digits].
  1: { change (10 * 0 + Z.of_N (N_of_ascii "0" - 48)) with 0.
       rewrite IHd. f_equal. lia. }
  all: match goal with
       | |- scan_digits _ ?v _ _
            = scan_digits _ (Z.of_N (N.pos (Pos.of_uint_acc _ ?b))) _ _ =>
           change v with (Z.pos b)
       end;
       rewrite scan_written_pos; f_equal; lia.
Qed.

Lemma head_is_digit d :
  d <> Decimal.Nil ->
  exists v ts, List.map (classify to_decimal) (written d) = TDigit v :: ts.
Proof.
  destruct d; intros Hd; [contradiction | ..];
    cbn [NilEmpty.string_of_uint]; rewrite lit_String; cbn [List.map];
    eexists _, _;
    match goal with
    | |- context [classify to_decimal ?c] =>
        change (classify to_decimal c) with (TDigit (c - 48))
    end; reflexivity.
Qed.

Lemma string_of_nonnil d :
  d <> Decimal.Nil ->
  NilZero.string_of_uint d = NilEmpty.string_of_uint d.
Proof. destruct d; [contradiction | reflexivity ..]. Qed.

(** The limit on the length of a literal applies from 641 digits on. *)
Lemma few_digits count :
  (count <= 640)%N -> too_many_digits max_str_digits count = false.
Proof.
  intros H. unfold too_many_digits.
  replace (640 <? count)%N with false by (symmetry; apply N.ltb_ge; exact H).
  now rewrite andb_false_r.
Qed.

(** [int(str(n))] is [n], as long as [str(n)] stays below the limit. *)
Lemma py_int_of_int n :
  (List.length (of_int n) <= 640)%nat ->
  py_int to_decimal max_str_digits (of_int n) = Some n.
Proof.
  intros Hlen. unfold of_int in *. destruct n as [|p|p]; cbn [Z.to_int] in *.
  - change (py_int to_decimal max_str_digits
              (lit (NilZero.string_of_int (Decimal.Pos (Decimal.D0 Decimal.Nil)))))
      with (if too_many_digits max_str_digits 1 then None else Some 0).
    now rewrite few_digits.
  - cbn [NilZero.string_of_int] in *.
    pose proof (DecimalPos.Unsigned.to_uint_nonnil p) as Hnil.
    pose proof (string_of_nonnil _ Hnil) as Hw.
    rewrite Hw in *. rewrite written_length in Hlen.
    destruct (head_is_digit _ Hnil) as (v & ts & Hhead).
    unfold py_int. rewrite Hhead. cbn [skip_spaces].
    rewrite <- Hhead.
    rewrite <- (List.app_nil_r (List.map _ _)).
    rewrite scan_written. cbn [scan_digits skip_spaces].
    rewrite DecimalPos.Unsigned.of_to.
    rewrite few_digits by lia. reflexivity.
  - cbn [NilZero.string_of_int] in *. rewrite lit_String in *.
    cbn [List.length] in Hlen.
    pose proof (DecimalPos.Unsigned.to_uint_nonnil p) as Hnil.
    pose proof (string_of_nonnil _ Hnil) as Hw.
    rewrite Hw in *. rewrite written_length in Hlen.
    destruct (head_is_digit _ Hnil) as (v & ts & Hhead).
    unfold py_int. cbn [List.map].
    change (classify to_decimal (N_of_ascii "-")) with (TSign true).
    cbn [skip_spaces]. rewrite Hhead. rewrite <- Hhead.
    rewrite <- (List.app_nil_r (List.map _ _)).
    rewrite scan_written. cbn [scan_digits skip_spaces].
    rewrite DecimalPos.Unsigned.of_to.
    rewrite few_digits by lia. reflexivity.
Qed.

End ReadingDecimals.

Lemma of_int_no_space n : Forall (fun c => isspace c = false) (of_int n).
Proof.
  unfold of_int. destruct n as [|p|p]; cbn [Z.to_int NilZero.string_of_int].
  - repeat constructor.
  - rewrite string_of_nonnil by apply DecimalPos.Unsigned.to_uint_nonnil.
    apply written_no_space.
  - rewrite lit_String. constructor; [reflexivity|].
    rewrite string_of_nonnil by apply DecimalPos.Unsigned.to_uint_nonnil.
    apply written_no_space.
Qed.

Lemma strip_padded_of_int n s : padded (of_int n) s -> strip s = of_int n.
Proof.
  pose proof (of_int_no_space n) as Hall.
  apply strip_padded.
  - intros c t E. rewrite E in Hall. now inversion Hall.
  - intros t c E. rewrite E in Hall. apply Forall_app in Hall.
    destruct Hall as [_ Hc]. now inversion Hc.
Qed.

(** X11.  [ocr4all_threads] reads back every integer the server writes in
    the usual decimal form: when the accepted answer is [str(n)] with any
    white space around it, the function returns [n] if [n] is at least 1
    and 1 otherwise, whatever the interpreter's digit tables and limit
    are, as long as the numeral has at most 640 characters. *)
Theorem threads_reads_written_integer :
  forall e cfg to_decimal max_str_digits base_url w r n,
  let rq := threads_request cfg base_url in
  http e (sent w) rq = Answer r ->
  raise_for_status r = Returned tt ->
  padded (of_int n) (text r) ->
  (List.length (of_int n) <= 640)%nat ->
  ends e (ocr4all_threads cfg to_decimal max_str_digits base_url) w
    (called rq (Answer r) w) (Returned (Z.max 1 n)).
Proof.
  intros e cfg to_decimal max_str_digits base_url w r n rq Hr Hs Hpad Hlen.
  pose proof (threads_answered e cfg to_decimal max_str_digits base_url w r Hr Hs)
    as Hrun.
  cbv beta zeta in Hrun.
  rewrite (strip_padded_of_int n _ Hpad) in Hrun.
  rewrite py_int_of_int in Hrun by exact Hlen.
  exact Hrun.
Qed.

Lemma threads_reads_written_integer_witness :
  padded (of_int 8) (lit " 8
") /\
  ends eight_threads_env
    (ocr4all_threads Sample.cfg ascii_only 4300 Sample.base) start
    (called (threads_request Sample.cfg Sample.base)
       (Sample.reply 200 " 8
") start)
    (Returned 8).
Proof.
  assert (Hpad : padded (of_int 8) (lit " 8
")).
  { exists [32%N], [10%N]. repeat split. }
  split; [exact Hpad|].
  apply (threads_reads_written_integer eight_threads_env Sample.cfg ascii_only
           4300 Sample.base start
           (mkResponse 200 (lit " 8
") None) 8 eq_refl eq_refl Hpad).
  change (1 <= 640)%nat. lia.
Defined.

(* ===================================================================== *)
(** ** More on [ocr4all_get_page_ids] *)
(* ===================================================================== *)

Section PageIds.

Variable e : env.
Variable cfg : settings.
Variable repr_str : pystr -> pystr.
Variable base_url image_type : pystr.

Local Abbreviation rq := (pagelist_request cfg base_url image_type).
Local Abbreviation p :=
  (ocr4all_get_page_ids cfg repr_str base_url image_type).

Lemma page_ids_refused w :
  accepted (http e (sent w) rq) = false ->
  ends e p w (called rq (http e (sent w) rq) w)
    (Raised (refusal (http e (sent w) rq))).
Proof.
  intros H. unfold ocr4all_get_page_ids.
  apply (ends_refused e rq _ w H).
Qed.

Lemma page_ids_listed w r l :
  http e (sent w) rq = Answer r -> raise_for_status r = Returned tt ->
  json_body r = Some (JList l) ->
  ends e p w (called rq (Answer r) w)
    (Returned (List.map (py_str repr_str) l)).
Proof.
  intros Hr Hs Hj. unfold ocr4all_get_page_ids.
  eapply ends_accepted; [exact Hr | exact Hs |].
  rewrite Hj. repeat forward.
Qed.

Lemma page_ids_not_list w r data :
  http e (sent w) rq = Answer r -> raise_for_status r = Returned tt ->
  json_body r = Some data -> is_list data = false ->
  exists x, ends e p w (called rq (Answer r) w) (Raised x).
Proof.
  intros Hr Hs Hj Hl. eexists. unfold ocr4all_get_page_ids.
  eapply ends_accepted; [exact Hr | exact Hs |].
  rewrite Hj. forward. rewrite Hl. cbn. repeat forward.
Qed.

Lemma page_ids_not_json w r :
  http e (sent w) rq = Answer r -> raise_for_status r = Returned tt ->
  json_body r = None ->
  exists x, ends e p w (called rq (Answer r) w) (Raised x).
Proof.
  intros Hr Hs Hj. eexists. unfold ocr4all_get_page_ids.
  eapply ends_accepted; [exact Hr | exact Hs |].
  rewrite Hj. repeat forward.
Qed.

End PageIds.

(** X12.  [ocr4all_get_page_ids] hands out page ids only from an accepted
    answer whose body is a JSON array: whenever it returns, the single
    call it made was answered without an HTTP error status, the body
    decoded to an array, and the result is the [str] of the elements of
    that array, one id per element and in their order.  In particular an
    answer with an HTTP error status yields no ids even when its body is
    an array. *)
Theorem page_ids_come_from_an_accepted_array :
  forall e cfg repr_str base_url image_type w w' ids,
  let rq := pagelist_request cfg base_url image_type in
  ends e (ocr4all_get_page_ids cfg repr_str base_url image_type) w w'
    (Returned ids) ->
  exists r l,
    http e (sent w) rq = Answer r /\
    raise_for_status r = Returned tt /\
    json_body r = Some (JList l) /\
    ids = List.map (py_str repr_str) l /\
    List.length ids = List.length l /\
    w' = called rq (Answer r) w.
Proof.
  intros e cfg repr_str base_url image_type w w' ids rq Hend. subst rq.
  destruct (accepted (http e (sent w)
                        (pagelist_request cfg base_url image_type))) eqn:Ha.
  - destruct (accepted_answer _ Ha) as (r & Hr & Hs).
    destruct (json_body r) as [data|] eqn:Hj.
    + destruct data as [| | | | |l|];
        try (destruct (page_ids_not_list e cfg repr_str base_url image_type
                         w r _ Hr Hs Hj eq_refl) as (x & Hrun);
             destruct (ends_unique _ _ _ _ _ _ _ Hend Hrun) as [_ Habs];
             discriminate Habs).
      pose proof (page_ids_listed e cfg repr_str base_url image_type
                    w r l Hr Hs Hj) as Hrun.
      destruct (ends_unique _ _ _ _ _ _ _ Hend Hrun) as [Hw Hids].
      injection Hids as ->.
      exists r, l. rewrite length_map. auto 10.
    + destruct (page_ids_not_json e cfg repr_str base_url image_type
                  w r Hr Hs Hj) as (x & Hrun).
      destruct (ends_unique _ _ _ _ _ _ _ Hend Hrun) as [_ Habs].
      discriminate Habs.
  - pose proof (page_ids_refused e cfg repr_str base_url image_type w Ha)
      as Hrun.
    destruct (ends_unique _ _ _ _ _ _ _ Hend Hrun) as [_ Habs].
    discriminate Habs.
Qed.

Lemma page_ids_come_from_an_accepted_array_witness :
  exists w',
    ends three_pages_env
      (ocr4all_get_page_ids Sample.cfg Sample.quoted Sample.base (lit "Binary"))
      start w' (Returned [lit "0001"; lit "0002"; lit "3"]) /\
    exists r l,
      http three_pages_env (sent start)
        (pagelist_request Sample.cfg Sample.base (lit "Binary")) = Answer r /\
      raise_for_status r = Returned tt /\
      json_body r = Some (JList l) /\
      [lit "0001"; lit "0002"; lit "3"] = List.map (py_str Sample.quoted) l /\
      List.length [lit "0001"; lit "0002"; lit "3"] = List.length l /\
      w' = called (pagelist_request Sample.cfg Sample.base (lit "Binary"))
             (Answer r) start.
Proof.
  assert (Hrun :
    ends three_pages_env
      (ocr4all_get_page_ids Sample.cfg Sample.quoted Sample.base (lit "Binary"))
      start
      (called (pagelist_request Sample.cfg Sample.base (lit "Binary"))
         (Answer (mkResponse 200 three_pages_text (Some three_pages))) start)
      (Returned [lit "0001"; lit "0002"; lit "3"])).
  { apply (ends_by_steps _ 20). vm_compute. reflexivity. }
  eexists. split; [exact Hrun|].
  exact (page_ids_come_from_an_accepted_array three_pages_env Sample.cfg
           Sample.quoted Sample.base (lit "Binary") start _ _ Hrun).
Defined.

(* ===================================================================== *)
(** ** More on [ocr4all_convert_project_files] *)
(* ===================================================================== *)

Section Convert.

Variable e : env.
Variable base_url : pystr.
Variable delete_blank : bool.
Variable dpi timeout_s : Z.

Local Abbreviation rq := (convert_request base_url delete_blank dpi timeout_s).
Local Abbreviation p :=
  (ocr4all_convert_project_files base_url delete_blank dpi timeout_s).

Lemma convert_answered w r :
  http e (sent w) rq = Answer r -> raise_for_status r = Returned tt ->
  ends e p w (called rq (Answer r) w) (Returned (text r)).
Proof.
  intros Hr Hs. unfold ocr4all_convert_project_files.
  eapply ends_tried. forward. rewrite Hs. repeat forward.
Qed.

Lemma convert_timed_out w :
  http e (sent w) rq = Broken ReadTimeout ->
  ends e p w
    (seen (EvLog LWarning
             [FLit "convertProjectFiles timed out after "; FInt timeout_s;
              FLit "s; assuming conversion continues in background."])
       (called rq (Broken ReadTimeout) w))
    (Returned (lit "")).
Proof.
  intros Hr. unfold ocr4all_convert_project_files. eapply ends_caught.
  - forward.
  - reflexivity.
  - repeat forward.
Qed.

Lemma convert_broken w x :
  http e (sent w) rq = Broken x -> x <> ReadTimeout ->
  ends e p w (called rq (Broken x) w) (Raised (RequestException x)).
Proof.
  intros Hr Hx. unfold ocr4all_convert_project_files. eapply ends_uncaught.
  - forward.
  - destruct x; try reflexivity. contradiction.
Qed.

Lemma convert_refused w r x :
  http e (sent w) rq = Answer r -> raise_for_status r = Raised x ->
  ends e p w (called rq (Answer r) w) (Raised x).
Proof.
  intros Hr Hs. unfold ocr4all_convert_project_files.
  assert (Hx : x = HTTPError r).
  { unfold raise_for_status in Hs.
    destruct ((400 <=? status_code r) && (status_code r <? 600));
      congruence. }
  subst x. eapply ends_uncaught.
  - forward. rewrite Hs. forward.
  - reflexivity.
Qed.

End Convert.

(** X13.  A value returned by [ocr4all_convert_project_files] has one of
    two origins: it is the body of an answer without an HTTP error
    status, and then nothing was logged; or the POST ran into a read
    timeout, and then it is the empty string and the one warning was
    logged.  So a non-empty result is always what the server answered,
    while an empty one tells a timeout from an empty answer only through
    the log. *)
Theorem convert_result_is_answer_or_timeout :
  forall e base_url delete_blank dpi timeout_s w w' s,
  let rq := convert_request base_url delete_blank dpi timeout_s in
  ends e (ocr4all_convert_project_files base_url delete_blank dpi timeout_s)
    w w' (Returned s) ->
  (exists r,
     http e (sent w) rq = Answer r /\ raise_for_status r = Returned tt /\
     s = text r /\ w' = called rq (Answer r) w) \/
  (http e (sent w) rq = Broken ReadTimeout /\ s = [] /\
   w' = seen (EvLog LWarning
                [FLit "convertProjectFiles timed out after "; FInt timeout_s;
                 FLit "s; assuming conversion continues in background."])
          (called rq (Broken ReadTimeout) w)).
Proof.
  intros e base_url delete_blank dpi timeout_s w w' s rq Hend. subst rq.
  destruct (http e (sent w)
              (convert_request base_url delete_blank dpi timeout_s))
    as [r|x] eqn:Hr.
  - destruct (raise_for_status r) as [[]|x] eqn:Hs.
    + pose proof (convert_answered e base_url delete_blank dpi timeout_s
                    w r Hr Hs) as Hrun.
      destruct (ends_unique _ _ _ _ _ _ _ Hend Hrun) as [Hw Hret].
      injection Hret as ->. left. exists r. auto.
    + pose proof (convert_refused e base_url delete_blank dpi timeout_s
                    w r x Hr Hs) as Hrun.
      destruct (ends_unique _ _ _ _ _ _ _ Hend Hrun) as [_ Habs].
      discriminate Habs.
  - assert (Hcases : x = ReadTimeout \/ x <> ReadTimeout)
      by (destruct x; (now left) || (right; discriminate)).
    destruct Hcases as [->|Hx].
    + pose proof (convert_timed_out e base_url delete_blank dpi timeout_s
                    w Hr) as Hrun.
      destruct (ends_unique _ _ _ _ _ _ _ Hend Hrun) as [Hw Hret].
      injection Hret as ->. right. auto.
    + pose proof (convert_broken e base_url delete_blank dpi timeout_s
                    w x Hr Hx) as Hrun.
      destruct (ends_unique _ _ _ _ _ _ _ Hend Hrun) as [_ Habs].
      discriminate Habs.
Qed.

Lemma convert_result_is_answer_or_timeout_witness :
  exists w',
    ends slow_convert_env
      (ocr4all_convert_project_files Sample.base true 300 600) start w'
      (Returned []) /\
    ((exists r,
        http slow_convert_env (sent start)
          (convert_request Sample.base true 300 600) = Answer r /\
        raise_for_status r = Returned tt /\
        [] = text r /\
        w' = called (convert_request Sample.base true 300 600) (Answer r) start)
     \/
     (http slow_convert_env (sent start)
        (convert_request Sample.base true 300 600) = Broken ReadTimeout /\
      @nil char = [] /\
      w' = seen (EvLog LWarning
                   [FLit "convertProjectFiles timed out after "; FInt 600;
                    FLit "s; assuming conversion continues in background."])
             (called (convert_request Sample.base true 300 600)
                (Broken ReadTimeout) start))).
Proof.
  assert (Hrun :
    ends slow_convert_env
      (ocr4all_convert_project_files Sample.base true 300 600) start
      (seen (EvLog LWarning
               [FLit "convertProjectFiles timed out after "; FInt 600;
                FLit "s; assuming conversion continues in background."])
         (called (convert_request Sample.base true 300 600)
            (Broken ReadTimeout) start))
      (Returned [])).
  { apply (ends_by_steps _ 20). vm_compute. reflexivity. }
  eexists. split; [exact Hrun|].
  exact (convert_result_is_answer_or_timeout slow_convert_env Sample.base true
           300 600 start _ _ Hrun).
Defined.
